(** * Event dispatch and scheduled synchronisation core

    A shallow embedding of the message router ([KafkaConsumerService]),
    the project handler ([ProjectHandler]) and the scheduled pull job
    ([CronJobService]), followed by the properties their specification
    states about them.

    Conventions of the embedding.
    - An [async] method is a state transformer returning a completion:
      either a value or a thrown value.  Every [await] in the modelled
      code is sequential, so a method body is a sequence of binds.
    - A thrown value is an [Error] object (a class and a [message]) or
      any other value: a promise may reject with [undefined], and a
      [catch] clause that reads [error.message] then throws itself.
    - Values are plain data, as [JSON.parse] yields them, and dates.
      Numbers are integer valued; the text of a string is held in UTF-8.
    - Collaborators whose code lives outside the modelled files (the
      transform library, the domain handlers, the storage gateway, the
      external API client, [JSON.parse], the clock) are fields of an
      environment record; every property is stated for all environments.
    - A log call is recorded as its level, its fixed text (pictographs
      left out) and the values interpolated into it.  A value put into a
      template literal is converted to text first, and that conversion
      can throw. *)

From Stdlib Require Import ZArith Lia.
From stdpp Require Import base strings list gmap.

#[local] Set Warnings "-register-all".
#[local] Open Scope string_scope.
#[local] Open Scope Z_scope.
#[local] Open Scope list_scope.

(** ** JavaScript values, errors and completions *)

Inductive JsVal : Type :=
| VUndefined
| VNull
| VBool (b : bool)
| VNum (n : Z)
| VStr (s : string)
| VDate (t : Z)
| VArr (xs : list JsVal)
| VObj (fields : list (string * JsVal)).

(** [!v] is [negb (truthy v)].  Numbers are integer valued here: the
    modelled code only tests them for zero. *)
Definition truthy (v : JsVal) : bool :=
  match v with
  | VUndefined | VNull => false
  | VBool b => b
  | VNum n => negb (Z.eqb n 0)
  | VStr s => negb (String.eqb s "")
  | VDate _ | VArr _ | VObj _ => true
  end.

(** The value of an own property of an object, [undefined] when there is
    none. *)
Definition lookupField (k : string) (fields : list (string * JsVal))
    : JsVal :=
  match List.find (fun p => String.eqb (fst p) k) fields with
  | Some p => snd p
  | None => VUndefined
  end.

(** The UTF-16 code units a byte of UTF-8 text stands for: one for the
    byte that opens a character of the basic plane, two for the byte that
    opens a character beyond it, none for a continuation byte. *)
Definition codeUnits (c : Ascii.ascii) : nat :=
  match c with
  | Ascii.Ascii _ _ _ _ b4 b5 b6 b7 =>
      if negb b7 then 1%nat
      else if negb b6 then 0%nat
      else if b5 && b4 then 2%nat
      else 1%nat
  end.

(** [text.length]: the number of UTF-16 code units of the text. *)
Fixpoint utf16Length (text : string) : nat :=
  match text with
  | EmptyString => 0%nat
  | String c rest => (codeUnits c + utf16Length rest)%nat
  end.

(** [v.k] for a [v] that is neither [undefined] nor [null]. *)
Definition property (v : JsVal) (k : string) : JsVal :=
  match v with
  | VObj fields => lookupField k fields
  | VArr xs =>
      if String.eqb k "length" then VNum (Z.of_nat (length xs))
      else VUndefined
  | VStr s =>
      if String.eqb k "length" then VNum (Z.of_nat (utf16Length s))
      else VUndefined
  | _ => VUndefined
  end.

Definition nullish (v : JsVal) : bool :=
  match v with
  | VUndefined | VNull => true
  | _ => false
  end.

(** [v?.k] *)
Definition optionalProperty (v : JsVal) (k : string) : JsVal :=
  if nullish v then VUndefined else property v k.

(** [v === 'literal'] *)
Definition strictEquals (v : JsVal) (literal : string) : bool :=
  match v with
  | VStr s => String.eqb s literal
  | _ => false
  end.

(** [a || b] *)
Definition orElse (a b : JsVal) : JsVal := if truthy a then a else b.

(** Whether a value has a text: whether [String(v)], and so a template
    literal that holds [v], completes.  An array joins the texts of its
    elements.  An object of plain data inherits [toString] unless an own
    property of that name hides it; its own properties are data, none is
    callable, and the inherited [valueOf] returns the object itself, so
    the conversion of an object with an own [toString] throws. *)
Fixpoint convertible (v : JsVal) : bool :=
  match v with
  | VArr xs => forallb convertible xs
  | VObj fields =>
      negb (existsb (fun p => String.eqb (fst p) "toString") fields)
  | _ => true
  end.

Inductive ErrorClass : Type :=
| PlainError
| TypeError
| SyntaxError
| ValidationError
| ForeignError.

Record JsError : Type := mkError { errClass : ErrorClass; message : string }.

(** What a [throw] statement or a rejected promise carries: an [Error]
    object, or any other value ([reject(undefined)], [throw null],
    [throw 'text']). *)
Inductive Thrown : Type :=
| ErrorObject (e : JsError)
| ThrownValue (v : JsVal).

Coercion ErrorObject : JsError >-> Thrown.

(** [error instanceof ValidationError] *)
Definition instanceofValidationError (error : Thrown) : bool :=
  match error with
  | ErrorObject e =>
      match errClass e with ValidationError => true | _ => false end
  | ThrownValue _ => false
  end.

Inductive Completion (A : Type) : Type :=
| Return (a : A)
| Throw (error : Thrown).
Arguments Return {A} a.
Arguments Throw {A} error.

Definition returns {A} (c : Completion A) : bool :=
  match c with Return _ => true | Throw _ => false end.

(** ** Log records *)

Inductive Level : Type := LLog | LDebug | LInfo | LWarn | LError.

Record LogEntry : Type := mkLog {
  level : Level;
  text : string;
  cause : option Thrown;
  detail : list JsVal
}.

Definition isWarning (l : LogEntry) : bool :=
  match level l with LWarn => true | _ => false end.

Definition isErrorLog (l : LogEntry) : bool :=
  match level l with LError => true | _ => false end.

(** ** Sequencing of effects *)

Definition M (S A : Type) : Type := S -> S * Completion A.

Definition ret {S A} (a : A) : M S A := fun s => (s, Return a).

Definition throw {S A} (error : Thrown) : M S A := fun s => (s, Throw error).

Definition bind {S A B} (m : M S A) (k : A -> M S B) : M S B :=
  fun s =>
    match m s with
    | (s', Return a) => k a s'
    | (s', Throw e) => (s', Throw e)
    end.

(** [try { m } catch (error) { h error }] *)
Definition tryCatch {S A} (m : M S A) (h : Thrown -> M S A) : M S A :=
  fun s =>
    match m s with
    | (s', Return a) => (s', Return a)
    | (s', Throw e) => h e s'
    end.

(** [try { m } finally { f }]: [f] runs on every exit path; when [f]
    itself completes normally the completion of [m] is kept. *)
Definition tryFinally {S A} (m : M S A) (f : M S unit) : M S A :=
  fun s =>
    match m s with
    | (s', r) =>
        match f s' with
        | (s'', Return _) => (s'', r)
        | (s'', Throw e) => (s'', Throw e)
        end
    end.

(** [v.k], which throws on [undefined] and [null]. *)
Definition member (v : JsVal) (k : string) : Completion JsVal :=
  if nullish v then
    Throw (mkError TypeError "Cannot read properties of undefined")
  else Return (property v k).

(** Sequencing of completions that involve no state. *)
Definition bindC {A B} (c : Completion A) (k : A -> Completion B)
    : Completion B :=
  match c with
  | Return a => k a
  | Throw e => Throw e
  end.

(** A completion computed without touching the state. *)
Definition liftC {S A} (c : Completion A) : M S A := fun s => (s, c).

Notation "'let*' x ':=' m 'in' k" := (bind m (fun x => k))
  (at level 10, x name, m at level 100, k at level 200).
Notation "m '>>' k" := (bind m (fun _ => k))
  (at level 100, k at level 200, right associativity).
Notation "'let?' x ':=' c 'in' k" := (bindC c (fun x => k))
  (at level 10, x name, c at level 100, k at level 200).
Notation "c '?>' k" := (bindC c (fun _ => k))
  (at level 100, k at level 200, right associativity).

(** The conversion of one substitution of a template literal. *)
Definition toText (v : JsVal) : Completion unit :=
  if convertible v then Return tt
  else Throw (mkError TypeError "Cannot convert object to primitive value").

(** The substitutions of a template literal, converted from left to
    right. *)
Fixpoint template (values : list JsVal) : Completion unit :=
  match values with
  | [] => Return tt
  | v :: rest => toText v ?> template rest
  end.

(** [error.message] in a [catch] clause: a property read, which throws
    when the value caught is [undefined] or [null]. *)
Definition messageOf (error : Thrown) : Completion JsVal :=
  match error with
  | ErrorObject e => Return (VStr (message e))
  | ThrownValue v => member v "message"
  end.

(** [error.stack], read likewise.  The text of a stack is not modelled:
    a log entry records the value that was caught. *)
Definition stackOf (error : Thrown) : Completion unit :=
  match error with
  | ErrorObject _ => Return tt
  | ThrownValue v => member v "stack" ?> Return tt
  end.

(** What the arguments of
    [logger.error(`...: ${error.message}`, error.stack)] evaluate:
    the message is read and converted, then the stack is read. *)
Definition describe (error : Thrown) : Completion unit :=
  let? msg := messageOf error in
  template [msg] ?>
  stackOf error.

(** ** The scheduled synchronisation job *)

Module CronJobService.

(** The counters are JavaScript numbers; they are modelled as integers,
    exact as increments by one are up to 2^53. *)
Record CronJobStatus : Type := mkStatus {
  isRunning : bool;
  lastExecution : option Z;
  lastSuccess : option Z;
  lastError : JsVal;
  totalExecutions : Z;
  successfulExecutions : Z;
  failedExecutions : Z
}.

(** A transformed item ([Partial<Course>], [Partial<QuestionSet>]) and a
    stored row: the natural key and the remaining columns. *)
Record Entity : Type := mkEntity {
  identifier : string;
  columns : gmap string JsVal
}.

(** A raw item of the external API.  The type declared for it is not
    checked when a response arrives: an element of [data] is whatever the
    API sent, [null] included. *)
Definition PrathamContentData : Type := JsVal.

Record ExternalApiResponse : Type := mkResponse {
  success : bool;
  data : option (list PrathamContentData)
}.

Record ProcessResult : Type := mkResult {
  totalProcessed : Z;
  duration : Z
}.

Inductive Kind : Type := CourseKind | QuestionSetKind.

(** The three repository calls the job issues. *)
Inductive RepoOp : Type :=
| FindOne (key : string)
| Update (key : string) (payload : Entity)
| Save (payload : Entity).

(** What the collaborators do during one run.  [clock] gives the
    successive readings of the system clock; a repository call for which
    [courseRepoFault] (resp. [questionSetRepoFault]) answers [Some e]
    rejects with [e] and leaves the table as it was.  The entity classes
    [Course] and [QuestionSet] are declared outside the modelled files:
    [courseColumnDefaults] (resp. [questionSetColumnDefaults]) gives the
    values their table fills in, on insert, for the columns the inserted
    entity leaves out. *)
Record Env : Type := mkEnv {
  clock : nat -> Z;
  fetchCourseData : Completion ExternalApiResponse;
  fetchQuestionSetData : Completion ExternalApiResponse;
  transformExternalCourseData : PrathamContentData -> Completion Entity;
  transformQuestionSetData : PrathamContentData -> Completion Entity;
  courseRepoFault : RepoOp -> option Thrown;
  questionSetRepoFault : RepoOp -> option Thrown;
  courseColumnDefaults : Entity -> gmap string JsVal;
  questionSetColumnDefaults : Entity -> gmap string JsVal
}.

(** The service instance and what it reaches: its [jobStatus], the two
    tables, the log.  [statusHistory] and [issued] are ghost fields: every
    value [jobStatus] has been assigned, and every repository call made,
    in order. *)
Record Service : Type := mkService {
  jobStatus : CronJobStatus;
  statusHistory : list CronJobStatus;
  courseRepo : list Entity;
  questionSetRepo : list Entity;
  issued : list (Kind * RepoOp);
  logs : list LogEntry;
  clockReads : nat
}.

Definition initialStatus : CronJobStatus :=
  mkStatus false None None VUndefined 0 0 0.

Definition initialService (courses questionSets : list Entity) : Service :=
  mkService initialStatus [] courses questionSets [] [] 0%nat.

(** *** Primitive effects *)

Definition logger (lv : Level) (msg : string) (err : option Thrown)
    (ctx : list JsVal) : M Service unit :=
  fun s =>
    (mkService (jobStatus s) (statusHistory s) (courseRepo s)
       (questionSetRepo s) (issued s)
       (logs s ++ [mkLog lv msg err ctx]) (clockReads s),
     Return tt).

(** [new Date()] and [Date.now()] *)
Definition now (env : Env) : M Service Z :=
  fun s =>
    (mkService (jobStatus s) (statusHistory s) (courseRepo s)
       (questionSetRepo s) (issued s) (logs s) (S (clockReads s)),
     Return (clock env (clockReads s))).

(** An assignment to a field of [this.jobStatus]. *)
Definition assign (f : CronJobStatus -> CronJobStatus) : M Service unit :=
  fun s =>
    let js := f (jobStatus s) in
    (mkService js (statusHistory s ++ [js]) (courseRepo s)
       (questionSetRepo s) (issued s) (logs s) (clockReads s),
     Return tt).

Definition getStatus : M Service CronJobStatus :=
  fun s => (s, Return (jobStatus s)).

Definition set_isRunning (b : bool) (js : CronJobStatus) : CronJobStatus :=
  mkStatus b (lastExecution js) (lastSuccess js) (lastError js)
    (totalExecutions js) (successfulExecutions js) (failedExecutions js).

Definition set_lastExecution (t : Z) (js : CronJobStatus) : CronJobStatus :=
  mkStatus (isRunning js) (Some t) (lastSuccess js) (lastError js)
    (totalExecutions js) (successfulExecutions js) (failedExecutions js).

Definition set_lastSuccess (t : Z) (js : CronJobStatus) : CronJobStatus :=
  mkStatus (isRunning js) (lastExecution js) (Some t) (lastError js)
    (totalExecutions js) (successfulExecutions js) (failedExecutions js).

Definition set_lastError (m : JsVal) (js : CronJobStatus)
    : CronJobStatus :=
  mkStatus (isRunning js) (lastExecution js) (lastSuccess js) m
    (totalExecutions js) (successfulExecutions js) (failedExecutions js).

Definition incr_totalExecutions (js : CronJobStatus) : CronJobStatus :=
  mkStatus (isRunning js) (lastExecution js) (lastSuccess js) (lastError js)
    (totalExecutions js + 1) (successfulExecutions js) (failedExecutions js).

Definition incr_successfulExecutions (js : CronJobStatus) : CronJobStatus :=
  mkStatus (isRunning js) (lastExecution js) (lastSuccess js) (lastError js)
    (totalExecutions js) (successfulExecutions js + 1) (failedExecutions js).

Definition incr_failedExecutions (js : CronJobStatus) : CronJobStatus :=
  mkStatus (isRunning js) (lastExecution js) (lastSuccess js) (lastError js)
    (totalExecutions js) (successfulExecutions js) (failedExecutions js + 1).

(** *** The repositories *)

Definition repoOf (k : Kind) (s : Service) : list Entity :=
  match k with
  | CourseKind => courseRepo s
  | QuestionSetKind => questionSetRepo s
  end.

Definition faultOf (env : Env) (k : Kind) : RepoOp -> option Thrown :=
  match k with
  | CourseKind => courseRepoFault env
  | QuestionSetKind => questionSetRepoFault env
  end.

Definition hasKey (key : string) (row : Entity) : bool :=
  String.eqb (identifier row) key.

(** [repo.findOne({ where: { identifier: key } })] on a table *)
Definition findRow (key : string) (table : list Entity) : option Entity :=
  List.find (hasKey key) table.

(** Column-wise merge of a partial entity into a row: the payload's
    columns win, the row's other columns stay. *)
Definition mergeInto (payload row : Entity) : Entity :=
  mkEntity (identifier payload) (columns payload ∪ columns row).

(** [repo.update({ identifier: key }, payload)] on a table *)
Definition updateRows (key : string) (payload : Entity)
    (table : list Entity) : list Entity :=
  List.map (fun row => if hasKey key row then mergeInto payload row else row)
    table.

Definition defaultsOf (env : Env) (k : Kind) : Entity -> gmap string JsVal :=
  match k with
  | CourseKind => courseColumnDefaults env
  | QuestionSetKind => questionSetColumnDefaults env
  end.

(** The row [repo.save(payload)] inserts: the payload's columns, and the
    table's defaults for the others. *)
Definition insertedRow (defaults : Entity -> gmap string JsVal)
    (payload : Entity) : Entity :=
  mkEntity (identifier payload) (columns payload ∪ defaults payload).

(** The effect of a repository call on its table.  [save] is only issued
    for a key that [findOne] has just reported missing: it inserts. *)
Definition applyOp (defaults : Entity -> gmap string JsVal) (op : RepoOp)
    (table : list Entity) : list Entity :=
  match op with
  | FindOne _ => table
  | Update key payload => updateRows key payload table
  | Save payload => table ++ [insertedRow defaults payload]
  end.

Definition withRepo (k : Kind) (table : list Entity) (op : RepoOp)
    (s : Service) : Service :=
  match k with
  | CourseKind =>
      mkService (jobStatus s) (statusHistory s) table (questionSetRepo s)
        (issued s ++ [(k, op)]) (logs s) (clockReads s)
  | QuestionSetKind =>
      mkService (jobStatus s) (statusHistory s) (courseRepo s) table
        (issued s ++ [(k, op)]) (logs s) (clockReads s)
  end.

(** One awaited repository call: it is recorded, then either rejects or
    takes effect. *)
Definition repoCall (env : Env) (k : Kind) (op : RepoOp) : M Service unit :=
  fun s =>
    match faultOf env k op with
    | Some e => (withRepo k (repoOf k s) op s, Throw e)
    | None =>
        (withRepo k (applyOp (defaultsOf env k) op (repoOf k s)) op s,
         Return tt)
    end.

Definition findOne (env : Env) (k : Kind) (key : string)
    : M Service (option Entity) :=
  fun s =>
    match repoCall env k (FindOne key) s with
    | (s', Return _) => (s', Return (findRow key (repoOf k s)))
    | (s', Throw e) => (s', Throw e)
    end.

Definition update (env : Env) (k : Kind) (key : string) (payload : Entity)
    : M Service unit :=
  repoCall env k (Update key payload).

Definition save (env : Env) (k : Kind) (payload : Entity) : M Service unit :=
  repoCall env k (Save payload).

(** [{ ...entity, updated_at: new Date() }] *)
Definition withUpdatedAt (t : Z) (e : Entity) : Entity :=
  mkEntity (identifier e) (<["updated_at" := VDate t]> (columns e)).

(** *** Saving one item

    [saveCourseData] and [saveQuestionSetData] are the same text up to the
    repository they use and the wording of their log lines; [saveEntity]
    is that text, [wording k] the words. *)

Definition wording (k : Kind) (course questionSet : string) : string :=
  match k with CourseKind => course | QuestionSetKind => questionSet end.

Definition saveEntity (env : Env) (k : Kind) (item : Entity)
    : M Service unit :=
  tryCatch
    (let* existing := findOne env k (identifier item) in
     match existing with
     | Some _ =>
         let* t := now env in
         update env k (identifier item) (withUpdatedAt t item) >>
         logger LDebug
           (wording k "Updated existing course"
              "Updated existing question set")
           None [VStr (identifier item)]
     | None =>
         save env k item >>
         logger LDebug
           (wording k "Created new course" "Created new question set")
           None [VStr (identifier item)]
     end)
    (fun error =>
       logger LError
         (wording k "Failed to save course data"
            "Failed to save question set data")
         (Some error) [VStr (identifier item)] >>
       throw error).

Definition saveCourseData (env : Env) (courseData : Entity)
    : M Service unit :=
  saveEntity env CourseKind courseData.

Definition saveQuestionSetData (env : Env) (questionSetData : Entity)
    : M Service unit :=
  saveEntity env QuestionSetKind questionSetData.

(** *** One sub-pull *)

Definition fetchOf (env : Env) (k : Kind) : Completion ExternalApiResponse :=
  match k with
  | CourseKind => fetchCourseData env
  | QuestionSetKind => fetchQuestionSetData env
  end.

Definition transformOf (env : Env) (k : Kind)
    : PrathamContentData -> Completion Entity :=
  match k with
  | CourseKind => transformExternalCourseData env
  | QuestionSetKind => transformQuestionSetData env
  end.

(** The body of the [for ... of] loop for one item; the result is the
    value of the local [totalProcessed] after it.  The [catch] clause
    reads the [identifier] of the raw item for its log line. *)
Definition processItem (env : Env) (k : Kind) (item : PrathamContentData)
    (processed : Z) : M Service Z :=
  tryCatch
    (let* transformed := liftC (transformOf env k item) in
     saveEntity env k transformed >>
     ret (processed + 1))
    (fun error =>
       let* key := liftC (member item "identifier") in
       logger LError
         (wording k "Failed to process course data"
            "Failed to process question set data")
         (Some error) [key] >>
       ret processed).

Fixpoint forEachItem (env : Env) (k : Kind) (items : list PrathamContentData)
    (processed : Z) : M Service Z :=
  match items with
  | [] => ret processed
  | item :: rest =>
      let* processed' := processItem env k item processed in
      forEachItem env k rest processed'
  end.

(** [!apiResponse.success || !apiResponse.data ||
     apiResponse.data.length === 0] *)
Definition nothingToDo (r : ExternalApiResponse) : bool :=
  negb (success r) ||
  match data r with
  | None => true
  | Some items => Nat.eqb (length items) 0
  end.

Definition dataLength (r : ExternalApiResponse) : Z :=
  match data r with
  | None => 0
  | Some items => Z.of_nat (length items)
  end.

Definition itemsOf (r : ExternalApiResponse) : list PrathamContentData :=
  match data r with
  | None => []
  | Some items => items
  end.

(** The [try] block of a sub-pull leaves in one of two ways: by its early
    [return] ([inl]), or by falling through with the final value of
    [totalProcessed] ([inr]). *)
Definition processData (env : Env) (k : Kind) : M Service ProcessResult :=
  let* startTime := now env in
  let* outcome :=
    tryCatch
      (logger LInfo
         (wording k "Fetching course data from Pratham Digital API"
            "Fetching question set data from Pratham Digital API")
         None [] >>
       let* apiResponse := liftC (fetchOf env k) in
       if nothingToDo apiResponse then
         logger LInfo
           (wording k "No course data available from Pratham Digital API"
              "No question set data available from Pratham Digital API")
           None [VBool (success apiResponse); VNum (dataLength apiResponse)] >>
         let* t := now env in
         ret (inl (mkResult 0 (t - startTime)))
       else
         logger LInfo
           (wording k "Processing courses" "Processing question sets")
           None [VNum (dataLength apiResponse)] >>
         let* processed := forEachItem env k (itemsOf apiResponse) 0 in
         logger LInfo
           (wording k "Successfully processed courses"
              "Successfully processed question sets")
           None [VNum processed] >>
         ret (inr processed))
      (fun error =>
         logger LError
           (wording k "Failed to process course data"
              "Failed to process question set data")
           (Some error) [] >>
         throw error) in
  match outcome with
  | inl result => ret result
  | inr processed =>
      let* t := now env in
      ret (mkResult processed (t - startTime))
  end.

Definition processCourseData (env : Env) : M Service ProcessResult :=
  processData env CourseKind.

Definition processQuestionSetData (env : Env) : M Service ProcessResult :=
  processData env QuestionSetKind.

(** *** The guarded run *)

Definition skipWarning : LogEntry :=
  mkLog LWarn "Cron job is already running, skipping this execution" None [].

Definition executeCronJob (env : Env) : M Service unit :=
  let* status := getStatus in
  if isRunning status then
    logger LWarn "Cron job is already running, skipping this execution"
      None []
  else
    assign (set_isRunning true) >>
    let* started := now env in
    assign (set_lastExecution started) >>
    assign incr_totalExecutions >>
    tryFinally
      (tryCatch
         (let* st := getStatus in
          logger LInfo "Starting daily cron job execution" None
            [VNum (totalExecutions st); VDate started] >>
          processCourseData env >>
          processQuestionSetData env >>
          let* finished := now env in
          assign (set_lastSuccess finished) >>
          assign incr_successfulExecutions >>
          assign (set_lastError VUndefined) >>
          let* st' := getStatus in
          logger LInfo "Daily cron job completed successfully" None
            [VNum (totalExecutions st')])
         (fun error =>
            assign incr_failedExecutions >>
            let* msg := liftC (messageOf error) in
            assign (set_lastError msg) >>
            let* st := getStatus in
            logger LError "Daily cron job failed" (Some error)
              [VNum (totalExecutions st); VNum (failedExecutions st)]))
      (assign (set_isRunning false)).

Definition triggerManualExecution (env : Env) : M Service unit :=
  logger LInfo "Manual cron job execution triggered" None [] >>
  executeCronJob env.

(** [getJobStatus] returns a copy of the status record. *)
Definition getJobStatus (s : Service) : CronJobStatus := jobStatus s.

(** The ways the job is entered. *)
Inductive Trigger : Type := Scheduled | Manual.

Definition invoke (env : Env) (t : Trigger) : M Service unit :=
  match t with
  | Scheduled => executeCronJob env
  | Manual => triggerManualExecution env
  end.

(** A sequence of invocations made one after the other, each awaited
    before the next is made, each under its own environment.  The next
    invocation is made whether the one before it resolved or rejected. *)
Fixpoint invocations (runs : list (Env * Trigger)) (s : Service) : Service :=
  match runs with
  | [] => s
  | (env, t) :: rest => invocations rest (fst (invoke env t s))
  end.

End CronJobService.

(** ** The message router *)

(** What the two versions of [KafkaConsumerService] share: the handler
    objects injected into the service, the message, and the world the
    service acts on. *)
Module Bus.

Inductive UserMethod : Type :=
| handleUserUpsert
| handleUserDelete
| handleCohortUpsert
| handleCohortDelete.

Inductive EventMethod : Type := handleEventUpsert | handleEventDelete.

Inductive AttendanceMethod : Type :=
| handleAttendanceUpsert
| handleAttendanceDelete.

Inductive AssessmentMethod : Type :=
| handleAssessmentUpsert
| handleAssessmentDelete.

Inductive CourseMethod : Type :=
| handleCourseEnrollmentCreated
| handleUserCourseUpdate.

Inductive ContentMethod : Type := handleContentTrackingCreated.

(** [this.userHandler.handleUserUpsert], ... *)
Inductive HandlerCall : Type :=
| userHandler (m : UserMethod)
| eventHandler (m : EventMethod)
| attendanceHandler (m : AttendanceMethod)
| assessmentHandler (m : AssessmentMethod)
| courseHandler (m : CourseMethod)
| contentHandler (m : ContentMethod).

(** [message.value?.toString()]: the payload as text, if there is one. *)
Record KafkaMessage : Type := mkMessage { value : option string }.

Section World.

Context {DB : Type}.

(** The domain handlers are the only part of the service that reaches
    storage: a handler method takes the payload and the store, and
    resolves or rejects. *)
Record Env : Type := mkEnv {
  JSON_parse : string -> Completion JsVal;
  handler : HandlerCall -> JsVal -> DB -> DB * Completion JsVal
}.

(** [calls] is a ghost field: the handler methods invoked so far. *)
Record World : Type := mkWorld {
  store : DB;
  calls : list (HandlerCall * JsVal);
  logs : list LogEntry
}.

Definition say (lv : Level) (msg : string) (err : option Thrown)
    (ctx : list JsVal) : M World unit :=
  fun w =>
    (mkWorld (store w) (calls w) (logs w ++ [mkLog lv msg err ctx]),
     Return tt).

(** A log call whose text is a template literal: the substitutions are
    converted to text, then the line is written. *)
Definition sayf (lv : Level) (msg : string) (ctx : list JsVal)
    : M World unit :=
  liftC (template ctx) >> say lv msg None ctx.

(** An awaited call of a handler method. *)
Definition call (env : Env) (h : HandlerCall) (payload : JsVal)
    : M World JsVal :=
  fun w =>
    (mkWorld (fst (handler env h payload (store w)))
       (calls w ++ [(h, payload)]) (logs w),
     snd (handler env h payload (store w))).

End World.

Arguments Env : clear implicits.
Arguments World : clear implicits.

(** [const { eventType, data } = event] *)
Definition destructure (event : JsVal) : Completion (JsVal * JsVal) :=
  match event with
  | VUndefined | VNull =>
      Throw (mkError TypeError
               "Cannot destructure property 'eventType' of 'event'")
  | VObj fields =>
      Return (lookupField "eventType" fields, lookupField "data" fields)
  | _ => Return (VUndefined, VUndefined)
  end.

End Bus.

(** The router with the course and content handlers (the second of the
    two versions among the sources). *)
Module KafkaConsumerService.
Import Bus.

Section Router.

Context {DB : Type}.

#[local] Abbreviation Env := (Bus.Env DB).
#[local] Abbreviation World := (Bus.World DB).

Definition handleUserEvent (env : Env) (eventType data : JsVal)
    : M World JsVal :=
  if strictEquals eventType "USER_CREATED" ||
     strictEquals eventType "USER_UPDATED" then
    call env (userHandler handleUserUpsert) data
  else if strictEquals eventType "USER_DELETED" then
    call env (userHandler handleUserDelete) data
  else if strictEquals eventType "COHORT_CREATED" ||
          strictEquals eventType "COHORT_UPDATED" then
    call env (userHandler handleCohortUpsert) data
  else if strictEquals eventType "COHORT_DELETED" then
    call env (userHandler handleCohortDelete) data
  else
    sayf LWarn "Unhandled user eventType" [eventType] >>
    ret VUndefined.

Definition handleEventEvent (env : Env) (eventType data : JsVal)
    : M World JsVal :=
  sayf LLog "Handling event-event type" [eventType] >>
  if strictEquals eventType "EVENT_CREATED" ||
     strictEquals eventType "EVENT_UPDATED" then
    call env (eventHandler handleEventUpsert) data
  else if strictEquals eventType "EVENT_DELETED" then
    call env (eventHandler handleEventDelete) data
  else
    sayf LWarn "Unhandled event eventType" [eventType] >>
    ret VUndefined.

Definition handleAttendanceEvent (env : Env) (eventType data : JsVal)
    : M World JsVal :=
  sayf LLog "Handling attendance-event type" [eventType] >>
  if strictEquals eventType "ATTENDANCE_CREATED" ||
     strictEquals eventType "ATTENDANCE_UPDATED" then
    call env (attendanceHandler handleAttendanceUpsert) data
  else if strictEquals eventType "ATTENDANCE_DELETED" then
    call env (attendanceHandler handleAttendanceDelete) data
  else
    sayf LWarn "Unhandled attendance eventType" [eventType] >>
    ret VUndefined.

Definition handleAssessmentEvent (env : Env) (eventType data : JsVal)
    : M World JsVal :=
  sayf LLog "Handling assessment-event type" [eventType] >>
  if strictEquals eventType "ASSESSMENT_CREATED" ||
     strictEquals eventType "ASSESSMENT_UPDATED" then
    call env (assessmentHandler handleAssessmentUpsert) data
  else if strictEquals eventType "ASSESSMENT_DELETED" then
    call env (assessmentHandler handleAssessmentDelete) data
  else
    sayf LWarn "Unhandled assessment eventType" [eventType] >>
    ret VUndefined.

Definition handleCourseEvent (env : Env) (eventType data : JsVal)
    : M World JsVal :=
  sayf LLog "[KafkaConsumer] handleCourseEvent called with eventType"
    [eventType] >>
  say LLog "[KafkaConsumer] Course event data" None [data] >>
  sayf LLog "Handling course-event type" [eventType] >>
  if strictEquals eventType "COURSE_ENROLLMENT_CREATED" then
    say LLog
      "[KafkaConsumer] Calling courseHandler.handleCourseEnrollmentCreated"
      None [] >>
    call env (courseHandler handleCourseEnrollmentCreated) data
  else if strictEquals eventType "COURSE_STATUS_UPDATED" then
    say LLog "[KafkaConsumer] Calling courseHandler.handleUserCourseUpdate"
      None [] >>
    call env (courseHandler handleUserCourseUpdate) data
  else
    sayf LLog "[KafkaConsumer] Unhandled course eventType" [eventType] >>
    sayf LWarn "Unhandled course eventType" [eventType] >>
    ret VUndefined.

Definition handleContentEvent (env : Env) (eventType data : JsVal)
    : M World JsVal :=
  sayf LLog "[KafkaConsumer] handleContentEvent called with eventType"
    [eventType] >>
  say LLog "[KafkaConsumer] Content event data" None [data] >>
  sayf LLog "Handling content-event type" [eventType] >>
  if strictEquals eventType "CONTENT_TRACKING_CREATED" then
    say LLog
      "[KafkaConsumer] Calling contentHandler.handleContentTrackingCreated"
      None [] >>
    call env (contentHandler handleContentTrackingCreated) data
  else
    sayf LLog "[KafkaConsumer] Unhandled content eventType" [eventType] >>
    sayf LWarn "Unhandled content eventType" [eventType] >>
    ret VUndefined.

Definition processEvent (env : Env) (topic : string) (event : JsVal)
    : M World unit :=
  let* parts := liftC (destructure event) in
  let eventType := fst parts in
  let data := snd parts in
  say LLog "=== KAFKA MESSAGE RECEIVED ===" None [] >>
  say LLog "Topic:" None [VStr topic] >>
  say LLog "EventType:" None [eventType] >>
  say LLog "Data:" None [data] >>
  say LLog "===============================" None [] >>
  if negb (truthy eventType) || negb (truthy data) then
    say LWarn "Invalid event received from topic" None [VStr topic; event]
  else if strictEquals eventType "COURSE_ENROLLMENT_CREATED" then
    say LLog
      "ROUTING: Course enrollment event detected, routing to course handler"
      None [] >>
    handleCourseEvent env eventType data >>
    ret tt
  else if strictEquals eventType "CONTENT_TRACKING_CREATED" then
    say LLog
      "ROUTING: Content tracking event detected, routing to content handler"
      None [] >>
    handleContentEvent env eventType data >>
    ret tt
  else if String.eqb topic "user-topic" then
    handleUserEvent env eventType data >> ret tt
  else if String.eqb topic "event-topic" then
    handleEventEvent env eventType data >> ret tt
  else if String.eqb topic "attendance-topic" then
    handleAttendanceEvent env eventType data >> ret tt
  else if String.eqb topic "course-topic" then
    handleCourseEvent env eventType data >> ret tt
  else if String.eqb topic "assessment-topic" then
    handleAssessmentEvent env eventType data >> ret tt
  else
    say LWarn "Unhandled Kafka topic" None [VStr topic].

(** The [eachMessage] callback handed to [consumer.run]. *)
Definition eachMessage (env : Env) (topic : string) (message : KafkaMessage)
    : M World unit :=
  tryCatch
    (match value message with
     | None => say LWarn "Received empty Kafka message" None []
     | Some text =>
         if String.eqb text "" then
           say LWarn "Received empty Kafka message" None []
         else
           let* event := liftC (JSON_parse env text) in
           processEvent env topic event
     end)
    (fun error =>
       liftC (describe error) >>
       say LError "Error processing Kafka message" (Some error) []).

(** [consumer.run] hands the messages of a stream to the callback one at
    a time, in order; a callback that rejects stops the hand-over. *)
Fixpoint runConsumer (env : Env) (stream : list (string * KafkaMessage))
    : M World unit :=
  match stream with
  | [] => ret tt
  | (topic, message) :: rest =>
      eachMessage env topic message >> runConsumer env rest
  end.

End Router.

End KafkaConsumerService.

(** The router as found at [src/kafka/kafka-consumer.ts]: the user handler
    is the only one injected. *)
Module LegacyKafkaConsumerService.
Import Bus.

Section Router.

Context {DB : Type}.

#[local] Abbreviation Env := (Bus.Env DB).
#[local] Abbreviation World := (Bus.World DB).

Definition handleUserEvent (env : Env) (eventType data : JsVal)
    : M World JsVal :=
  if strictEquals eventType "USER_CREATED" ||
     strictEquals eventType "USER_UPDATED" then
    call env (userHandler handleUserUpsert) data
  else if strictEquals eventType "USER_DELETED" then
    call env (userHandler handleUserDelete) data
  else if strictEquals eventType "COHORT_CREATED" ||
          strictEquals eventType "COHORT_UPDATED" then
    call env (userHandler handleCohortUpsert) data
  else if strictEquals eventType "COHORT_DELETED" then
    call env (userHandler handleCohortDelete) data
  else
    sayf LWarn "Unhandled user eventType" [eventType] >>
    ret VUndefined.

Definition handleEventEvent (env : Env) (eventType data : JsVal)
    : M World JsVal :=
  sayf LLog "Handling event-event type" [eventType] >>
  ret VUndefined.

Definition handleAttendanceEvent (env : Env) (eventType data : JsVal)
    : M World JsVal :=
  sayf LLog "Handling attendance-event type" [eventType] >>
  ret VUndefined.

Definition processEvent (env : Env) (topic : string) (event : JsVal)
    : M World unit :=
  let* parts := liftC (destructure event) in
  let eventType := fst parts in
  let data := snd parts in
  if negb (truthy eventType) || negb (truthy data) then
    say LWarn "Invalid event received from topic" None [VStr topic; event]
  else if String.eqb topic "user-topic" then
    handleUserEvent env eventType data >> ret tt
  else if String.eqb topic "event-events" then
    handleEventEvent env eventType data >> ret tt
  else if String.eqb topic "attendance-events" then
    handleAttendanceEvent env eventType data >> ret tt
  else
    say LWarn "Unhandled Kafka topic" None [VStr topic].

Definition eachMessage (env : Env) (topic : string) (message : KafkaMessage)
    : M World unit :=
  tryCatch
    (match value message with
     | None => say LWarn "Received empty Kafka message" None []
     | Some text =>
         if String.eqb text "" then
           say LWarn "Received empty Kafka message" None []
         else
           let* event := liftC (JSON_parse env text) in
           say LDebug "Received event from topic" None
             [VStr topic; VStr text] >>
           processEvent env topic event
     end)
    (fun error =>
       liftC (describe error) >>
       say LError "Error processing Kafka message" (Some error) []).

Fixpoint runConsumer (env : Env) (stream : list (string * KafkaMessage))
    : M World unit :=
  match stream with
  | [] => ret tt
  | (topic, message) :: rest =>
      eachMessage env topic message >> runConsumer env rest
  end.

End Router.

End LegacyKafkaConsumerService.

(** ** The project handler *)

Module ProjectHandler.

(** What [transformProjectData] yields, as far as the handler reads it. *)
Record ProjectData : Type := mkProject {
  ProjectId : JsVal;
  ProjectName : JsVal
}.

Record TasksResult : Type := mkTasksResult { count : Z }.

Record TrackingsResult : Type := mkTrackingsResult {
  inserted : Z;
  skipped : Z
}.

(** The calls the handler makes on [dbService]. *)
Inductive DbCall : Type :=
| UpsertProject (project : ProjectData)
| UpsertProjectTasks (tasks : JsVal)
| UpsertProjectTaskTrackings (records : list JsVal).

Section Handler.

Context {DB : Type}.

(** The validators, the transform library and the storage gateway are
    outside the modelled file.  A validator returns or throws; the
    transforms compute from the payload alone (the specification describes
    the transform library as pure and stateless); a storage method takes
    the store and resolves or rejects. *)
Record Env : Type := mkEnv {
  validateRequired : JsVal -> string -> Completion unit;
  validateString : JsVal -> string -> Completion unit;
  transformProjectData : JsVal -> Completion ProjectData;
  transformProjectTasksData : JsVal -> Completion JsVal;
  transformProjectTaskTrackingData : JsVal -> Completion (list JsVal);
  upsertProject : ProjectData -> DB -> DB * Completion unit;
  upsertProjectTasks : JsVal -> DB -> DB * Completion TasksResult;
  upsertProjectTaskTrackings :
    list JsVal -> DB -> DB * Completion TrackingsResult
}.

(** [dbCalls] is a ghost field: the storage methods invoked so far. *)
Record World : Type := mkWorld {
  store : DB;
  dbCalls : list DbCall;
  logs : list LogEntry
}.

Definition console (lv : Level) (msg : string) (err : option Thrown)
    (ctx : list JsVal) : M World unit :=
  fun w =>
    (mkWorld (store w) (dbCalls w) (logs w ++ [mkLog lv msg err ctx]),
     Return tt).

(** A [console.log] whose text is a template literal: the substitutions
    are converted to text, then the line is written. *)
Definition consolef (msg : string) (ctx : list JsVal) : M World unit :=
  liftC (template ctx) >> console LLog msg None ctx.

(** An awaited call of a storage method. *)
Definition storage {A} (c : DbCall) (method : DB -> DB * Completion A)
    : M World A :=
  fun w =>
    (mkWorld (fst (method (store w))) (dbCalls w ++ [c]) (logs w),
     snd (method (store w))).

(** The [catch] clause of both methods.  A [ValidationError] is an
    [Error] object: its [message] is a text. *)
Definition rethrow {A} (validationText otherText : string)
    (error : Thrown) : M World A :=
  match error with
  | ErrorObject e =>
      if instanceofValidationError e then
        console LError validationText None [VStr (message e)] >>
        throw (mkError PlainError
                 (String.append "Validation failed: " (message e)))
      else
        console LError otherText (Some error) [] >>
        throw error
  | ThrownValue _ =>
      console LError otherText (Some error) [] >>
      throw error
  end.

(** The validation statements that open [handleProjectCreated]. *)
Definition validateProjectCreated (env : Env) (data : JsVal)
    : Completion unit :=
  let? projectTemplate := member data "projectTemplate" in
  validateRequired env projectTemplate "projectTemplate" ?>
  let? projectTemplateTasks := member data "projectTemplateTasks" in
  validateRequired env projectTemplateTasks "projectTemplateTasks" ?>
  let? projectTemplateId := member projectTemplate "projectTemplateId" in
  validateString env projectTemplateId "projectTemplateId".

(** The [try] block of [handleProjectCreated]. *)
Definition tryProjectCreated (env : Env) (data : JsVal) : M World JsVal :=
  liftC (validateProjectCreated env data) >>
  let* projectTemplate := liftC (member data "projectTemplate") in
  let* projectTemplateId :=
    liftC (member projectTemplate "projectTemplateId") in
  let* totalTasks := liftC (member data "totalTasks") in
  consolef "[ProjectHandler] Processing project creation"
    [projectTemplateId; totalTasks] >>
  let* transformedProjectData := liftC (transformProjectData env data) in
  storage (UpsertProject transformedProjectData)
    (upsertProject env transformedProjectData) >>
  consolef "[ProjectHandler] Project created/updated successfully"
    [ProjectId transformedProjectData; ProjectName transformedProjectData] >>
  let* transformedTasksData := liftC (transformProjectTasksData env data) in
  let* tasksResult :=
    storage (UpsertProjectTasks transformedTasksData)
      (upsertProjectTasks env transformedTasksData) in
  consolef "[ProjectHandler] Project tasks processed"
    [VNum (count tasksResult); ProjectId transformedProjectData] >>
  ret (VObj [("success", VBool true);
             ("projectId", ProjectId transformedProjectData);
             ("tasksCount", VNum (count tasksResult))]).

Definition handleProjectCreated (env : Env) (data : JsVal) : M World JsVal :=
  tryCatch (tryProjectCreated env data)
    (rethrow "Validation failed in handleProjectCreated:"
       "Error handling project creation:").

(** The validation statements that open [handleProjectSyncUpdate]. *)
Definition validateProjectSyncUpdate (env : Env) (data : JsVal)
    : Completion unit :=
  let? _id := member data "_id" in
  validateRequired env _id "Project ID (_id)" ?>
  validateString env _id "_id" ?>
  let? solutionId := member data "solutionId" in
  validateRequired env solutionId "Solution ID" ?>
  let? tasks := member data "tasks" in
  validateRequired env tasks "Tasks array".

(** The [try] block of [handleProjectSyncUpdate]. *)
Definition tryProjectSyncUpdate (env : Env) (data : JsVal)
    : M World JsVal :=
  liftC (validateProjectSyncUpdate env data) >>
  let* _id := liftC (member data "_id") in
  let* solutionId := liftC (member data "solutionId") in
  let* userId := liftC (member data "userId") in
  let* status := liftC (member data "status") in
  let* tasks := liftC (member data "tasks") in
  consolef "[ProjectHandler] Processing project sync update"
    [_id; solutionId; userId; status;
     orElse (optionalProperty tasks "length") (VNum 0)] >>
  let* trackingRecords :=
    liftC (transformProjectTaskTrackingData env data) in
  consolef "[ProjectHandler] Found completed tasks to track"
    [VNum (Z.of_nat (length trackingRecords))] >>
  if Nat.eqb (length trackingRecords) 0 then
    consolef "[ProjectHandler] No completed tasks to insert for project"
      [solutionId] >>
    ret (VObj [("success", VBool true);
               ("projectId", solutionId);
               ("status", status);
               ("totalTasks",
                orElse (optionalProperty tasks "length") (VNum 0));
               ("completedTasks", VNum 0);
               ("inserted", VNum 0);
               ("skipped", VNum 0)])
  else
    let* result :=
      storage (UpsertProjectTaskTrackings trackingRecords)
        (upsertProjectTaskTrackings env trackingRecords) in
    consolef "[ProjectHandler] Project sync complete"
      [solutionId; VNum (inserted result); VNum (skipped result)] >>
    ret (VObj [("success", VBool true);
               ("projectId", solutionId);
               ("status", status);
               ("totalTasks",
                orElse (optionalProperty tasks "length") (VNum 0));
               ("completedTasks", VNum (Z.of_nat (length trackingRecords)));
               ("inserted", VNum (inserted result));
               ("skipped", VNum (skipped result))]).

Definition handleProjectSyncUpdate (env : Env) (data : JsVal)
    : M World JsVal :=
  tryCatch (tryProjectSyncUpdate env data)
    (rethrow "Validation failed in handleProjectSyncUpdate:"
       "Error handling project sync update:").

End Handler.

Arguments Env : clear implicits.
Arguments World : clear implicits.

End ProjectHandler.

(** ** Vocabulary of the statements about the project handler *)

Module ProjectSpec.
Import ProjectHandler.

(** The object returned when there is nothing to track. *)
Definition nothingTracked (data : JsVal) : JsVal :=
  VObj [("success", VBool true);
        ("projectId", property data "solutionId");
        ("status", property data "status");
        ("totalTasks",
         orElse (optionalProperty (property data "tasks") "length")
           (VNum 0));
        ("completedTasks", VNum 0);
        ("inserted", VNum 0);
        ("skipped", VNum 0)].

(** The error a rejected payload is reported with. *)
Definition validationFailure (e : JsError) : JsError :=
  mkError PlainError (String.append "Validation failed: " (message e)).

(** What the [catch] clause throws for the value it caught. *)
Definition rethrown (error : Thrown) : Thrown :=
  match error with
  | ErrorObject e =>
      if instanceofValidationError e then ErrorObject (validationFailure e)
      else error
  | ThrownValue _ => error
  end.

(** The values of the payload that the first log line of each handler
    puts into its template literal. *)
Definition creationLogged (data : JsVal) : list JsVal :=
  [property (property data "projectTemplate") "projectTemplateId";
   property data "totalTasks"].

Definition syncLogged (data : JsVal) : list JsVal :=
  [property data "_id";
   property data "solutionId";
   property data "userId";
   property data "status";
   orElse (optionalProperty (property data "tasks") "length") (VNum 0)].

(** Those of the transformed project that the second log line of
    [handleProjectCreated] puts into its own. *)
Definition projectLogged (project : ProjectData) : list JsVal :=
  [ProjectId project; ProjectName project].

(** A sample deployment: validators that insist on presence and on a
    non-empty string, a tracking transform that keeps the completed tasks,
    and a store that is the list of tracking rows. *)
Definition required (v : JsVal) (name : string) : Completion unit :=
  if nullish v then
    Throw (mkError ValidationError (String.append name " is required"))
  else Return tt.

Definition nonEmptyString (v : JsVal) (name : string) : Completion unit :=
  match v with
  | VStr s =>
      if String.eqb s "" then
        Throw (mkError ValidationError
                 (String.append name " must not be empty"))
      else Return tt
  | _ =>
      Throw (mkError ValidationError
               (String.append name " must be a string"))
  end.

Definition completed (task : JsVal) : bool :=
  strictEquals (property task "status") "completed".

Definition completedTasksOf (data : JsVal) : Completion (list JsVal) :=
  match property data "tasks" with
  | VArr tasks => Return (List.filter completed tasks)
  | _ => Return []
  end.

Definition sampleEnv : Env (list JsVal) :=
  mkEnv required nonEmptyString
    (fun d =>
       Return (mkProject
                 (property (property d "projectTemplate") "projectTemplateId")
                 (property (property d "projectTemplate") "title")))
    (fun d => Return (property d "projectTemplateTasks"))
    completedTasksOf
    (fun _ db => (db, Return tt))
    (fun _ db => (db, Return (mkTasksResult 0)))
    (fun records db =>
       (db ++ records,
        Return (mkTrackingsResult (Z.of_nat (length records)) 0))).

(** The same with a store that rejects every write. *)
Definition storeDown : JsError :=
  mkError ForeignError "Connection terminated unexpectedly".

Definition offlineStoreEnv : Env (list JsVal) :=
  mkEnv required nonEmptyString
    (fun d =>
       Return (mkProject
                 (property (property d "projectTemplate") "projectTemplateId")
                 (property (property d "projectTemplate") "title")))
    (fun d => Return (property d "projectTemplateTasks"))
    completedTasksOf
    (fun _ db => (db, Throw storeDown))
    (fun _ db => (db, Throw storeDown))
    (fun _ db => (db, Throw storeDown)).

Definition emptyWorld : World (list JsVal) := mkWorld [] [] [].


(** A project with one completed task. *)
Definition projectWithCompletion : JsVal :=
  VObj [("_id", VStr "p1");
        ("solutionId", VStr "s1");
        ("userId", VStr "u1");
        ("status", VStr "inProgress");
        ("tasks",
         VArr [VObj [("taskId", VStr "t1"); ("status", VStr "completed")]])].

(** A creation event without its template. *)
Definition creationWithoutTemplate : JsVal := VObj [("totalTasks", VNum 3)].


End ProjectSpec.

(** ** Vocabulary of the statements about the router *)

Module RouterSpec.
Import Stdlib.Strings.Ascii.
Import Bus.

(** An own property that the envelope does not have. *)
Definition absent (k : string) (fields : list (string * JsVal)) : Prop :=
  List.find (fun p => String.eqb (fst p) k) fields = None.

(** The lines the current router prints for every message it receives. *)
Definition banner (topic : string) (eventType data : JsVal)
    : list LogEntry :=
  [mkLog LLog "=== KAFKA MESSAGE RECEIVED ===" None [];
   mkLog LLog "Topic:" None [VStr topic];
   mkLog LLog "EventType:" None [eventType];
   mkLog LLog "Data:" None [data];
   mkLog LLog "===============================" None []].

Definition invalidEnvelopeWarning (topic : string) (event : JsVal)
    : LogEntry :=
  mkLog LWarn "Invalid event received from topic" None [VStr topic; event].

Definition messageErrorLog (e : Thrown) : LogEntry :=
  mkLog LError "Error processing Kafka message" (Some e) [].

(** A value the [catch] clause of the callback can log: its [message]
    can be read and has a text, and its [stack] can be read.  Every
    [Error] object is one; [undefined] and [null] are not. *)
Definition describable (e : Thrown) : Prop := describe e = Return tt.

(** A computation that throws nothing but values of a given kind. *)
Definition throwsOnly {S A} (Q : Thrown -> Prop) (m : M S A) : Prop :=
  forall s s' e, m s = (s', Throw e) -> Q e.

(** A deployment whose parser and handlers throw nothing else. *)
Definition throwsDescribable {DB} (env : Env DB) : Prop :=
  (forall text e, JSON_parse env text = Throw e -> describable e) /\
  forall h payload db e,
    snd (handler env h payload db) = Throw e -> describable e.

Definition receivedDebugLog (topic text : string) : LogEntry :=
  mkLog LDebug "Received event from topic" None [VStr topic; VStr text].

Definition warnings (ls : list LogEntry) : list LogEntry :=
  List.filter isWarning ls.

(** The world with more lines in its log. *)
Definition noting {DB} (ls : list LogEntry) (w : World DB) : World DB :=
  mkWorld (store w) (calls w) (logs w ++ ls).

(** What the log gained between two worlds. *)
Definition newLogs {DB} (before after : World DB) : list LogEntry :=
  drop (length (logs before)) (logs after).

(** The completion of an awaited call whose value is dropped. *)
Definition dropped {A} (c : Completion A) : Completion unit :=
  match c with
  | Return _ => Return tt
  | Throw e => Throw e
  end.

Definition learner : JsVal := VObj [("userId", VStr "u1")].

Definition enrollment : list (string * JsVal) :=
  [("eventType", VStr "COURSE_ENROLLMENT_CREATED"); ("data", learner)].

Definition userDeleted : list (string * JsVal) :=
  [("eventType", VStr "USER_DELETED"); ("data", learner)].

(** The text of [userDeleted] as it travels. *)
Definition quoted (s : string) : string :=
  String "034"%char (String.append s (String "034"%char EmptyString)).

Definition userDeletedText : string :=
  String.concat ""
    ["{"; quoted "eventType"; ":"; quoted "USER_DELETED"; ",";
     quoted "data"; ":{"; quoted "userId"; ":"; quoted "u1"; "}}"].

(** A sample deployment.  The store is the list of payloads written; the
    user handler's delete rejects with a storage error; the parser knows
    four texts. *)
Definition sampleHandler (h : HandlerCall) (payload : JsVal)
    (db : list JsVal) : list JsVal * Completion JsVal :=
  match h with
  | userHandler handleUserDelete =>
      (db, Throw (mkError ForeignError "Connection terminated unexpectedly"))
  | userHandler handleUserUpsert
  | courseHandler handleCourseEnrollmentCreated
  | contentHandler handleContentTrackingCreated =>
      (db ++ [payload], Return VUndefined)
  | _ => (db, Return VUndefined)
  end.

Definition sampleParse (text : string) : Completion JsVal :=
  if String.eqb text "null" then Return VNull
  else if String.eqb text "{}" then Return (VObj [])
  else if String.eqb text "42" then Return (VNum 42)
  else if String.eqb text userDeletedText then Return (VObj userDeleted)
  else Throw (mkError SyntaxError "Unexpected end of JSON input").

Definition sampleEnv : Env (list JsVal) := mkEnv sampleParse sampleHandler.

(** The same deployment with a user handler whose delete rejects with
    [undefined], as [Promise.reject()] does. *)
Definition bareRejection (h : HandlerCall) (payload : JsVal)
    (db : list JsVal) : list JsVal * Completion JsVal :=
  match h with
  | userHandler handleUserDelete => (db, Throw (ThrownValue VUndefined))
  | _ => sampleHandler h payload db
  end.

Definition bareRejectionEnv : Env (list JsVal) :=
  mkEnv sampleParse bareRejection.

Definition emptyWorld : World (list JsVal) := mkWorld [] [] [].

End RouterSpec.

(** ** Vocabulary of the statements about the scheduled job *)

Module CronSpec.
Import CronJobService.

(** A computation that never assigns [jobStatus]. *)
Definition keepsStatus {A} (m : M Service A) : Prop :=
  forall s, jobStatus (fst (m s)) = jobStatus s /\
            statusHistory (fst (m s)) = statusHistory s.

(** How a run that was not skipped ends: its body completed, or threw. *)
Inductive RunOutcome : Type :=
| Succeeded (finished : Z)
| Failed (error : Thrown).

Definition startedStatus (started : Z) (js : CronJobStatus) : CronJobStatus :=
  incr_totalExecutions (set_lastExecution started (set_isRunning true js)).

(** The status when the [try] block or the [catch] clause is left.  The
    [catch] clause counts the failure before it reads [error.message]:
    when that read throws, [lastError] keeps its value. *)
Definition settledStatus (o : RunOutcome) (js : CronJobStatus)
    : CronJobStatus :=
  match o with
  | Succeeded finished =>
      set_lastError VUndefined
        (incr_successfulExecutions (set_lastSuccess finished js))
  | Failed error =>
      match messageOf error with
      | Return msg => set_lastError msg (incr_failedExecutions js)
      | Throw _ => incr_failedExecutions js
      end
  end.

Definition statusAfter (started : Z) (o : RunOutcome) (js : CronJobStatus)
    : CronJobStatus :=
  set_isRunning false (settledStatus o (startedStatus started js)).

(** The completion of such a run: it resolves, unless its [catch] clause
    threw. *)
Definition completionAfter (o : RunOutcome) : Completion unit :=
  match o with
  | Succeeded _ => Return tt
  | Failed error => messageOf error ?> Return tt
  end.

(** The values [jobStatus] takes during such a run, in order. *)
Definition assignmentsOf (started : Z) (o : RunOutcome) (js : CronJobStatus)
    : list CronJobStatus :=
  [set_isRunning true js;
   set_lastExecution started (set_isRunning true js);
   startedStatus started js] ++
  match o with
  | Succeeded finished =>
      [set_lastSuccess finished (startedStatus started js);
       incr_successfulExecutions
         (set_lastSuccess finished (startedStatus started js));
       settledStatus o (startedStatus started js)]
  | Failed error =>
      incr_failedExecutions (startedStatus started js) ::
      match messageOf error with
      | Return _ => [settledStatus o (startedStatus started js)]
      | Throw _ => []
      end
  end ++
  [statusAfter started o js].

Definition balanced (js : CronJobStatus) : Prop :=
  totalExecutions js = successfulExecutions js + failedExecutions js.

Definition idleBalanced (js : CronJobStatus) : Prop :=
  isRunning js = false -> balanced js.

(** What [triggerManualExecution] logs before it enters the run. *)
Definition announcement (t : Trigger) : list LogEntry :=
  match t with
  | Scheduled => []
  | Manual => [mkLog LInfo "Manual cron job execution triggered" None []]
  end.

(** The service as [triggerManualExecution] leaves it for the run. *)
Definition announced (t : Trigger) (s : Service) : Service :=
  mkService (jobStatus s) (statusHistory s) (courseRepo s)
    (questionSetRepo s) (issued s) (logs s ++ announcement t) (clockReads s).

(** What holds between two invocations. *)
Definition atRest (s : Service) : Prop :=
  isRunning (jobStatus s) = false /\
  balanced (jobStatus s) /\
  Forall idleBalanced (statusHistory s).

(** The service with one more line in its log. *)
Definition logged (l : LogEntry) (s : Service) : Service :=
  mkService (jobStatus s) (statusHistory s) (courseRepo s)
    (questionSetRepo s) (issued s) (logs s ++ [l]) (clockReads s).

(** The line the loop writes for an item it could not process. *)
Definition itemFailureLog (k : Kind) (e : Thrown)
    (item : PrathamContentData) : LogEntry :=
  mkLog LError
    (wording k "Failed to process course data"
       "Failed to process question set data")
    (Some e) [property item "identifier"].

(** The error the [catch] clause of the loop throws itself when the item
    it is to name is [undefined] or [null]. *)
Definition unreadableItem : JsError :=
  mkError TypeError "Cannot read properties of undefined".

(** A batch none of whose items is [undefined] or [null]. *)
Definition allPresent (items : list PrathamContentData) : Prop :=
  Forall (fun item => nullish item = false) items.

(** The service at the point where a run enters its first sub-pull. *)
Definition begun (env : Env) (s : Service) : Service :=
  fst ((assign (set_isRunning true) >>
        let* started := now env in
        assign (set_lastExecution started) >>
        assign incr_totalExecutions >>
        let* st := getStatus in
        logger LInfo "Starting daily cron job execution" None
          [VNum (totalExecutions st); VDate started]) s).

Definition neverFaults (env : Env) (k : Kind) : Prop :=
  forall op, faultOf env k op = None.

(** A sample transform: the item's [identifier], which must be a text,
    becomes the key, its other properties the columns.  Reading the
    [identifier] of [null] throws. *)
Definition asEntity (item : PrathamContentData) : Completion Entity :=
  let? key := member item "identifier" in
  match key, item with
  | VStr key, VObj fields =>
      Return
        (mkEntity key
           (list_to_map
              (List.filter
                 (fun p => negb (String.eqb (fst p) "identifier")) fields)))
  | _, _ => Throw (mkError TypeError "identifier.trim is not a function")
  end.

(** A sample environment: the clock counts its readings, the API has
    nothing to offer and storage never fails. *)
Definition quietEnv : Env :=
  mkEnv (fun n => Z.of_nat n)
    (Return (mkResponse true (Some [])))
    (Return (mkResponse false None))
    asEntity
    asEntity
    (fun _ => None)
    (fun _ => None)
    (fun _ => ∅)
    (fun _ => ∅).

(** The same with the external API unreachable. *)
Definition offlineEnv : Env :=
  mkEnv (fun n => Z.of_nat n)
    (Throw (mkError ForeignError "connect ECONNREFUSED"))
    (Return (mkResponse false None))
    asEntity
    asEntity
    (fun _ => None)
    (fun _ => None)
    (fun _ => ∅)
    (fun _ => ∅).

(** The same with an API client that rejects with [undefined]. *)
Definition bareRejectionEnv : Env :=
  mkEnv (fun n => Z.of_nat n)
    (Throw (ThrownValue VUndefined))
    (Return (mkResponse false None))
    asEntity
    asEntity
    (fun _ => None)
    (fun _ => None)
    (fun _ => ∅)
    (fun _ => ∅).

(** Three course items, the second of which cannot be transformed. *)
Definition algebra : PrathamContentData :=
  VObj [("identifier", VStr "do_1"); ("name", VStr "Algebra")].

Definition broken : PrathamContentData := VObj [("identifier", VNum 2)].

Definition geometry : PrathamContentData :=
  VObj [("identifier", VStr "do_3"); ("name", VStr "Geometry")].

Definition unreadable : JsError :=
  mkError TypeError "identifier.trim is not a function".

Definition batchEnv : Env :=
  mkEnv (fun n => Z.of_nat n)
    (Return (mkResponse true (Some [algebra; broken; geometry])))
    (Return (mkResponse false None))
    asEntity
    asEntity
    (fun _ => None)
    (fun _ => None)
    (fun _ => ∅)
    (fun _ => ∅).


(** A course not yet stored, and a table that already holds an older
    version of it next to another row. *)
Definition newCourse : Entity :=
  mkEntity "do_1" {[ "name" := VStr "Algebra" ]}.

Definition storedService : Service :=
  initialService
    [mkEntity "do_0" {[ "name" := VStr "Arithmetic" ]};
     mkEntity "do_1"
       (<["name" := VStr "Algebr"]> {[ "updated_at" := VDate (-5) ]})]
    [].

(** A service caught in the middle of its first run, at the point where
    it awaits its first sub-pull. *)
Definition busyService : Service := begun quietEnv (initialService [] []).

End CronSpec.

(** ** The scheduled job: health probe and start-up *)

Module CronJobHealth.
Import CronJobService.

Inductive HealthStatus : Type := healthy | unhealthy.

(** The two shapes of the [details] object. *)
Inductive HealthDetails : Type :=
| Probed (apiConnected : bool) (status : CronJobStatus)
    (lastExecution lastSuccess : option Z) (lastError : JsVal)
| ProbeFailed (error : JsVal) (status : CronJobStatus).

Record HealthReport : Type := mkReport {
  status : HealthStatus;
  details : HealthDetails
}.

(** [testConnection] is the outcome of
    [externalApiService.testConnection()]. *)
Definition healthCheck (testConnection : Completion bool)
    : M Service HealthReport :=
  tryCatch
    (let* apiConnected := liftC testConnection in
     let* js := getStatus in
     ret (mkReport (if apiConnected then healthy else unhealthy)
            (Probed apiConnected js (lastExecution js) (lastSuccess js)
               (lastError js))))
    (fun error =>
       let* msg := liftC (messageOf error) in
       let* js := getStatus in
       ret (mkReport unhealthy (ProbeFailed msg js))).

(** [config] is what [configService.get('cron')] returned. *)
Definition onModuleInit (config : JsVal) (testConnection : Completion bool)
    : M Service unit :=
  let* schedule := liftC (member config "schedule") in
  logger LInfo "CronJobService initialized" None [schedule] >>
  let* isConnected := liftC testConnection in
  if negb isConnected then
    logger LWarn "External API connection test failed on startup" None []
  else ret tt.

Definition onModuleDestroy : M Service unit :=
  logger LInfo "CronJobService shutting down" None [].

End CronJobHealth.

(** ** Vocabulary of further statements about the scheduled job *)

Module CronTables.
Import CronJobService CronSpec.

Definition keysOf (table : list Entity) : list string :=
  List.map identifier table.

(** No two rows of a table carry the same [identifier]. *)
Definition uniqueKeys (table : list Entity) : Prop := NoDup (keysOf table).

Definition otherKind (k : Kind) : Kind :=
  match k with
  | CourseKind => QuestionSetKind
  | QuestionSetKind => CourseKind
  end.

(** The rows of a table that do not carry a given key. *)
Definition rowsWithout (key : string) (table : list Entity) : list Entity :=
  List.filter (fun row => negb (hasKey key row)) table.

(** The items of a batch that the transform accepts. *)
Definition transformable (env : Env) (k : Kind)
    (items : list PrathamContentData) : list PrathamContentData :=
  List.filter (fun item => returns (transformOf env k item)) items.

(** What the transform makes of them, in order. *)
Definition transformedOf (env : Env) (k : Kind)
    (items : list PrathamContentData) : list Entity :=
  List.flat_map
    (fun item =>
       match transformOf env k item with
       | Return entity => [entity]
       | Throw _ => []
       end)
    items.

(** A computation that keeps a property of the service. *)
Definition preserves (P : Service -> Prop) {A} (m : M Service A) : Prop :=
  forall s, P s -> P (fst (m s)).

(** A property that only looks at the two tables and the calls issued. *)
Definition aboutStorage (P : Service -> Prop) : Prop :=
  forall s s',
    courseRepo s' = courseRepo s ->
    questionSetRepo s' = questionSetRepo s ->
    issued s' = issued s ->
    P s -> P s'.

Definition bothUnique (s : Service) : Prop :=
  uniqueKeys (courseRepo s) /\ uniqueKeys (questionSetRepo s).

(** The writes among the calls issued on a repository. *)
Definition isWrite (c : Kind * RepoOp) : bool :=
  match snd c with
  | FindOne _ => false
  | Update _ _ | Save _ => true
  end.

(** The key a repository call is about. *)
Definition keyOfCall (op : RepoOp) : string :=
  match op with
  | FindOne key => key
  | Update key _ => key
  | Save payload => identifier payload
  end.

(** A call without its payload: the repository, whether it writes, and
    the key. *)
Definition outline (c : Kind * RepoOp) : Kind * bool * string :=
  (fst c, isWrite c, keyOfCall (snd c)).

(** The outline of the calls of a save that goes through: a lookup of
    the entity's key, then a write under it. *)
Definition lookupThenWrite (k : Kind) (entity : Entity)
    : list (Kind * bool * string) :=
  [(k, false, identifier entity); (k, true, identifier entity)].

(** The calls issued between two states of the service. *)
Definition newCalls (before after : Service) : list (Kind * RepoOp) :=
  drop (length (issued before)) (issued after).

(** Sequences of repository calls in which a write only ever comes right
    after a lookup, on the same repository, of the key it writes, and in
    which an update writes under the key of its payload and stamps
    [updated_at]. *)
Inductive lookupFirst : list (Kind * RepoOp) -> Prop :=
| lookupFirst_nil : lookupFirst []
| lookupFirst_lookup calls k key :
    lookupFirst calls -> lookupFirst (calls ++ [(k, FindOne key)])
| lookupFirst_update calls k payload :
    lookupFirst calls ->
    is_Some (columns payload !! "updated_at") ->
    lookupFirst
      (calls ++
       [(k, FindOne (identifier payload));
        (k, Update (identifier payload) payload)])
| lookupFirst_save calls k payload :
    lookupFirst calls ->
    lookupFirst
      (calls ++
       [(k, FindOne (identifier payload)); (k, Save payload)]).

(** The external API answers for courses, not for question sets. *)
Definition halfOfflineEnv : Env :=
  mkEnv (fun n => Z.of_nat n)
    (Return (mkResponse true (Some [algebra; geometry])))
    (Throw (mkError ForeignError "connect ECONNREFUSED"))
    asEntity
    asEntity
    (fun _ => None)
    (fun _ => None)
    (fun _ => ∅)
    (fun _ => ∅).

End CronTables.

(** ** The consumer's life cycle

    The constructor, [onModuleInit], [onModuleDestroy] and the three
    private methods they use are the same text in both versions of
    [KafkaConsumerService]. *)

Module ConsumerLifecycle.
Import Stdlib.Strings.Ascii.

(** [text.split(',')], for any separator character. *)
Fixpoint split (separator : Ascii.ascii) (text : string) : list string :=
  match text with
  | EmptyString => [EmptyString]
  | String c rest =>
      if Ascii.eqb c separator then EmptyString :: split separator rest
      else
        match split separator rest with
        | piece :: pieces => String c piece :: pieces
        | [] => [String c EmptyString]
        end
  end.

(** [configService.get<string>(key, fallback)] *)
Definition configGet (config : gmap string string) (key fallback : string)
    : string :=
  match config !! key with
  | Some v => v
  | None => fallback
  end.

(** What the constructor hands to the Kafka client. *)
Record Settings : Type := mkSettings {
  brokers : list string;
  clientId : string;
  groupId : string
}.

Definition constructorSettings (config : gmap string string) : Settings :=
  mkSettings
    (split ","%char (configGet config "KAFKA_BROKERS" "localhost:9092"))
    (configGet config "KAFKA_CLIENT_ID" "centralized-consumer")
    (configGet config "KAFKA_CONSUMER_GROUP_ID" "centralized-consumer-group").

(** The outcomes of the client's calls. *)
Record Client : Type := mkClient {
  connect : Completion unit;
  disconnect : Completion unit;
  subscribe : string -> Completion unit;
  run : Completion unit
}.

(** The consumer as the service drives it; [subscriptions] and [started]
    are ghost fields: the topics subscribed to, in order, and whether
    [consumer.run] has been entered and has resolved. *)
Record Consumer : Type := mkConsumer {
  subscriptions : list string;
  started : bool;
  journal : list LogEntry
}.

Definition note (lv : Level) (msg : string) (err : option Thrown)
    (ctx : list JsVal) : M Consumer unit :=
  fun c =>
    (mkConsumer (subscriptions c) (started c)
       (journal c ++ [mkLog lv msg err ctx]),
     Return tt).

Definition connectConsumer (client : Client) : M Consumer unit :=
  tryCatch
    (liftC (connect client) >>
     note LLog "Kafka consumer connected" None [])
    (fun error =>
       liftC (describe error) >>
       note LError "Failed to connect Kafka consumer" (Some error) [] >>
       throw error).

Definition disconnectConsumer (client : Client) : M Consumer unit :=
  tryCatch
    (liftC (disconnect client) >>
     note LLog "Kafka consumer disconnected" None [])
    (fun error =>
       liftC (describe error) >>
       note LError "Failed to disconnect Kafka consumer" (Some error) []).

(** [await this.consumer.subscribe({ topic, fromBeginning: false })] *)
Definition subscribeTo (client : Client) (topic : string)
    : M Consumer unit :=
  fun c =>
    match subscribe client topic with
    | Return _ =>
        (mkConsumer (subscriptions c ++ [topic]) (started c) (journal c),
         Return tt)
    | Throw e => (c, Throw e)
    end.

Fixpoint forEachTopic (client : Client) (topics : list string)
    : M Consumer unit :=
  match topics with
  | [] => ret tt
  | topic :: rest =>
      subscribeTo client topic >>
      note LLog "Subscribed to Kafka topic" None [VStr topic] >>
      forEachTopic client rest
  end.

Definition subscribeToTopics (config : gmap string string)
    (client : Client) : M Consumer unit :=
  forEachTopic client
    (split ","%char (configGet config "KAFKA_TOPICS" "user-topic")).

(** [await this.consumer.run({ eachMessage })] *)
Definition runConsumer (client : Client) : M Consumer unit :=
  fun c =>
    match run client with
    | Return _ => (mkConsumer (subscriptions c) true (journal c), Return tt)
    | Throw e => (c, Throw e)
    end.

Definition onModuleInit (config : gmap string string) (client : Client)
    : M Consumer unit :=
  tryCatch
    (connectConsumer client >>
     subscribeToTopics config client >>
     runConsumer client >>
     note LLog "Kafka consumer initialized successfully" None [])
    (fun error =>
       liftC (stackOf error) >>
       note LError "Failed to initialize Kafka consumer" (Some error) []).

Definition onModuleDestroy (client : Client) : M Consumer unit :=
  disconnectConsumer client.

End ConsumerLifecycle.

(** ** Vocabulary of further statements about the router *)

Module RouterTables.
Import Bus RouterSpec ConsumerLifecycle.

(** [pieces.join(separator)] *)
Fixpoint join (separator : Ascii.ascii) (pieces : list string) : string :=
  match pieces with
  | [] => EmptyString
  | [piece] => piece
  | piece :: rest =>
      String.append piece (String separator (join separator rest))
  end.

Fixpoint occurs (c : Ascii.ascii) (text : string) : bool :=
  match text with
  | EmptyString => false
  | String d rest => Ascii.eqb d c || occurs c rest
  end.

Fixpoint occurrences (c : Ascii.ascii) (text : string) : nat :=
  match text with
  | EmptyString => 0
  | String d rest =>
      ((if Ascii.eqb d c then 1 else 0) + occurrences c rest)%nat
  end.

(** The topics, in order, that can be subscribed to before the first one
    the client refuses. *)
Fixpoint accepted (client : Client) (topics : list string) : list string :=
  match topics with
  | [] => []
  | topic :: rest =>
      if returns (subscribe client topic) then
        topic :: accepted client rest
      else []
  end.

Definition allAccepted (client : Client) (topics : list string) : bool :=
  forallb (fun topic => returns (subscribe client topic)) topics.

Definition freshConsumer : Consumer := mkConsumer [] false [].

(** A client that refuses one topic. *)
Definition pickyClient : Client :=
  mkClient (Return tt) (Return tt)
    (fun topic =>
       if String.eqb topic "course-topic" then
         Throw (mkError ForeignError "This server does not host this topic")
       else Return tt)
    (Return tt).


Definition sampleConfig : gmap string string :=
  {[ "KAFKA_TOPICS" := "user-topic,course-topic,event-topic" ]}.

(** The event types that are routed without regard to the topic. *)
Definition overrides : list (string * HandlerCall) :=
  [("COURSE_ENROLLMENT_CREATED", courseHandler handleCourseEnrollmentCreated);
   ("CONTENT_TRACKING_CREATED", contentHandler handleContentTrackingCreated)].

(** The current router as a table: topic, event type, handler method. *)
Definition routes : list (string * string * HandlerCall) :=
  [("user-topic", "USER_CREATED", userHandler handleUserUpsert);
   ("user-topic", "USER_UPDATED", userHandler handleUserUpsert);
   ("user-topic", "USER_DELETED", userHandler handleUserDelete);
   ("user-topic", "COHORT_CREATED", userHandler handleCohortUpsert);
   ("user-topic", "COHORT_UPDATED", userHandler handleCohortUpsert);
   ("user-topic", "COHORT_DELETED", userHandler handleCohortDelete);
   ("event-topic", "EVENT_CREATED", eventHandler handleEventUpsert);
   ("event-topic", "EVENT_UPDATED", eventHandler handleEventUpsert);
   ("event-topic", "EVENT_DELETED", eventHandler handleEventDelete);
   ("attendance-topic", "ATTENDANCE_CREATED",
    attendanceHandler handleAttendanceUpsert);
   ("attendance-topic", "ATTENDANCE_UPDATED",
    attendanceHandler handleAttendanceUpsert);
   ("attendance-topic", "ATTENDANCE_DELETED",
    attendanceHandler handleAttendanceDelete);
   ("course-topic", "COURSE_STATUS_UPDATED",
    courseHandler handleUserCourseUpdate);
   ("assessment-topic", "ASSESSMENT_CREATED",
    assessmentHandler handleAssessmentUpsert);
   ("assessment-topic", "ASSESSMENT_UPDATED",
    assessmentHandler handleAssessmentUpsert);
   ("assessment-topic", "ASSESSMENT_DELETED",
    assessmentHandler handleAssessmentDelete)].

(** The router of [src/kafka/kafka-consumer.ts] as a table. *)
Definition legacyRoutes : list (string * string * HandlerCall) :=
  [("user-topic", "USER_CREATED", userHandler handleUserUpsert);
   ("user-topic", "USER_UPDATED", userHandler handleUserUpsert);
   ("user-topic", "USER_DELETED", userHandler handleUserDelete);
   ("user-topic", "COHORT_CREATED", userHandler handleCohortUpsert);
   ("user-topic", "COHORT_UPDATED", userHandler handleCohortUpsert);
   ("user-topic", "COHORT_DELETED", userHandler handleCohortDelete)].

Definition lookupRoute (table : list (string * string * HandlerCall))
    (topic name : string) : option HandlerCall :=
  match
    List.find
      (fun r => String.eqb topic (fst (fst r)) &&
                String.eqb name (snd (fst r)))
      table
  with
  | Some r => Some (snd r)
  | None => None
  end.

Definition lookupOverride (name : string) : option HandlerCall :=
  match List.find (fun r => String.eqb name (fst r)) overrides with
  | Some r => Some (snd r)
  | None => None
  end.

Definition route (topic : string) (eventType : JsVal) : option HandlerCall :=
  match eventType with
  | VStr name =>
      match lookupOverride name with
      | Some h => Some h
      | None => lookupRoute routes topic name
      end
  | _ => None
  end.

Definition legacyRoute (topic : string) (eventType : JsVal)
    : option HandlerCall :=
  match eventType with
  | VStr name => lookupRoute legacyRoutes topic name
  | _ => None
  end.

(** The topics each router has a branch for. *)
Definition topics : list string :=
  ["user-topic"; "event-topic"; "attendance-topic"; "course-topic";
   "assessment-topic"].

Definition legacyTopics : list string :=
  ["user-topic"; "event-events"; "attendance-events"].

Definition hasBranch (known : list string) (topic : string) : bool :=
  existsb (String.eqb topic) known.

(** What becomes of a valid envelope for which the table has no entry.
    On a topic the router has a branch for, the branch puts the event
    type into a log line, which needs its text; on any other topic the
    router warns about the topic alone. *)
Definition unrouted (known : list string) (topic : string)
    (eventType : JsVal) : Completion unit :=
  if hasBranch known topic then toText eventType else Return tt.

(** What a router that follows a table does with a valid envelope. *)
Definition routedStore {DB} (env : Env DB) (target : option HandlerCall)
    (payload : JsVal) (db : DB) : DB :=
  match target with
  | Some h => fst (handler env h payload db)
  | None => db
  end.

Definition routedCalls (target : option HandlerCall) (payload : JsVal)
    : list (HandlerCall * JsVal) :=
  match target with
  | Some h => [(h, payload)]
  | None => []
  end.

Definition routedCompletion {DB} (env : Env DB)
    (target : option HandlerCall) (payload : JsVal) (db : DB)
    (otherwise : Completion unit) : Completion unit :=
  match target with
  | Some h => dropped (snd (handler env h payload db))
  | None => otherwise
  end.

(** What one message can do to the store. *)
Definition oneCallAtMost {DB} (env : Env DB) (before after : World DB)
    : Prop :=
  exists made,
    calls after = calls before ++ made /\
    (length made <= 1)%nat /\
    store after =
      match made with
      | [(h, payload)] => fst (handler env h payload (store before))
      | _ => store before
      end.

Definition isUserHandler (h : HandlerCall) : bool :=
  match h with
  | userHandler _ => true
  | _ => false
  end.

End RouterTables.

(** ** Vocabulary of further statements about the project handler *)

Module ProjectCalls.
Import ProjectHandler ProjectSpec.

(** The storage calls [handleProjectCreated] can make: none, the project
    alone, or the project and then its tasks. *)
Definition createdCallsShape (made : list DbCall) : Prop :=
  made = [] \/
  (exists project, made = [UpsertProject project]) \/
  (exists project tasks,
     made = [UpsertProject project; UpsertProjectTasks tasks]).

(** The storage calls [handleProjectSyncUpdate] can make: none, or one
    for a list of tracking records that is not empty. *)
Definition syncCallsShape (made : list DbCall) : Prop :=
  made = [] \/
  (exists record records,
     made = [UpsertProjectTaskTrackings (record :: records)]).

(** What the log of a handler's world gained. *)
Definition madeCalls {DB} (before after : World DB) : list DbCall :=
  drop (length (dbCalls before)) (dbCalls after).

(** A creation event in good order. *)
Definition creation : JsVal :=
  VObj [("projectTemplate",
         VObj [("projectTemplateId", VStr "pt1"); ("title", VStr "Garden")]);
        ("projectTemplateTasks", VArr [VObj [("taskId", VStr "t1")]]);
        ("totalTasks", VNum 1)].

(** A deployment whose task transform rejects the event as invalid. *)
Definition strictTasksEnv : Env (list JsVal) :=
  mkEnv required nonEmptyString
    (fun d =>
       Return (mkProject
                 (property (property d "projectTemplate") "projectTemplateId")
                 (property (property d "projectTemplate") "title")))
    (fun d => Throw (mkError ValidationError "task without externalId"))
    completedTasksOf
    (fun p db => (db ++ [ProjectId p], Return tt))
    (fun _ db => (db, Return (mkTasksResult 0)))
    (fun records db =>
       (db ++ records,
        Return (mkTrackingsResult (Z.of_nat (length records)) 0))).

End ProjectCalls.

(** * Properties *)

(** ** Properties of the scheduled job *)

Module CronFacts.
Import CronJobService CronSpec.

Lemma keepsStatus_ret {A} (a : A) : keepsStatus (ret a).
Proof. intros s. split; reflexivity. Qed.

Lemma keepsStatus_throw {A} e : keepsStatus (@throw Service A e).
Proof. intros s. split; reflexivity. Qed.

Lemma keepsStatus_liftC {A} (c : Completion A) : keepsStatus (liftC c).
Proof. intros s. split; reflexivity. Qed.

Lemma keepsStatus_logger lv msg err ctx : keepsStatus (logger lv msg err ctx).
Proof. intros s. split; reflexivity. Qed.

Lemma keepsStatus_now env : keepsStatus (now env).
Proof. intros s. split; reflexivity. Qed.

Lemma keepsStatus_bind {A B} (m : M Service A) (k : A -> M Service B) :
  keepsStatus m -> (forall a, keepsStatus (k a)) -> keepsStatus (bind m k).
Proof.
  intros Hm Hk s. unfold bind. specialize (Hm s).
  destruct (m s) as [s1 [a | e]]; simpl in *.
  - destruct (Hk a s1) as [H1 H2]. destruct Hm as [H3 H4].
    split; congruence.
  - exact Hm.
Qed.

Lemma keepsStatus_tryCatch {A} (m : M Service A) h :
  keepsStatus m -> (forall e, keepsStatus (h e)) -> keepsStatus (tryCatch m h).
Proof.
  intros Hm Hh s. unfold tryCatch. specialize (Hm s).
  destruct (m s) as [s1 [a | e]]; simpl in *.
  - exact Hm.
  - destruct (Hh e s1) as [H1 H2]. destruct Hm as [H3 H4].
    split; congruence.
Qed.

Lemma keepsStatus_repoCall env k op : keepsStatus (repoCall env k op).
Proof.
  intros s. unfold repoCall.
  destruct (faultOf env k op); destruct k; split; reflexivity.
Qed.

Lemma keepsStatus_findOne env k key : keepsStatus (findOne env k key).
Proof.
  intros s. unfold findOne.
  pose proof (keepsStatus_repoCall env k (FindOne key) s) as H.
  destruct (repoCall env k (FindOne key) s) as [s1 [a | e]]; exact H.
Qed.

Lemma keepsStatus_update env k key payload :
  keepsStatus (update env k key payload).
Proof. apply keepsStatus_repoCall. Qed.

Lemma keepsStatus_save env k payload : keepsStatus (save env k payload).
Proof. apply keepsStatus_repoCall. Qed.

Create HintDb frame.
#[local] Hint Resolve keepsStatus_ret keepsStatus_throw keepsStatus_liftC
  keepsStatus_logger keepsStatus_now keepsStatus_repoCall
  keepsStatus_findOne keepsStatus_update keepsStatus_save : frame.

Ltac frame :=
  repeat first
    [ apply keepsStatus_bind; [ | intros ? ]
    | apply keepsStatus_tryCatch; [ | intros ? ]
    | solve [ auto with frame ]
    | match goal with
      | |- keepsStatus (match ?x with _ => _ end) => destruct x
      | |- keepsStatus (if ?b then _ else _) => destruct b
      end ].

Lemma keepsStatus_saveEntity env k item : keepsStatus (saveEntity env k item).
Proof. unfold saveEntity. frame. Qed.

#[local] Hint Resolve keepsStatus_saveEntity : frame.

Lemma keepsStatus_processItem env k item n :
  keepsStatus (processItem env k item n).
Proof. unfold processItem. frame. Qed.

#[local] Hint Resolve keepsStatus_processItem : frame.

Lemma keepsStatus_forEachItem env k items :
  forall n, keepsStatus (forEachItem env k items n).
Proof.
  induction items as [| item rest IH]; intros n; simpl.
  - frame.
  - apply keepsStatus_bind; [ frame | intros n'; apply IH ].
Qed.

#[local] Hint Resolve keepsStatus_forEachItem : frame.

Lemma keepsStatus_processData env k : keepsStatus (processData env k).
Proof. unfold processData. frame. Qed.

#[local] Arguments processData : simpl never.

(** The shape of every run that starts idle. *)
Lemma executeCronJob_idle env s :
  isRunning (jobStatus s) = false ->
  exists o : RunOutcome,
    snd (executeCronJob env s) = completionAfter o /\
    jobStatus (fst (executeCronJob env s)) =
      statusAfter (clock env (clockReads s)) o (jobStatus s) /\
    statusHistory (fst (executeCronJob env s)) =
      statusHistory s ++
      assignmentsOf (clock env (clockReads s)) o (jobStatus s) /\
    match o with
    | Succeeded _ =>
        returns (snd (processData env CourseKind (begun env s))) = true /\
        returns (snd (processData env QuestionSetKind
                        (fst (processData env CourseKind (begun env s)))))
          = true
    | Failed e =>
        snd (processData env CourseKind (begun env s)) = Throw e \/
        snd (processData env QuestionSetKind
               (fst (processData env CourseKind (begun env s)))) = Throw e
    end.
Proof.
  intros H. unfold executeCronJob, begun.
  cbv beta iota delta [bind assign now getStatus logger tryFinally tryCatch
                       liftC processCourseData processQuestionSetData].
  rewrite H. cbn.
  destruct (processData env CourseKind _) as [s1 [r1 | e1]] eqn:E1.
  - match type of E1 with
    | processData _ _ ?s0 = _ =>
        destruct (keepsStatus_processData env CourseKind s0) as [F1 F2]
    end.
    rewrite E1 in F1, F2. cbn in F1, F2.
    destruct (processData env QuestionSetKind s1) as [s2 [r2 | e2]] eqn:E2;
      destruct (keepsStatus_processData env QuestionSetKind s1) as [G1 G2];
      rewrite E2 in G1, G2; cbn in G1, G2; cbn.
    + exists (Succeeded (clock env (clockReads s2))).
      rewrite G1, G2, F1, F2, E2. unfold assignmentsOf, statusAfter.
      rewrite <- !app_assoc. auto.
    + exists (Failed e2).
      rewrite E2.
      unfold assignmentsOf, statusAfter, settledStatus, completionAfter.
      destruct (messageOf e2) as [msg | te]; cbn;
        rewrite G1, G2, F1, F2, <- !app_assoc; auto.
  - match type of E1 with
    | processData _ _ ?s0 = _ =>
        destruct (keepsStatus_processData env CourseKind s0) as [F1 F2]
    end.
    rewrite E1 in F1, F2. cbn in F1, F2. cbn.
    exists (Failed e1).
    unfold assignmentsOf, statusAfter, settledStatus, completionAfter.
    destruct (messageOf e1) as [msg | te]; cbn;
      rewrite F1, F2, <- !app_assoc; auto.
Qed.

(** The shape of every invocation that finds a run in flight. *)
Lemma executeCronJob_busy env s :
  isRunning (jobStatus s) = true ->
  executeCronJob env s =
    (mkService (jobStatus s) (statusHistory s) (courseRepo s)
       (questionSetRepo s) (issued s) (logs s ++ [skipWarning])
       (clockReads s),
     Return tt).
Proof.
  intros H. unfold executeCronJob, bind, getStatus. rewrite H. reflexivity.
Qed.

(** While a run awaits its sub-pulls the flag is up: this is when an
    overlapping invocation can arrive. *)
Lemma begun_running env s : isRunning (jobStatus (begun env s)) = true.
Proof. reflexivity. Qed.

Lemma statusAfter_idle started o js :
  isRunning (statusAfter started o js) = false.
Proof. reflexivity. Qed.

Lemma statusAfter_balanced started o js :
  balanced js -> balanced (statusAfter started o js).
Proof.
  unfold balanced. destruct o as [finished | e]; cbn;
    [ | destruct (messageOf e) ]; cbn; lia.
Qed.

Lemma statusAfter_counts started o js :
  totalExecutions (statusAfter started o js) = totalExecutions js + 1 /\
  successfulExecutions (statusAfter started o js) +
  failedExecutions (statusAfter started o js) =
    successfulExecutions js + failedExecutions js + 1.
Proof.
  destruct o as [finished | e]; cbn; [ | destruct (messageOf e) ]; cbn;
    split; lia.
Qed.

Lemma assignmentsOf_idleBalanced started o js :
  balanced js -> Forall idleBalanced (assignmentsOf started o js).
Proof.
  intros Hb. pose proof (statusAfter_balanced started o js Hb) as Hend.
  unfold assignmentsOf, statusAfter, settledStatus in *.
  destruct o as [finished | e]; [ | destruct (messageOf e) ]; cbn in *;
    repeat constructor;
    first [ intros Hrun; cbn in Hrun; discriminate | intros _; exact Hend ].
Qed.

Lemma invoke_announced env t s :
  invoke env t s = executeCronJob env (announced t s).
Proof.
  destruct t; cbn.
  - unfold announced. cbn. rewrite app_nil_r. destruct s; reflexivity.
  - reflexivity.
Qed.

Lemma invoke_atRest env t s : atRest s -> atRest (fst (invoke env t s)).
Proof.
  intros (Hidle & Hbal & Hhist). rewrite invoke_announced.
  destruct (executeCronJob_idle env (announced t s) Hidle)
    as (o & _ & Hjs & Hh & _).
  unfold atRest. rewrite Hjs, Hh. cbn [announced jobStatus statusHistory].
  split; [ apply statusAfter_idle | split ].
  - apply statusAfter_balanced, Hbal.
  - apply Forall_app. split; [ exact Hhist | ].
    apply assignmentsOf_idleBalanced, Hbal.
Qed.

Lemma invocations_atRest runs :
  forall s, atRest s -> atRest (invocations runs s).
Proof.
  induction runs as [| [env t] rest IH]; intros s Hs; cbn.
  - exact Hs.
  - apply IH, invoke_atRest, Hs.
Qed.

Lemma initialService_atRest courses questionSets :
  atRest (initialService courses questionSets).
Proof.
  unfold atRest, initialService, balanced. cbn.
  split; [ reflexivity | split; [ reflexivity | constructor ] ].
Qed.

(** *** The loop over a fetched batch *)

Lemma saveEntity_ok env k item s :
  neverFaults env k -> snd (saveEntity env k item s) = Return tt.
Proof.
  intros H.
  unfold saveEntity, tryCatch, bind, findOne, update, save, repoCall, now.
  rewrite (H (FindOne (identifier item))).
  destruct (findRow (identifier item) (repoOf k s)); rewrite H; reflexivity.
Qed.

Lemma processItem_transform_fails env k item n s e :
  transformOf env k item = Throw e ->
  nullish item = false ->
  processItem env k item n s = (logged (itemFailureLog k e item) s, Return n).
Proof.
  intros H Hitem. unfold processItem, tryCatch, bind, liftC, member.
  rewrite H, Hitem. reflexivity.
Qed.


Lemma processItem_ok env k item n s t s1 :
  transformOf env k item = Return t ->
  saveEntity env k t s = (s1, Return tt) ->
  processItem env k item n s = (s1, Return (n + 1)).
Proof.
  intros H1 H2. unfold processItem, tryCatch, bind, liftC.
  rewrite H1, H2. reflexivity.
Qed.


Lemma processItem_save_fails_absent env k item n s t s1 e :
  transformOf env k item = Return t ->
  saveEntity env k t s = (s1, Throw e) ->
  nullish item = true ->
  processItem env k item n s = (s1, Throw unreadableItem).
Proof.
  intros H1 H2 Hitem. unfold processItem, tryCatch, bind, liftC, member.
  rewrite H1, H2, Hitem. reflexivity.
Qed.


Lemma forEachItem_cons env k item rest n s :
  forEachItem env k (item :: rest) n s =
    match processItem env k item n s with
    | (s1, Return n1) => forEachItem env k rest n1 s1
    | (s1, Throw e) => (s1, Throw e)
    end.
Proof. reflexivity. Qed.




(** C1. An invocation of [executeCronJob], scheduled or through
    [triggerManualExecution], that starts while [jobStatus.isRunning] is
    true returns without assigning any field of [jobStatus] (so the three
    counters keep their values), touches neither table, and logs the skip
    warning and nothing else ([triggerManualExecution] has logged its own
    line before it makes the call). *)
Theorem overlapping_invocation_is_skipped
    (env : Env) (t : Trigger) (s : Service) :
  isRunning (jobStatus s) = true ->
  snd (invoke env t s) = Return tt /\
  jobStatus (fst (invoke env t s)) = jobStatus s /\
  statusHistory (fst (invoke env t s)) = statusHistory s /\
  totalExecutions (jobStatus (fst (invoke env t s))) =
    totalExecutions (jobStatus s) /\
  successfulExecutions (jobStatus (fst (invoke env t s))) =
    successfulExecutions (jobStatus s) /\
  failedExecutions (jobStatus (fst (invoke env t s))) =
    failedExecutions (jobStatus s) /\
  courseRepo (fst (invoke env t s)) = courseRepo s /\
  questionSetRepo (fst (invoke env t s)) = questionSetRepo s /\
  issued (fst (invoke env t s)) = issued s /\
  logs (fst (invoke env t s)) = logs s ++ announcement t ++ [skipWarning].
Proof.
  intros H. rewrite invoke_announced.
  rewrite (executeCronJob_busy env (announced t s) H). cbn.
  rewrite <- app_assoc. repeat split; reflexivity.
Qed.

Lemma overlapping_invocation_is_skipped_witness :
  isRunning (jobStatus busyService) = true /\
  (snd (invoke quietEnv Manual busyService) = Return tt /\
   jobStatus (fst (invoke quietEnv Manual busyService)) =
     jobStatus busyService /\
   statusHistory (fst (invoke quietEnv Manual busyService)) =
     statusHistory busyService /\
   totalExecutions (jobStatus (fst (invoke quietEnv Manual busyService))) =
     totalExecutions (jobStatus busyService) /\
   successfulExecutions
     (jobStatus (fst (invoke quietEnv Manual busyService))) =
     successfulExecutions (jobStatus busyService) /\
   failedExecutions (jobStatus (fst (invoke quietEnv Manual busyService))) =
     failedExecutions (jobStatus busyService) /\
   courseRepo (fst (invoke quietEnv Manual busyService)) =
     courseRepo busyService /\
   questionSetRepo (fst (invoke quietEnv Manual busyService)) =
     questionSetRepo busyService /\
   issued (fst (invoke quietEnv Manual busyService)) = issued busyService /\
   logs (fst (invoke quietEnv Manual busyService)) =
     logs busyService ++ announcement Manual ++ [skipWarning]).
Proof.
  split.
  - reflexivity.
  - apply (overlapping_invocation_is_skipped quietEnv Manual busyService).
    reflexivity.
Defined.

(** C2. Every run of [executeCronJob] that is not skipped ends with
    [jobStatus.isRunning] false, whether its body completed or an
    exception was raised inside it: the run ends in one of the two
    outcomes, and in both the flag has been released when the call
    terminates.  That holds as well when the [catch] clause itself
    throws, which it does when the value it caught is [undefined] or
    [null]: the call then rejects, with the failure counted, and the flag
    is released all the same. *)
Theorem guard_released_on_every_exit
    (env : Env) (t : Trigger) (s : Service) :
  isRunning (jobStatus s) = false ->
  isRunning (jobStatus (fst (invoke env t s))) = false /\
  exists o : RunOutcome,
    snd (invoke env t s) = completionAfter o /\
    jobStatus (fst (invoke env t s)) =
      statusAfter (clock env (clockReads s)) o (jobStatus s).
Proof.
  intros H. rewrite invoke_announced.
  destruct (executeCronJob_idle env (announced t s) H)
    as (o & Hr & Hjs & _ & _).
  split.
  - rewrite Hjs. apply statusAfter_idle.
  - exists o. split; [ exact Hr | exact Hjs ].
Qed.

Lemma guard_released_on_every_exit_witness :
  isRunning (jobStatus (initialService [] [])) = false /\
  (isRunning
     (jobStatus (fst (invoke offlineEnv Scheduled (initialService [] [])))) =
     false /\
   exists o : RunOutcome,
     snd (invoke offlineEnv Scheduled (initialService [] [])) =
       completionAfter o /\
     jobStatus (fst (invoke offlineEnv Scheduled (initialService [] []))) =
       statusAfter (clock offlineEnv (clockReads (initialService [] []))) o
         (jobStatus (initialService [] []))).
Proof.
  split.
  - reflexivity.
  - apply (guard_released_on_every_exit offlineEnv Scheduled
             (initialService [] [])).
    reflexivity.
Defined.

(** In the sample run with the API unreachable the exception path is the
    one taken, and the call resolves.  When the API client rejects with
    [undefined] the call rejects with the [TypeError] of its own [catch]
    clause, [lastError] is not set, and the flag is down. *)
Example offline_run_is_recorded_as_failure :
  executeCronJob offlineEnv (initialService [] []) =
    (fst (executeCronJob offlineEnv (initialService [] [])), Return tt) /\
  jobStatus (fst (executeCronJob offlineEnv (initialService [] []))) =
    mkStatus false (Some 0) None (VStr "connect ECONNREFUSED") 1 0 1 /\
  snd (executeCronJob bareRejectionEnv (initialService [] [])) =
    Throw (mkError TypeError "Cannot read properties of undefined") /\
  jobStatus (fst (executeCronJob bareRejectionEnv (initialService [] []))) =
    mkStatus false (Some 0) None VUndefined 1 0 1.
Proof. vm_compute. repeat split; reflexivity. Qed.

(** C10. A run that is not skipped adds one to [totalExecutions] when it
    starts (every value [jobStatus] takes after the first two assignments
    of the run carries the new total) and, by the time it ends, has added
    one to exactly one of [successfulExecutions] and [failedExecutions];
    a successful run also clears [lastError].  Hence, from the initial
    status on, every value [jobStatus] ever takes with [isRunning] false
    has [totalExecutions = successfulExecutions + failedExecutions]. *)
Theorem counters_balance_when_idle :
  (forall (env : Env) (t : Trigger) (s : Service),
     isRunning (jobStatus s) = false ->
     totalExecutions (jobStatus (fst (invoke env t s))) =
       totalExecutions (jobStatus s) + 1 /\
     Forall
       (fun js => totalExecutions js = totalExecutions (jobStatus s) + 1)
       (drop (length (statusHistory s) + 2)
          (statusHistory (fst (invoke env t s)))) /\
     ((successfulExecutions (jobStatus (fst (invoke env t s))) =
         successfulExecutions (jobStatus s) + 1 /\
       failedExecutions (jobStatus (fst (invoke env t s))) =
         failedExecutions (jobStatus s) /\
       lastError (jobStatus (fst (invoke env t s))) = VUndefined) \/
      (successfulExecutions (jobStatus (fst (invoke env t s))) =
         successfulExecutions (jobStatus s) /\
       failedExecutions (jobStatus (fst (invoke env t s))) =
         failedExecutions (jobStatus s) + 1))) /\
  (forall (runs : list (Env * Trigger)) (courses questionSets : list Entity),
     Forall idleBalanced
       (statusHistory
          (invocations runs (initialService courses questionSets))) /\
     idleBalanced
       (jobStatus (invocations runs (initialService courses questionSets)))).
Proof.
  split.
  - intros env t s H. rewrite invoke_announced.
    destruct (executeCronJob_idle env (announced t s) H)
      as (o & _ & Hjs & Hh & _).
    rewrite Hjs, Hh. cbn [announced jobStatus statusHistory clockReads].
    unfold assignmentsOf, statusAfter, settledStatus.
    destruct o as [finished | e]; [ | destruct (messageOf e) ].
    all: split; [ reflexivity | ].
    all: split; [ rewrite drop_app_add; cbn; repeat constructor | ].
    all: cbn; first [ left; repeat split; reflexivity
                    | right; repeat split; reflexivity ].
  - intros runs courses questionSets.
    destruct (invocations_atRest runs _
                (initialService_atRest courses questionSets))
      as (Hidle & Hbal & Hhist).
    split; [ exact Hhist | intros _; exact Hbal ].
Qed.

Lemma counters_balance_when_idle_witness :
  isRunning (jobStatus (initialService [] [])) = false /\
  totalExecutions
    (jobStatus (fst (invoke quietEnv Manual (initialService [] [])))) =
    totalExecutions (jobStatus (initialService [] [])) + 1.
Proof.
  split.
  - reflexivity.
  - apply (proj1 counters_balance_when_idle quietEnv Manual
             (initialService [] [])).
    reflexivity.
Defined.



(** The sample batch, run: two of the three courses are stored, the
    failure of the second is logged, and the run counts as a success. *)
Example batch_of_three_with_one_untransformable :
  snd (processCourseData batchEnv (initialService [] [])) =
    Return (mkResult 2 1) /\
  jobStatus (fst (executeCronJob batchEnv (initialService [] []))) =
    mkStatus false (Some 0) (Some 5) VUndefined 1 1 0 /\
  map identifier
    (courseRepo (fst (executeCronJob batchEnv (initialService [] [])))) =
    ["do_1"; "do_3"] /\
  filter (fun l => isErrorLog l = true)
    (logs (fst (executeCronJob batchEnv (initialService [] [])))) =
    [itemFailureLog CourseKind unreadable broken].
Proof. vm_compute. repeat split; reflexivity. Qed.


(** *** Saving one item *)

Lemma mergeInto_stamped stamp item row :
  columns (mergeInto (withUpdatedAt stamp item) row) !! "updated_at" =
    Some (VDate stamp) /\
  forall c, c <> "updated_at" ->
    columns (mergeInto (withUpdatedAt stamp item) row) !! c =
      match columns item !! c with
      | Some v => Some v
      | None => columns row !! c
      end.
Proof.
  cbn. split.
  - apply lookup_union_Some_l, lookup_insert_eq.
  - intros c Hc. destruct (columns item !! c) as [v | ] eqn:E.
    + apply lookup_union_Some_l. rewrite lookup_insert_ne by congruence.
      exact E.
    + rewrite lookup_union_r; [ reflexivity | ].
      rewrite lookup_insert_ne by congruence. exact E.
Qed.

Lemma insertedRow_columns defaults item c :
  columns (insertedRow defaults item) !! c =
    match columns item !! c with
    | Some v => Some v
    | None => defaults item !! c
    end.
Proof.
  cbn. destruct (columns item !! c) as [v | ] eqn:E.
  - apply lookup_union_Some_l, E.
  - apply lookup_union_r, E.
Qed.




(** The update path on the sample table: the stored row takes the new
    name and the time of the save; its neighbour is untouched. *)
Example save_over_a_stored_row :
  courseRepo (fst (saveCourseData quietEnv newCourse storedService)) =
    [mkEntity "do_0" {[ "name" := VStr "Arithmetic" ]};
     mkEntity "do_1"
       (<["name" := VStr "Algebra"]> {[ "updated_at" := VDate 0 ]})].
Proof. vm_compute. reflexivity. Qed.

(** The two paths side by side, for a course that carries no
    [updated_at] of its own.  Where the course is stored already, the
    payload handed to [repo.update] carries the time of the save.  Where
    it is not, the payload handed to [repo.save] is the course as it
    came, without [updated_at]. *)
Example update_is_stamped_insert_is_not :
  issued (fst (saveCourseData quietEnv newCourse storedService)) =
    [(CourseKind, FindOne "do_1");
     (CourseKind, Update "do_1" (withUpdatedAt 0 newCourse))] /\
  columns (withUpdatedAt 0 newCourse) !! "updated_at" = Some (VDate 0) /\
  issued (fst (saveCourseData quietEnv newCourse (initialService [] []))) =
    [(CourseKind, FindOne "do_1"); (CourseKind, Save newCourse)] /\
  columns newCourse !! "updated_at" = None.
Proof. repeat split; vm_compute; reflexivity. Qed.

End CronFacts.

(** ** Properties of the router *)

Module RouterFacts.
Import Bus RouterSpec.
Module Current := KafkaConsumerService.
Module Legacy := LegacyKafkaConsumerService.

Section Facts.

Context {DB : Type}.
Implicit Types (env : Env DB) (w : World DB).

Lemma absent_lookupField k fields :
  absent k fields -> lookupField k fields = VUndefined.
Proof. unfold absent, lookupField. intros ->. reflexivity. Qed.

(** An envelope with a falsy [eventType] or [data] is dropped. *)
Lemma current_drops_falsy env topic fields w :
  truthy (lookupField "eventType" fields) = false \/
  truthy (lookupField "data" fields) = false ->
  Current.processEvent env topic (VObj fields) w =
    (noting
       (banner topic (lookupField "eventType" fields)
          (lookupField "data" fields) ++
        [invalidEnvelopeWarning topic (VObj fields)]) w,
     Return tt).
Proof.
  intros H. unfold Current.processEvent, bind, liftC, say, noting. cbn.
  assert (Hcond : negb (truthy (lookupField "eventType" fields)) ||
                  negb (truthy (lookupField "data" fields)) = true).
  { destruct H as [-> | ->]; cbn; [ reflexivity | apply orb_true_r ]. }
  rewrite Hcond. cbn. rewrite <- !app_assoc. reflexivity.
Qed.

Lemma legacy_drops_falsy env topic fields w :
  truthy (lookupField "eventType" fields) = false \/
  truthy (lookupField "data" fields) = false ->
  Legacy.processEvent env topic (VObj fields) w =
    (noting [invalidEnvelopeWarning topic (VObj fields)] w, Return tt).
Proof.
  intros H. unfold Legacy.processEvent, bind, liftC, say, noting. cbn.
  assert (Hcond : negb (truthy (lookupField "eventType" fields)) ||
                  negb (truthy (lookupField "data" fields)) = true).
  { destruct H as [-> | ->]; cbn; [ reflexivity | apply orb_true_r ]. }
  rewrite Hcond. reflexivity.
Qed.

(** *** What the router itself can throw *)

Lemma throwsOnly_ret {S A} Q (a : A) : throwsOnly Q (@ret S A a).
Proof. intros s s' e H. discriminate. Qed.

Lemma throwsOnly_bind {S A B} Q (m : M S A) (k : A -> M S B) :
  throwsOnly Q m -> (forall a, throwsOnly Q (k a)) -> throwsOnly Q (bind m k).
Proof.
  intros Hm Hk s s' e. unfold bind.
  destruct (m s) as [s1 [a | e1]] eqn:E.
  - apply Hk.
  - intros H. injection H as <- <-. exact (Hm _ _ _ E).
Qed.

Lemma throwsOnly_say Q lv msg err ctx :
  throwsOnly Q (@say DB lv msg err ctx).
Proof. intros s s' e H. discriminate. Qed.

Lemma describable_error (e : JsError) : describable e.
Proof. reflexivity. Qed.

Lemma throwsOnly_template values :
  throwsOnly describable (@liftC (World DB) unit (template values)).
Proof.
  intros s s' e. unfold liftC. intros H. injection H as _ H.
  induction values as [| v rest IH]; cbn in H; [ discriminate | ].
  unfold toText in H. destruct (convertible v); cbn in H.
  - apply IH, H.
  - injection H as <-. apply describable_error.
Qed.

Lemma throwsOnly_sayf lv msg ctx :
  throwsOnly describable (@sayf DB lv msg ctx).
Proof.
  unfold sayf. apply throwsOnly_bind;
    [ apply throwsOnly_template | intros _; apply throwsOnly_say ].
Qed.

Lemma throwsOnly_destructure event :
  throwsOnly describable
    (@liftC (World DB) (JsVal * JsVal) (destructure event)).
Proof.
  intros s s' e. unfold liftC. intros H. injection H as _ H.
  destruct event; cbn in H; try discriminate;
    injection H as <-; apply describable_error.
Qed.

Lemma throwsOnly_call env h payload :
  throwsDescribable env -> throwsOnly describable (call env h payload).
Proof.
  intros [_ Hh] s s' e. unfold call. intros H. injection H as _ H.
  exact (Hh _ _ _ _ H).
Qed.

Ltac throws :=
  repeat first
    [ apply throwsOnly_sayf
    | apply throwsOnly_template
    | apply throwsOnly_bind; [ | intros ? ]
    | apply throwsOnly_ret
    | apply throwsOnly_say
    | apply throwsOnly_destructure
    | apply throwsOnly_call; assumption
    | match goal with
      | |- throwsOnly _ (if ?b then _ else _) => destruct b
      end ].

Lemma current_processEvent_throws env topic event :
  throwsDescribable env ->
  throwsOnly describable (Current.processEvent env topic event).
Proof.
  intros Henv.
  unfold Current.processEvent, Current.handleCourseEvent,
    Current.handleContentEvent, Current.handleUserEvent,
    Current.handleEventEvent, Current.handleAttendanceEvent,
    Current.handleAssessmentEvent.
  throws.
Qed.

Lemma legacy_processEvent_throws env topic event :
  throwsDescribable env ->
  throwsOnly describable (Legacy.processEvent env topic event).
Proof.
  intros Henv.
  unfold Legacy.processEvent, Legacy.handleUserEvent,
    Legacy.handleEventEvent, Legacy.handleAttendanceEvent.
  throws.
Qed.

(** *** The boundary *)

(** What the [catch] clause of the callback does with a value. *)
Lemma boundary_catch e w :
  (liftC (describe e) >>
   @say DB LError "Error processing Kafka message" (Some e) []) w =
    match describe e with
    | Return _ => (noting [messageErrorLog e] w, Return tt)
    | Throw te => (w, Throw te)
    end.
Proof.
  unfold bind, liftC. destruct (describe e) as [[] | te]; reflexivity.
Qed.

Lemma current_eachMessage_returns env topic message w :
  throwsDescribable env ->
  snd (Current.eachMessage env topic message w) = Return tt.
Proof.
  intros Henv. unfold Current.eachMessage, tryCatch.
  destruct (value message) as [text | ]; [ | reflexivity ].
  destruct (String.eqb text ""); [ reflexivity | ].
  unfold bind at 1, liftC at 1.
  destruct (JSON_parse env text) as [event | e] eqn:Hparse.
  - destruct (Current.processEvent env topic event w) as [w1 [[] | e]] eqn:E;
      [ reflexivity | ].
    rewrite boundary_catch.
    rewrite (current_processEvent_throws env topic event Henv _ _ _ E).
    reflexivity.
  - rewrite boundary_catch, (proj1 Henv _ _ Hparse). reflexivity.
Qed.

Lemma legacy_eachMessage_returns env topic message w :
  throwsDescribable env ->
  snd (Legacy.eachMessage env topic message w) = Return tt.
Proof.
  intros Henv. unfold Legacy.eachMessage, tryCatch.
  destruct (value message) as [text | ]; [ | reflexivity ].
  destruct (String.eqb text ""); [ reflexivity | ].
  unfold bind at 1, liftC at 1.
  destruct (JSON_parse env text) as [event | e] eqn:Hparse.
  - unfold bind at 1, say at 1.
    match goal with
    | |- context [Legacy.processEvent env topic event ?w0] =>
        destruct (Legacy.processEvent env topic event w0)
          as [w1 [[] | e]] eqn:E
    end; [ reflexivity | ].
    rewrite boundary_catch.
    rewrite (legacy_processEvent_throws env topic event Henv _ _ _ E).
    reflexivity.
  - rewrite boundary_catch, (proj1 Henv _ _ Hparse). reflexivity.
Qed.

Lemma current_runConsumer_app env s1 :
  throwsDescribable env ->
  forall s2 w,
    Current.runConsumer env (s1 ++ s2) w =
      Current.runConsumer env s2 (fst (Current.runConsumer env s1 w)).
Proof.
  intros Henv. induction s1 as [| [topic message] rest IH]; intros s2 w; cbn.
  - reflexivity.
  - unfold bind.
    pose proof (current_eachMessage_returns env topic message w Henv) as H.
    destruct (Current.eachMessage env topic message w) as [w1 [[] | e]];
      cbn in H; [ apply IH | discriminate ].
Qed.

Lemma current_runConsumer_returns env stream :
  throwsDescribable env ->
  forall w, snd (Current.runConsumer env stream w) = Return tt.
Proof.
  intros Henv. induction stream as [| [topic message] rest IH]; intros w; cbn.
  - reflexivity.
  - unfold bind.
    pose proof (current_eachMessage_returns env topic message w Henv) as H.
    destruct (Current.eachMessage env topic message w) as [w1 [[] | e]];
      cbn in H; [ apply IH | discriminate ].
Qed.

Lemma legacy_runConsumer_app env s1 :
  throwsDescribable env ->
  forall s2 w,
    Legacy.runConsumer env (s1 ++ s2) w =
      Legacy.runConsumer env s2 (fst (Legacy.runConsumer env s1 w)).
Proof.
  intros Henv. induction s1 as [| [topic message] rest IH]; intros s2 w; cbn.
  - reflexivity.
  - unfold bind.
    pose proof (legacy_eachMessage_returns env topic message w Henv) as H.
    destruct (Legacy.eachMessage env topic message w) as [w1 [[] | e]];
      cbn in H; [ apply IH | discriminate ].
Qed.

Lemma legacy_runConsumer_returns env stream :
  throwsDescribable env ->
  forall w, snd (Legacy.runConsumer env stream w) = Return tt.
Proof.
  intros Henv. induction stream as [| [topic message] rest IH]; intros w; cbn.
  - reflexivity.
  - unfold bind.
    pose proof (legacy_eachMessage_returns env topic message w Henv) as H.
    destruct (Legacy.eachMessage env topic message w) as [w1 [[] | e]];
      cbn in H; [ apply IH | discriminate ].
Qed.

Lemma newLogs_noting ls w : newLogs w (noting ls w) = ls.
Proof. unfold newLogs, noting. cbn. apply drop_app_length. Qed.

(** C3, as the code has it.  The callback that receives each bus
    message catches what the parser throws and what is thrown while the
    message is routed and handled, and logs it with its [message] and its
    [stack], in both versions of the router.  For a value that can be so
    described, which every [Error] object can, the callback resolves with
    that one error line.  So when the parser and the handlers throw
    nothing else the callback never rejects, and a stream is handed over
    to its end: what follows a message is processed whatever that message
    was.  A value whose [message] cannot be read, [undefined] or [null],
    makes the [catch] clause itself throw: the callback then rejects with
    that error. *)
Theorem message_boundary_absorbs_describable_errors env :
  (forall topic text w e,
     text <> "" ->
     JSON_parse env text = Throw e ->
     describable e ->
     Current.eachMessage env topic (mkMessage (Some text)) w =
       (noting [messageErrorLog e] w, Return tt) /\
     Legacy.eachMessage env topic (mkMessage (Some text)) w =
       (noting [messageErrorLog e] w, Return tt)) /\
  (forall topic text w event w1 e,
     text <> "" ->
     JSON_parse env text = Return event ->
     describable e ->
     (Current.processEvent env topic event w = (w1, Throw e) ->
      Current.eachMessage env topic (mkMessage (Some text)) w =
        (noting [messageErrorLog e] w1, Return tt)) /\
     (Legacy.processEvent env topic event
        (noting [receivedDebugLog topic text] w) = (w1, Throw e) ->
      Legacy.eachMessage env topic (mkMessage (Some text)) w =
        (noting [messageErrorLog e] w1, Return tt))) /\
  (throwsDescribable env ->
   (forall topic message w,
      snd (Current.eachMessage env topic message w) = Return tt /\
      snd (Legacy.eachMessage env topic message w) = Return tt) /\
   (forall stream w,
      snd (Current.runConsumer env stream w) = Return tt /\
      snd (Legacy.runConsumer env stream w) = Return tt) /\
   (forall before after w,
      Current.runConsumer env (before ++ after) w =
        Current.runConsumer env after
          (fst (Current.runConsumer env before w)) /\
      Legacy.runConsumer env (before ++ after) w =
        Legacy.runConsumer env after
          (fst (Legacy.runConsumer env before w)))) /\
  (forall topic text w event w1 e te,
     text <> "" ->
     JSON_parse env text = Return event ->
     describe e = Throw te ->
     (Current.processEvent env topic event w = (w1, Throw e) ->
      Current.eachMessage env topic (mkMessage (Some text)) w =
        (w1, Throw te)) /\
     (Legacy.processEvent env topic event
        (noting [receivedDebugLog topic text] w) = (w1, Throw e) ->
      Legacy.eachMessage env topic (mkMessage (Some text)) w =
        (w1, Throw te))).
Proof.
  repeat apply conj.
  - intros topic text w e Hne Hparse He.
    apply String.eqb_neq in Hne.
    unfold Current.eachMessage, Legacy.eachMessage, tryCatch.
    cbn [value]. rewrite Hne.
    unfold bind at 1 3, liftC at 1 3. rewrite Hparse.
    rewrite !boundary_catch, He. split; reflexivity.
  - intros topic text w event w1 e Hne Hparse He.
    apply String.eqb_neq in Hne.
    unfold Current.eachMessage, Legacy.eachMessage, tryCatch.
    cbn [value]. rewrite Hne.
    unfold bind at 1 3, liftC at 1 3. rewrite Hparse.
    split; intros Hroute.
    + rewrite Hroute, boundary_catch, He. reflexivity.
    + unfold noting, receivedDebugLog in Hroute.
      unfold bind at 1, say at 1.
      rewrite Hroute, boundary_catch, He. reflexivity.
  - intros Henv. repeat apply conj.
    + intros topic message w. split;
        [ apply current_eachMessage_returns
        | apply legacy_eachMessage_returns ]; exact Henv.
    + intros stream w. split;
        [ apply current_runConsumer_returns
        | apply legacy_runConsumer_returns ]; exact Henv.
    + intros before after w. split;
        [ apply current_runConsumer_app
        | apply legacy_runConsumer_app ]; exact Henv.
  - intros topic text w event w1 e te Hne Hparse He.
    apply String.eqb_neq in Hne.
    unfold Current.eachMessage, Legacy.eachMessage, tryCatch.
    cbn [value]. rewrite Hne.
    unfold bind at 1 3, liftC at 1 3. rewrite Hparse.
    split; intros Hroute.
    + rewrite Hroute, boundary_catch, He. reflexivity.
    + unfold noting, receivedDebugLog in Hroute.
      unfold bind at 1, say at 1.
      rewrite Hroute, boundary_catch, He. reflexivity.
Qed.

(** C4. An envelope that has no [eventType], or no [data], is not routed:
    the call returns, the store is what it was, no handler method has been
    invoked, and among the lines logged exactly one is a warning, the one
    that reports the invalid event.  Both versions of the router. *)
Theorem envelope_without_type_or_data_is_dropped env topic fields w :
  absent "eventType" fields \/ absent "data" fields ->
  (snd (Current.processEvent env topic (VObj fields) w) = Return tt /\
   store (fst (Current.processEvent env topic (VObj fields) w)) = store w /\
   calls (fst (Current.processEvent env topic (VObj fields) w)) = calls w /\
   newLogs w (fst (Current.processEvent env topic (VObj fields) w)) =
     banner topic (lookupField "eventType" fields)
       (lookupField "data" fields) ++
     [invalidEnvelopeWarning topic (VObj fields)] /\
   warnings
     (newLogs w (fst (Current.processEvent env topic (VObj fields) w))) =
     [invalidEnvelopeWarning topic (VObj fields)]) /\
  (snd (Legacy.processEvent env topic (VObj fields) w) = Return tt /\
   store (fst (Legacy.processEvent env topic (VObj fields) w)) = store w /\
   calls (fst (Legacy.processEvent env topic (VObj fields) w)) = calls w /\
   newLogs w (fst (Legacy.processEvent env topic (VObj fields) w)) =
     [invalidEnvelopeWarning topic (VObj fields)]).
Proof.
  intros H.
  assert (Hfalsy : truthy (lookupField "eventType" fields) = false \/
                   truthy (lookupField "data" fields) = false).
  { destruct H as [H | H]; [ left | right ];
      rewrite (absent_lookupField _ _ H); reflexivity. }
  rewrite (current_drops_falsy env topic fields w Hfalsy).
  rewrite (legacy_drops_falsy env topic fields w Hfalsy).
  cbn [fst snd]. rewrite !newLogs_noting.
  repeat split.
Qed.

(** C5. A valid envelope whose [eventType] is [COURSE_ENROLLMENT_CREATED]
    is handed to the course handler's [handleCourseEnrollmentCreated], and
    one whose [eventType] is [CONTENT_TRACKING_CREATED] to the content
    handler's [handleContentTrackingCreated], whatever the topic: that is
    the one handler method invoked, the store and the completion are the
    handler's, and no warning (so no report of an unhandled topic or event
    type) is logged.  This is the router that has these two handlers, the
    one with the course and content handlers injected; the router at
    [src/kafka/kafka-consumer.ts] has neither and dispatches by topic. *)
Theorem enrollment_and_tracking_events_bypass_topic env topic fields w :
  truthy (lookupField "data" fields) = true ->
  (lookupField "eventType" fields = VStr "COURSE_ENROLLMENT_CREATED" ->
   calls (fst (Current.processEvent env topic (VObj fields) w)) =
     calls w ++
     [(courseHandler handleCourseEnrollmentCreated,
       lookupField "data" fields)] /\
   store (fst (Current.processEvent env topic (VObj fields) w)) =
     fst (handler env (courseHandler handleCourseEnrollmentCreated)
            (lookupField "data" fields) (store w)) /\
   snd (Current.processEvent env topic (VObj fields) w) =
     dropped
       (snd (handler env (courseHandler handleCourseEnrollmentCreated)
               (lookupField "data" fields) (store w))) /\
   warnings
     (newLogs w (fst (Current.processEvent env topic (VObj fields) w))) =
     []) /\
  (lookupField "eventType" fields = VStr "CONTENT_TRACKING_CREATED" ->
   calls (fst (Current.processEvent env topic (VObj fields) w)) =
     calls w ++
     [(contentHandler handleContentTrackingCreated,
       lookupField "data" fields)] /\
   store (fst (Current.processEvent env topic (VObj fields) w)) =
     fst (handler env (contentHandler handleContentTrackingCreated)
            (lookupField "data" fields) (store w)) /\
   snd (Current.processEvent env topic (VObj fields) w) =
     dropped
       (snd (handler env (contentHandler handleContentTrackingCreated)
               (lookupField "data" fields) (store w))) /\
   warnings
     (newLogs w (fst (Current.processEvent env topic (VObj fields) w))) =
     []).
Proof.
  intros Hdata. split; intros Htype.
  - unfold Current.processEvent, Current.handleCourseEvent, sayf, bind,
      liftC, say, call, newLogs.
    cbn. rewrite Htype, Hdata. cbn.
    destruct (handler env (courseHandler handleCourseEnrollmentCreated)
                (lookupField "data" fields) (store w)) as [db [v | e]];
      cbn; rewrite <- !app_assoc, drop_app_length; repeat split.
  - unfold Current.processEvent, Current.handleContentEvent, sayf, bind,
      liftC, say, call, newLogs.
    cbn. rewrite Htype, Hdata. cbn.
    destruct (handler env (contentHandler handleContentTrackingCreated)
                (lookupField "data" fields) (store w)) as [db [v | e]];
      cbn; rewrite <- !app_assoc, drop_app_length; repeat split.
Qed.

End Facts.

Lemma sampleEnv_throwsDescribable : throwsDescribable sampleEnv.
Proof.
  split.
  - intros text e. cbn. unfold sampleParse.
    repeat match goal with
           | |- context [String.eqb text ?literal] =>
               destruct (String.eqb text literal)
           end; intros H; try discriminate.
    injection H as <-. reflexivity.
  - intros h payload db e.
    destruct h as [[] | [] | [] | [] | [] | []]; cbn; intros H;
      try discriminate.
    injection H as <-. reflexivity.
Qed.

Lemma message_boundary_absorbs_describable_errors_witness :
  throwsDescribable sampleEnv /\
  snd (Current.runConsumer sampleEnv
         [("user-topic", mkMessage (Some "{"));
          ("user-topic", mkMessage (Some userDeletedText));
          ("user-topic", mkMessage (Some "{}"))]
         emptyWorld) = Return tt /\
  snd (Legacy.runConsumer sampleEnv
         [("user-topic", mkMessage (Some "{"));
          ("user-topic", mkMessage (Some userDeletedText));
          ("user-topic", mkMessage (Some "{}"))]
         emptyWorld) = Return tt.
Proof.
  split.
  - exact sampleEnv_throwsDescribable.
  - apply (proj1 (proj2 (proj1 (proj2 (proj2
             (message_boundary_absorbs_describable_errors sampleEnv)))
             sampleEnv_throwsDescribable))).
Defined.

(** A rejecting handler, a message that parses to [null], and a stream
    whose first three messages fail: each failure is one error line and
    the message after it is still processed. *)
Example handler_rejection_is_absorbed :
  Current.processEvent sampleEnv "user-topic" (VObj userDeleted)
    emptyWorld =
    (mkWorld [] [(userHandler handleUserDelete, learner)]
       (banner "user-topic" (VStr "USER_DELETED") learner),
     Throw (mkError ForeignError "Connection terminated unexpectedly")) /\
  map level
    (logs
       (fst (Current.runConsumer sampleEnv
               [("user-topic", mkMessage (Some "{"));
                ("user-topic", mkMessage (Some "null"));
                ("user-topic", mkMessage (Some userDeletedText));
                ("user-topic", mkMessage (Some "{}"))]
               emptyWorld))) =
    [LError; LError;
     LLog; LLog; LLog; LLog; LLog; LError;
     LLog; LLog; LLog; LLog; LLog; LWarn].
Proof. split; vm_compute; reflexivity. Qed.

(** C3 as stated fails for a handler that rejects with [undefined].  The
    message parses to a valid envelope and is routed to the user
    handler, whose promise rejects without a reason; the [catch] clause
    of the callback reads [error.message] of [undefined] and throws.  The
    callback rejects, in both versions of the router, and the message
    that follows in the stream is not processed. *)
Lemma bare_rejection_escapes_the_boundary :
  JSON_parse bareRejectionEnv userDeletedText = Return (VObj userDeleted) /\
  snd (handler bareRejectionEnv (userHandler handleUserDelete) learner []) =
    Throw (ThrownValue VUndefined) /\
  snd (Current.eachMessage bareRejectionEnv "user-topic"
         (mkMessage (Some userDeletedText)) emptyWorld) =
    Throw (mkError TypeError "Cannot read properties of undefined") /\
  snd (Legacy.eachMessage bareRejectionEnv "user-topic"
         (mkMessage (Some userDeletedText)) emptyWorld) =
    Throw (mkError TypeError "Cannot read properties of undefined") /\
  Current.runConsumer bareRejectionEnv
    [("user-topic", mkMessage (Some userDeletedText));
     ("user-topic", mkMessage (Some "{}"))]
    emptyWorld =
    Current.eachMessage bareRejectionEnv "user-topic"
      (mkMessage (Some userDeletedText)) emptyWorld.
Proof. repeat split; vm_compute; reflexivity. Qed.

Lemma envelope_without_type_or_data_is_dropped_witness :
  (absent "eventType" [("data", learner)] \/
   absent "data" [("data", learner)]) /\
  snd (Current.processEvent sampleEnv "user-topic"
         (VObj [("data", learner)]) emptyWorld) = Return tt /\
  store (fst (Current.processEvent sampleEnv "user-topic"
                (VObj [("data", learner)]) emptyWorld)) = [] /\
  calls (fst (Current.processEvent sampleEnv "user-topic"
                (VObj [("data", learner)]) emptyWorld)) = [].
Proof.
  assert (H : absent "eventType" [("data", learner)] \/
              absent "data" [("data", learner)]) by (left; reflexivity).
  split; [ exact H | ].
  destruct (envelope_without_type_or_data_is_dropped sampleEnv "user-topic"
              [("data", learner)] emptyWorld H)
    as [(Hret & Hstore & Hcalls & _) _].
  split; [ exact Hret | split; [ exact Hstore | exact Hcalls ] ].
Defined.

Lemma enrollment_and_tracking_events_bypass_topic_witness :
  (truthy (lookupField "data" enrollment) = true /\
   lookupField "eventType" enrollment = VStr "COURSE_ENROLLMENT_CREATED") /\
  calls (fst (Current.processEvent sampleEnv "user-topic" (VObj enrollment)
                emptyWorld)) =
    calls emptyWorld ++
    [(courseHandler handleCourseEnrollmentCreated,
      lookupField "data" enrollment)].
Proof.
  split.
  - split; reflexivity.
  - apply (proj1 (enrollment_and_tracking_events_bypass_topic sampleEnv
                    "user-topic" enrollment emptyWorld eq_refl) eq_refl).
Defined.

(** C5 as stated fails for the router at [src/kafka/kafka-consumer.ts].
    It has neither the course nor the content handler and no test on the
    event type ahead of its switch on the topic: it takes an enrollment
    event that arrives on [user-topic] by its topic, finds no case for
    the event type, warns, and invokes no handler.  The other router
    hands the same envelope to the course handler. *)
Lemma legacy_router_dispatches_by_topic :
  Legacy.processEvent sampleEnv "user-topic" (VObj enrollment) emptyWorld =
    (noting
       [mkLog LWarn "Unhandled user eventType" None
          [VStr "COURSE_ENROLLMENT_CREATED"]]
       emptyWorld,
     Return tt) /\
  calls (fst (Legacy.processEvent sampleEnv "user-topic" (VObj enrollment)
                emptyWorld)) = [] /\
  calls (fst (Current.processEvent sampleEnv "user-topic" (VObj enrollment)
                emptyWorld)) =
    [(courseHandler handleCourseEnrollmentCreated, learner)].
Proof. repeat split; vm_compute; reflexivity. Qed.

End RouterFacts.

(** ** Properties of the project handler *)

Module ProjectFacts.
Import ProjectHandler ProjectSpec.

Lemma validationFailure_prefix e :
  String.prefix "Validation failed:" (message (validationFailure e)) = true.
Proof. reflexivity. Qed.

(** A template literal completes when each of its substitutions has a
    text. *)
Lemma template_cons v values :
  template (v :: values) = Return tt <->
  convertible v = true /\ template values = Return tt.
Proof.
  cbn. unfold toText. destruct (convertible v); cbn; split.
  - intros H. split; [ reflexivity | exact H ].
  - intros [_ H]. exact H.
  - discriminate.
  - intros [H _]. discriminate.
Qed.

Lemma template_member values v :
  template values = Return tt -> In v values -> template [v] = Return tt.
Proof.
  induction values as [| x rest IH]; intros H Hin; [ destruct Hin | ].
  apply template_cons in H. destruct H as [Hx Hrest].
  destruct Hin as [-> | Hin]; [ | exact (IH Hrest Hin) ].
  apply template_cons. split; [ exact Hx | reflexivity ].
Qed.

Lemma template_throws values e :
  template values = Throw e ->
  e = mkError TypeError "Cannot convert object to primitive value".
Proof.
  induction values as [| v rest IH]; cbn; [ discriminate | ].
  unfold toText. destruct (convertible v); cbn; [ exact IH | ].
  intros H. injection H as <-. reflexivity.
Qed.

Section Facts.

Context {DB : Type}.
Implicit Types (env : Env DB) (w : World DB).

Lemma rethrow_validation {A} txt1 txt2 (e : JsError) w :
  instanceofValidationError e = true ->
  @rethrow DB A txt1 txt2 e w =
    (mkWorld (store w) (dbCalls w)
       (logs w ++ [mkLog LError txt1 None [VStr (message e)]]),
     Throw (validationFailure e)).
Proof. intros H. unfold rethrow. rewrite H. reflexivity. Qed.

Lemma rethrow_other {A} txt1 txt2 (e : Thrown) w :
  instanceofValidationError e = false ->
  @rethrow DB A txt1 txt2 e w =
    (mkWorld (store w) (dbCalls w)
       (logs w ++ [mkLog LError txt2 (Some e) []]),
     Throw e).
Proof.
  intros H. unfold rethrow. destruct e as [e | v]; [ | reflexivity ].
  rewrite H. reflexivity.
Qed.

Lemma rethrow_rethrown {A} txt1 txt2 (e : Thrown) w :
  snd (@rethrow DB A txt1 txt2 e w) = Throw (rethrown e) /\
  store (fst (@rethrow DB A txt1 txt2 e w)) = store w /\
  dbCalls (fst (@rethrow DB A txt1 txt2 e w)) = dbCalls w.
Proof.
  unfold rethrow, rethrown. destruct e as [e | v]; [ | repeat split ].
  destruct (instanceofValidationError e); repeat split.
Qed.

Lemma consolef_ok msg ctx w :
  template ctx = Return tt ->
  consolef msg ctx w =
    (mkWorld (store w) (dbCalls w) (logs w ++ [mkLog LLog msg None ctx]),
     Return tt).
Proof. intros H. unfold consolef, bind, liftC. rewrite H. reflexivity. Qed.

Lemma consolef_throws msg ctx w e :
  template ctx = Throw e -> consolef msg ctx w = (w, Throw e).
Proof. intros H. unfold consolef, bind, liftC. rewrite H. reflexivity. Qed.

Lemma validated_sync env data :
  validateProjectSyncUpdate env data = Return tt -> nullish data = false.
Proof.
  intros Hval. unfold validateProjectSyncUpdate, member, bindC in Hval.
  destruct (nullish data); [ discriminate | reflexivity ].
Qed.

Lemma validated_created env data :
  validateProjectCreated env data = Return tt ->
  nullish data = false /\ nullish (property data "projectTemplate") = false.
Proof.
  intros Hval. unfold validateProjectCreated, member, bindC in Hval.
  destruct (nullish data); [ discriminate | ].
  split; [ reflexivity | ].
  destruct (validateRequired env (property data "projectTemplate") _);
    [ | discriminate ].
  destruct (validateRequired env (property data "projectTemplateTasks") _);
    [ | discriminate ].
  destruct (nullish (property data "projectTemplate"));
    [ discriminate | reflexivity ].
Qed.

(** The [try] block of [handleProjectSyncUpdate] up to the transform,
    for a payload that passes validation and whose logged values have a
    text. *)
Lemma sync_prologue env data w :
  validateProjectSyncUpdate env data = Return tt ->
  template (syncLogged data) = Return tt ->
  tryProjectSyncUpdate env data w =
    (let* trackingRecords :=
       liftC (transformProjectTaskTrackingData env data) in
     consolef "[ProjectHandler] Found completed tasks to track"
       [VNum (Z.of_nat (length trackingRecords))] >>
     if Nat.eqb (length trackingRecords) 0 then
       consolef "[ProjectHandler] No completed tasks to insert for project"
         [property data "solutionId"] >>
       ret (nothingTracked data)
     else
       let* result :=
         storage (UpsertProjectTaskTrackings trackingRecords)
           (upsertProjectTaskTrackings env trackingRecords) in
       consolef "[ProjectHandler] Project sync complete"
         [property data "solutionId"; VNum (inserted result);
          VNum (skipped result)] >>
       ret (VObj [("success", VBool true);
                  ("projectId", property data "solutionId");
                  ("status", property data "status");
                  ("totalTasks",
                   orElse
                     (optionalProperty (property data "tasks") "length")
                     (VNum 0));
                  ("completedTasks",
                   VNum (Z.of_nat (length trackingRecords)));
                  ("inserted", VNum (inserted result));
                  ("skipped", VNum (skipped result))]))
      (mkWorld (store w) (dbCalls w)
         (logs w ++
          [mkLog LLog "[ProjectHandler] Processing project sync update" None
             (syncLogged data)])).
Proof.
  intros Hval Htemplate. pose proof (validated_sync env data Hval) as Hdata.
  unfold tryProjectSyncUpdate.
  unfold bind at 1, liftC at 1. rewrite Hval.
  unfold member. rewrite Hdata.
  unfold bind at 1 2 3 4 5, liftC at 1 2 3 4 5. cbn [fst snd].
  unfold bind at 1. fold (syncLogged data).
  rewrite (consolef_ok _ _ _ Htemplate). reflexivity.
Qed.

(** The same for [handleProjectCreated], up to the first transform. *)
Lemma created_prologue env data w :
  validateProjectCreated env data = Return tt ->
  template (creationLogged data) = Return tt ->
  tryProjectCreated env data w =
    (let* transformedProjectData := liftC (transformProjectData env data) in
     storage (UpsertProject transformedProjectData)
       (upsertProject env transformedProjectData) >>
     consolef "[ProjectHandler] Project created/updated successfully"
       [ProjectId transformedProjectData;
        ProjectName transformedProjectData] >>
     let* transformedTasksData :=
       liftC (transformProjectTasksData env data) in
     let* tasksResult :=
       storage (UpsertProjectTasks transformedTasksData)
         (upsertProjectTasks env transformedTasksData) in
     consolef "[ProjectHandler] Project tasks processed"
       [VNum (count tasksResult); ProjectId transformedProjectData] >>
     ret (VObj [("success", VBool true);
                ("projectId", ProjectId transformedProjectData);
                ("tasksCount", VNum (count tasksResult))]))
      (mkWorld (store w) (dbCalls w)
         (logs w ++
          [mkLog LLog "[ProjectHandler] Processing project creation" None
             (creationLogged data)])).
Proof.
  intros Hval Htemplate.
  destruct (validated_created env data Hval) as [Hdata Htpl].
  unfold tryProjectCreated.
  unfold bind at 1, liftC at 1. rewrite Hval.
  unfold member. rewrite Hdata.
  unfold bind at 1, liftC at 1. cbn beta iota. rewrite Htpl.
  unfold bind at 1 2, liftC at 1 2. cbn beta iota.
  unfold bind at 1. fold (creationLogged data).
  rewrite (consolef_ok _ _ _ Htemplate). reflexivity.
Qed.


(** C8. In both handlers a payload rejected by field validation, that
    is, one for which a validator throws a [ValidationError], makes the
    handler throw an error whose message starts with [Validation failed:]
    (followed by the validator's message), before any storage call; and
    a value thrown during handling that is not a [ValidationError] is
    thrown on as it is.  In particular a rejection by the storage gateway
    reaches the caller unchanged. *)
Theorem validation_failures_are_marked_others_pass_through env data w :
  (forall e : JsError,
     validateProjectCreated env data = Throw e ->
     instanceofValidationError e = true ->
     snd (handleProjectCreated env data w) = Throw (validationFailure e) /\
     String.prefix "Validation failed:" (message (validationFailure e)) =
       true /\
     dbCalls (fst (handleProjectCreated env data w)) = dbCalls w /\
     store (fst (handleProjectCreated env data w)) = store w) /\
  (forall e : JsError,
     validateProjectSyncUpdate env data = Throw e ->
     instanceofValidationError e = true ->
     snd (handleProjectSyncUpdate env data w) = Throw (validationFailure e) /\
     String.prefix "Validation failed:" (message (validationFailure e)) =
       true /\
     dbCalls (fst (handleProjectSyncUpdate env data w)) = dbCalls w /\
     store (fst (handleProjectSyncUpdate env data w)) = store w) /\
  (forall w1 (e : Thrown),
     tryProjectCreated env data w = (w1, Throw e) ->
     instanceofValidationError e = false ->
     snd (handleProjectCreated env data w) = Throw e) /\
  (forall w1 (e : Thrown),
     tryProjectSyncUpdate env data w = (w1, Throw e) ->
     instanceofValidationError e = false ->
     snd (handleProjectSyncUpdate env data w) = Throw e) /\
  (forall project db (e : Thrown),
     validateProjectCreated env data = Return tt ->
     template (creationLogged data) = Return tt ->
     transformProjectData env data = Return project ->
     upsertProject env project (store w) = (db, Throw e) ->
     instanceofValidationError e = false ->
     snd (handleProjectCreated env data w) = Throw e) /\
  (forall record records db (e : Thrown),
     validateProjectSyncUpdate env data = Return tt ->
     template (syncLogged data) = Return tt ->
     transformProjectTaskTrackingData env data = Return (record :: records) ->
     upsertProjectTaskTrackings env (record :: records) (store w) =
       (db, Throw e) ->
     instanceofValidationError e = false ->
     snd (handleProjectSyncUpdate env data w) = Throw e).
Proof.
  repeat apply conj.
  - intros e Hval He.
    unfold handleProjectCreated, tryProjectCreated, tryCatch, bind, liftC.
    rewrite Hval, (rethrow_validation _ _ _ _ He). cbn. repeat split.
  - intros e Hval He.
    unfold handleProjectSyncUpdate, tryProjectSyncUpdate, tryCatch, bind,
      liftC.
    rewrite Hval, (rethrow_validation _ _ _ _ He). cbn. repeat split.
  - intros w1 e Htry He. unfold handleProjectCreated, tryCatch.
    rewrite Htry, (rethrow_other _ _ _ _ He). reflexivity.
  - intros w1 e Htry He. unfold handleProjectSyncUpdate, tryCatch.
    rewrite Htry, (rethrow_other _ _ _ _ He). reflexivity.
  - intros project db e Hval Htemplate Htransform Hstore He.
    unfold handleProjectCreated, tryCatch.
    rewrite (created_prologue env data w Hval Htemplate).
    unfold bind at 1, liftC at 1. rewrite Htransform.
    unfold bind at 1, storage at 1. cbn [store]. rewrite Hstore. cbn [fst snd].
    rewrite (rethrow_other _ _ _ _ He). reflexivity.
  - intros record records db e Hval Htemplate Htransform Hstore He.
    unfold handleProjectSyncUpdate, tryCatch.
    rewrite (sync_prologue env data w Hval Htemplate).
    unfold bind at 1, liftC at 1. rewrite Htransform.
    unfold bind at 1. rewrite consolef_ok by reflexivity.
    cbn [length Nat.eqb]. unfold bind at 1, storage at 1. cbn [store].
    rewrite Hstore. cbn [fst snd].
    rewrite (rethrow_other _ _ _ _ He). reflexivity.
Qed.

End Facts.



Lemma validation_failures_are_marked_others_pass_through_witness :
  (validateProjectCreated sampleEnv creationWithoutTemplate =
     Throw (mkError ValidationError "projectTemplate is required") /\
   instanceofValidationError
     (mkError ValidationError "projectTemplate is required") = true) /\
  snd (handleProjectCreated sampleEnv creationWithoutTemplate emptyWorld) =
    Throw (mkError PlainError
             "Validation failed: projectTemplate is required").
Proof.
  split.
  - split; reflexivity.
  - apply (proj1 (validation_failures_are_marked_others_pass_through
                    sampleEnv creationWithoutTemplate emptyWorld)
             (mkError ValidationError "projectTemplate is required")
             eq_refl eq_refl).
Defined.

(** On the sample deployment: a completed task is written through the
    storage gateway, and when the gateway is down its error comes out of
    the handler as it went in. *)
Example completion_is_tracked_and_storage_errors_surface :
  snd (handleProjectSyncUpdate sampleEnv projectWithCompletion emptyWorld) =
    Return (VObj [("success", VBool true);
                  ("projectId", VStr "s1");
                  ("status", VStr "inProgress");
                  ("totalTasks", VNum 1);
                  ("completedTasks", VNum 1);
                  ("inserted", VNum 1);
                  ("skipped", VNum 0)]) /\
  snd (handleProjectSyncUpdate offlineStoreEnv projectWithCompletion
         emptyWorld) = Throw storeDown.
Proof. split; vm_compute; reflexivity. Qed.

(** [totalTasks] is [data.tasks?.length || 0]: for a [tasks] that is a
    text it is the number of its UTF-16 code units, one for a character
    of the basic plane and two for a character beyond it, whatever the
    number of bytes that encode it. *)
Example total_tasks_of_a_text :
  property (VStr "née") "length" = VNum 3 /\
  property (VStr "𝄞") "length" = VNum 2.
Proof. split; reflexivity. Qed.

End ProjectFacts.

(** ** Further properties of the scheduled job *)

Module CronTableFacts.
Import CronJobService CronJobHealth CronSpec CronTables CronFacts.

(** *** Keeping a property of the tables through a run *)

Section Preservation.

Variable P : Service -> Prop.
Hypothesis P_storage : aboutStorage P.

Lemma preserves_ret {A} (a : A) : preserves P (ret a).
Proof. intros s H. exact H. Qed.

Lemma preserves_throw {A} e : preserves P (@throw Service A e).
Proof. intros s H. exact H. Qed.

Lemma preserves_liftC {A} (c : Completion A) : preserves P (liftC c).
Proof. intros s H. exact H. Qed.

Lemma preserves_getStatus : preserves P getStatus.
Proof. intros s H. exact H. Qed.

Lemma preserves_logger lv msg err ctx : preserves P (logger lv msg err ctx).
Proof. intros s H. apply (P_storage s); auto. Qed.

Lemma preserves_now env : preserves P (now env).
Proof. intros s H. apply (P_storage s); auto. Qed.

Lemma preserves_assign f : preserves P (assign f).
Proof. intros s H. apply (P_storage s); auto. Qed.

Lemma preserves_bind {A B} (m : M Service A) (k : A -> M Service B) :
  preserves P m -> (forall a, preserves P (k a)) -> preserves P (bind m k).
Proof.
  intros Hm Hk s H. unfold bind. specialize (Hm s H).
  destruct (m s) as [s1 [a | e]]; cbn in *.
  - apply Hk, Hm.
  - exact Hm.
Qed.

Lemma preserves_tryCatch {A} (m : M Service A) h :
  preserves P m -> (forall e, preserves P (h e)) ->
  preserves P (tryCatch m h).
Proof.
  intros Hm Hh s H. unfold tryCatch. specialize (Hm s H).
  destruct (m s) as [s1 [a | e]]; cbn in *.
  - exact Hm.
  - apply Hh, Hm.
Qed.

Lemma preserves_tryFinally {A} (m : M Service A) f :
  preserves P m -> preserves P f -> preserves P (tryFinally m f).
Proof.
  intros Hm Hf s H. unfold tryFinally. specialize (Hm s H).
  destruct (m s) as [s1 r]. cbn in Hm. specialize (Hf s1 Hm).
  destruct (f s1) as [s2 [[] | e]]; exact Hf.
Qed.

Ltac storage :=
  repeat first
    [ apply preserves_bind; [ | intros ? ]
    | apply preserves_tryCatch; [ | intros ? ]
    | apply preserves_tryFinally
    | apply preserves_ret
    | apply preserves_throw
    | apply preserves_liftC
    | apply preserves_getStatus
    | apply preserves_logger
    | apply preserves_now
    | apply preserves_assign
    | assumption
    | match goal with
      | |- preserves P (match ?x with _ => _ end) => destruct x
      | |- preserves P (if ?b then _ else _) => destruct b
      end ].

Lemma preserves_processItem env k item n :
  (forall t, preserves P (saveEntity env k t)) ->
  preserves P (processItem env k item n).
Proof.
  intros Hsave. unfold processItem.
  apply preserves_tryCatch; [ | intros e; storage ].
  apply preserves_bind; [ apply preserves_liftC | intros t ].
  apply preserves_bind; [ apply Hsave | intros _; apply preserves_ret ].
Qed.

Lemma preserves_forEachItem env k items :
  (forall t, preserves P (saveEntity env k t)) ->
  forall n, preserves P (forEachItem env k items n).
Proof.
  intros Hsave. induction items as [| item rest IH]; intros n; cbn.
  - apply preserves_ret.
  - apply preserves_bind; [ apply preserves_processItem, Hsave | ].
    intros n'. apply IH.
Qed.

Lemma preserves_processData env k :
  (forall t, preserves P (saveEntity env k t)) ->
  preserves P (processData env k).
Proof.
  intros Hsave. unfold processData.
  apply preserves_bind; [ apply preserves_now | intros startTime ].
  apply preserves_bind.
  - apply preserves_tryCatch; [ | intros e; storage ].
    apply preserves_bind; [ apply preserves_logger | intros _ ].
    apply preserves_bind; [ apply preserves_liftC | intros r ].
    destruct (nothingToDo r); [ storage | ].
    apply preserves_bind; [ apply preserves_logger | intros _ ].
    apply preserves_bind; [ apply preserves_forEachItem, Hsave | intros n ].
    storage.
  - intros [result | n]; storage.
Qed.

Lemma preserves_executeCronJob env :
  (forall k t, preserves P (saveEntity env k t)) ->
  preserves P (executeCronJob env).
Proof.
  intros Hsave. unfold executeCronJob.
  apply preserves_bind; [ apply preserves_getStatus | intros status ].
  destruct (isRunning status); [ apply preserves_logger | ].
  apply preserves_bind; [ apply preserves_assign | intros _ ].
  apply preserves_bind; [ apply preserves_now | intros started ].
  apply preserves_bind; [ apply preserves_assign | intros _ ].
  apply preserves_bind; [ apply preserves_assign | intros _ ].
  apply preserves_tryFinally; [ | apply preserves_assign ].
  apply preserves_tryCatch; [ | intros e; storage ].
  apply preserves_bind; [ apply preserves_getStatus | intros st ].
  apply preserves_bind; [ apply preserves_logger | intros _ ].
  apply preserves_bind;
    [ apply preserves_processData, Hsave | intros _ ].
  apply preserves_bind;
    [ apply preserves_processData, Hsave | intros _ ].
  storage.
Qed.

Lemma preserves_invoke env t :
  (forall k item, preserves P (saveEntity env k item)) ->
  preserves P (invoke env t).
Proof.
  intros Hsave. destruct t; cbn.
  - apply preserves_executeCronJob, Hsave.
  - unfold triggerManualExecution.
    apply preserves_bind; [ apply preserves_logger | intros _ ].
    apply preserves_executeCronJob, Hsave.
Qed.

Lemma preserves_invocations runs :
  (forall env k item, preserves P (saveEntity env k item)) ->
  forall s, P s -> P (invocations runs s).
Proof.
  intros Hsave. induction runs as [| [env t] rest IH]; intros s H; cbn.
  - exact H.
  - apply IH, (preserves_invoke env t (Hsave env)), H.
Qed.

End Preservation.

(** *** What a save does to its table *)

Lemma keysOf_updateRows key payload table :
  identifier payload = key ->
  keysOf (updateRows key payload table) = keysOf table.
Proof.
  intros Hkey. induction table as [| row rest IH]; cbn; [ reflexivity | ].
  f_equal; [ | exact IH ].
  unfold hasKey. destruct (String.eqb_spec (identifier row) key); cbn;
    congruence.
Qed.

Lemma findRow_None key table :
  findRow key table = None -> key ∉ keysOf table.
Proof.
  intros Hnone Hin. apply list_elem_of_In, in_map_iff in Hin.
  destruct Hin as (row & Hrow & Hin).
  pose proof (find_none _ _ Hnone row Hin) as Hno.
  unfold hasKey in Hno. apply String.eqb_neq in Hno. congruence.
Qed.

Lemma findRow_Some key table row :
  findRow key table = Some row -> identifier row = key.
Proof.
  intros H. apply find_some in H. destruct H as [_ H].
  apply String.eqb_eq, H.
Qed.

Lemma findRow_updateRows key payload table :
  identifier payload = key ->
  findRow key (updateRows key payload table) =
    mergeInto payload <$> findRow key table.
Proof.
  intros Hkey. induction table as [| row rest IH]; cbn; [ reflexivity | ].
  destruct (hasKey key row) eqn:Hrow; cbn.
  - unfold hasKey at 1. cbn. rewrite Hkey, String.eqb_refl. reflexivity.
  - rewrite Hrow. exact IH.
Qed.

Lemma findRow_appended key table row :
  findRow key table = None ->
  identifier row = key ->
  findRow key (table ++ [row]) = Some row.
Proof.
  intros Hnone Hkey. induction table as [| r rest IH]; cbn in *.
  - unfold hasKey. rewrite Hkey, String.eqb_refl. reflexivity.
  - destruct (hasKey key r); [ discriminate | apply IH, Hnone ].
Qed.

Lemma rowsWithout_updateRows key payload table :
  identifier payload = key ->
  rowsWithout key (updateRows key payload table) = rowsWithout key table.
Proof.
  intros Hkey. induction table as [| row rest IH]; cbn; [ reflexivity | ].
  destruct (hasKey key row) eqn:Hrow; cbn.
  - unfold hasKey at 1. cbn. rewrite Hkey, String.eqb_refl. cbn. exact IH.
  - rewrite Hrow. cbn. f_equal. exact IH.
Qed.

Lemma rowsWithout_appended key table row :
  identifier row = key ->
  rowsWithout key (table ++ [row]) = rowsWithout key table.
Proof.
  intros Hkey. unfold rowsWithout. rewrite List.filter_app. cbn.
  unfold hasKey. rewrite Hkey, String.eqb_refl. cbn. apply app_nil_r.
Qed.

(** The table of a save's own kind afterwards: as it was (a call
    rejected), updated in place, or one row longer; the other table as it
    was. *)
Lemma saveEntity_effect env k item s :
  repoOf (otherKind k) (fst (saveEntity env k item s)) =
    repoOf (otherKind k) s /\
  (repoOf k (fst (saveEntity env k item s)) = repoOf k s \/
   (is_Some (findRow (identifier item) (repoOf k s)) /\
    repoOf k (fst (saveEntity env k item s)) =
      updateRows (identifier item)
        (withUpdatedAt (clock env (clockReads s)) item) (repoOf k s)) \/
   (findRow (identifier item) (repoOf k s) = None /\
    repoOf k (fst (saveEntity env k item s)) =
      repoOf k s ++ [insertedRow (defaultsOf env k) item])).
Proof.
  unfold saveEntity, tryCatch, bind, findOne, update, save, repoCall, now,
    logger, throw.
  destruct (faultOf env k (FindOne (identifier item))) eqn:F1.
  - destruct k; cbn; auto.
  - destruct (findRow (identifier item) (repoOf k s)) as [found | ] eqn:Hfind.
    + destruct (faultOf env k (Update _ _)) eqn:F2;
        destruct k; cbn -[updateRows]; eauto 6.
    + destruct (faultOf env k (Save item)) eqn:F2;
        destruct k; cbn -[insertedRow]; auto.
Qed.

(** The same for a save that completed: it did update or insert. *)
Lemma saveEntity_completed env k item s :
  snd (saveEntity env k item s) = Return tt ->
  match findRow (identifier item) (repoOf k s) with
  | Some _ =>
      repoOf k (fst (saveEntity env k item s)) =
        updateRows (identifier item)
          (withUpdatedAt (clock env (clockReads s)) item) (repoOf k s) /\
      issued (fst (saveEntity env k item s)) =
        issued s ++
        [(k, FindOne (identifier item));
         (k, Update (identifier item)
               (withUpdatedAt (clock env (clockReads s)) item))]
  | None =>
      repoOf k (fst (saveEntity env k item s)) =
        repoOf k s ++ [insertedRow (defaultsOf env k) item] /\
      issued (fst (saveEntity env k item s)) =
        issued s ++ [(k, FindOne (identifier item)); (k, Save item)]
  end.
Proof.
  intros H.
  unfold saveEntity, tryCatch, bind, findOne, update, save, repoCall, now,
    logger, throw in *.
  destruct (faultOf env k (FindOne (identifier item))) eqn:F1;
    [ discriminate | ].
  destruct (findRow (identifier item) (repoOf k s)) as [found | ] eqn:Hfind.
  - destruct (faultOf env k (Update _ _)) eqn:F2; [ discriminate | ].
    destruct k; cbn -[updateRows]; rewrite <- app_assoc; auto.
  - destruct (faultOf env k (Save item)) eqn:F2; [ discriminate | ].
    destruct k; cbn -[insertedRow]; rewrite <- app_assoc; auto.
Qed.

Lemma saveEntity_uniqueKeys env k item s :
  uniqueKeys (repoOf k s) ->
  uniqueKeys (repoOf k (fst (saveEntity env k item s))).
Proof.
  intros Hu. destruct (saveEntity_effect env k item s) as [_ Hk].
  destruct Hk as [-> | [[_ ->] | [Hnone ->]]].
  - exact Hu.
  - unfold uniqueKeys. rewrite keysOf_updateRows; [ exact Hu | reflexivity ].
  - unfold uniqueKeys, keysOf. rewrite map_app. cbn.
    apply NoDup_app. split; [ exact Hu | ]. split.
    + intros key Hin Hlast. apply list_elem_of_singleton in Hlast. subst key.
      exact (findRow_None _ _ Hnone Hin).
    + apply NoDup_singleton.
Qed.

Lemma saveEntity_bothUnique env k item :
  preserves bothUnique (saveEntity env k item).
Proof.
  intros s [Hc Hq].
  pose proof (saveEntity_uniqueKeys env k item s) as Hk.
  destruct (saveEntity_effect env k item s) as [Hother _].
  destruct k; cbn in *; split;
    first [ apply Hk; assumption | rewrite Hother; assumption ].
Qed.

Lemma bothUnique_storage : aboutStorage bothUnique.
Proof. intros s s' Hc Hq _ [H1 H2]. split; congruence. Qed.

#[local] Arguments processData : simpl never.

Lemma saveEntity_found env k item s :
  snd (saveEntity env k item s) = Return tt ->
  exists row,
    findRow (identifier item) (repoOf k (fst (saveEntity env k item s))) =
      Some row /\
    identifier row = identifier item /\
    (forall c v,
       c <> "updated_at" ->
       columns item !! c = Some v -> columns row !! c = Some v) /\
    (is_Some (findRow (identifier item) (repoOf k s)) ->
     columns row !! "updated_at" = Some (VDate (clock env (clockReads s)))) /\
    (findRow (identifier item) (repoOf k s) = None ->
     columns row = columns item ∪ defaultsOf env k item).
Proof.
  intros H. pose proof (saveEntity_completed env k item s H) as Hdone.
  destruct (findRow (identifier item) (repoOf k s)) as [found | ] eqn:Hfind.
  - destruct Hdone as [-> _].
    rewrite findRow_updateRows, Hfind by reflexivity. cbn [fmap option_fmap
      option_map].
    eexists. split; [ reflexivity | ].
    destruct (mergeInto_stamped (clock env (clockReads s)) item found)
      as [Hstamp Hcols].
    split; [ reflexivity | ]. split; [ | split ].
    + intros c v Hc Hv. rewrite (Hcols c Hc), Hv. reflexivity.
    + intros _. exact Hstamp.
    + discriminate.
  - destruct Hdone as [-> _].
    rewrite (findRow_appended _ _ _ Hfind) by reflexivity.
    eexists. split; [ reflexivity | ].
    split; [ reflexivity | ]. split; [ | split ].
    + intros c v _ Hv. rewrite insertedRow_columns, Hv. reflexivity.
    + intros [x Hx]. discriminate.
    + reflexivity.
Qed.

Lemma processData_other_table env k s :
  repoOf (otherKind k) (fst (processData env k s)) = repoOf (otherKind k) s.
Proof.
  apply (preserves_processData
           (fun s' => repoOf (otherKind k) s' = repoOf (otherKind k) s)).
  - intros s1 s2 Hc Hq _ H1. rewrite <- H1. destruct k; cbn; assumption.
  - intros t s1 H1. rewrite <- H1.
    apply (saveEntity_effect env k t s1).
  - reflexivity.
Qed.

Lemma processData_fetch_fails env k s e :
  fetchOf env k = Throw e ->
  processData env k s =
    (mkService (jobStatus s) (statusHistory s) (courseRepo s)
       (questionSetRepo s) (issued s)
       (logs s ++
        [mkLog LInfo
           (wording k "Fetching course data from Pratham Digital API"
              "Fetching question set data from Pratham Digital API")
           None [];
         mkLog LError
           (wording k "Failed to process course data"
              "Failed to process question set data")
           (Some e) []])
       (S (clockReads s)),
     Throw e).
Proof.
  intros Hf. unfold processData.
  cbv beta iota delta [bind now tryCatch logger liftC ret throw].
  rewrite Hf. cbn. rewrite <- app_assoc. reflexivity.
Qed.

Lemma saveEntity_calls_ok env k item s :
  neverFaults env k ->
  exists op,
    issued (fst (saveEntity env k item s)) =
      issued s ++ [(k, FindOne (identifier item)); (k, op)] /\
    List.map outline [(k, FindOne (identifier item)); (k, op)] =
      lookupThenWrite k item.
Proof.
  intros Hok.
  pose proof (saveEntity_completed env k item s (saveEntity_ok _ _ _ _ Hok))
    as Hdone.
  destruct (findRow (identifier item) (repoOf k s));
    destruct Hdone as [_ ->]; eexists; split; reflexivity.
Qed.

Lemma forEachItem_counts env k items :
  neverFaults env k ->
  allPresent items ->
  forall n s,
    exists made,
      snd (forEachItem env k items n s) =
        Return (n + Z.of_nat (length (transformable env k items))) /\
      issued (fst (forEachItem env k items n s)) = issued s ++ made /\
      List.map outline made =
        List.flat_map (lookupThenWrite k) (transformedOf env k items).
Proof.
  intros Hok. induction 1 as [| item rest Hitem Hrest IH]; intros n s.
  - exists []. cbn. rewrite app_nil_r. repeat split. f_equal. lia.
  - rewrite forEachItem_cons. unfold transformable, transformedOf.
    cbn [List.filter List.flat_map].
    destruct (transformOf env k item) as [t | e] eqn:Ht; cbn [returns].
    + pose proof (saveEntity_ok env k t s Hok) as Hret.
      destruct (saveEntity_calls_ok env k t s Hok) as (op & Hiss & Hout).
      destruct (saveEntity env k t s) as [s1 [[] | ?]] eqn:Hs;
        [ | discriminate ].
      rewrite (processItem_ok _ _ _ _ _ _ _ Ht Hs).
      destruct (IH (n + 1) s1) as (made & IH1 & IH2 & IH3).
      cbn [fst] in Hiss.
      exists ([(k, FindOne (identifier t)); (k, op)] ++ made).
      fold (transformable env k rest). fold (transformedOf env k rest).
      rewrite IH1, IH2, Hiss, <- app_assoc. cbn [length].
      split; [ f_equal; lia | ]. split; [ reflexivity | ].
      rewrite map_app, Hout, IH3. reflexivity.
    + rewrite (processItem_transform_fails _ _ _ _ _ _ Ht Hitem).
      destruct (IH n (logged (itemFailureLog k e item) s))
        as (made & IH1 & IH2 & IH3).
      exists made.
      fold (transformable env k rest). fold (transformedOf env k rest).
      rewrite IH1, IH2, IH3. repeat split.
Qed.

Lemma transformedOf_length env k items :
  length (transformedOf env k items) = length (transformable env k items).
Proof.
  induction items as [| item rest IH]; [ reflexivity | ].
  unfold transformedOf, transformable in *. cbn [List.flat_map List.filter].
  destruct (transformOf env k item); cbn [returns app length];
    rewrite IH; reflexivity.
Qed.

(** X1.  A table whose keys are unique keeps them unique through every save,
    whatever its outcome, and so through every run and sequence of runs:
    the job never stores a second row under an [identifier]. *)
Theorem keys_stay_unique (runs : list (Env * Trigger)) (s : Service) :
  uniqueKeys (courseRepo s) ->
  uniqueKeys (questionSetRepo s) ->
  uniqueKeys (courseRepo (invocations runs s)) /\
  uniqueKeys (questionSetRepo (invocations runs s)).
Proof.
  intros Hc Hq.
  apply (preserves_invocations bothUnique bothUnique_storage runs
           (fun env k item => saveEntity_bothUnique env k item) s).
  split; assumption.
Qed.

Lemma keys_stay_unique_witness :
  (uniqueKeys (courseRepo storedService) /\
   uniqueKeys (questionSetRepo storedService)) /\
  uniqueKeys
    (courseRepo
       (invocations [(batchEnv, Scheduled); (quietEnv, Manual)]
          storedService)) /\
  uniqueKeys
    (questionSetRepo
       (invocations [(batchEnv, Scheduled); (quietEnv, Manual)]
          storedService)).
Proof.
  assert (Hc : uniqueKeys (courseRepo storedService)).
  { apply (bool_decide_unpack _). vm_compute. exact I. }
  assert (Hq : uniqueKeys (questionSetRepo storedService)) by constructor.
  split; [ split; assumption | ].
  apply (keys_stay_unique [(batchEnv, Scheduled); (quietEnv, Manual)]
           storedService Hc Hq).
Defined.

(** X2.  After a save that completed, looking the item's key up finds a row
    with that key which carries every column of the item (other than
    [updated_at]); on the update path its [updated_at] is the time of the
    save, on the insert path its columns are the item's with the table's
    defaults. *)
Theorem saved_item_is_found env k item s :
  snd (saveEntity env k item s) = Return tt ->
  exists row,
    findRow (identifier item) (repoOf k (fst (saveEntity env k item s))) =
      Some row /\
    identifier row = identifier item /\
    (forall c v,
       c <> "updated_at" ->
       columns item !! c = Some v -> columns row !! c = Some v) /\
    (is_Some (findRow (identifier item) (repoOf k s)) ->
     columns row !! "updated_at" = Some (VDate (clock env (clockReads s)))) /\
    (findRow (identifier item) (repoOf k s) = None ->
     columns row = columns item ∪ defaultsOf env k item).
Proof. apply saveEntity_found. Qed.

Lemma saved_item_is_found_witness :
  snd (saveEntity quietEnv CourseKind newCourse storedService) = Return tt /\
  exists row,
    findRow (identifier newCourse)
      (repoOf CourseKind
         (fst (saveEntity quietEnv CourseKind newCourse storedService))) =
      Some row /\
    identifier row = identifier newCourse.
Proof.
  split; [ vm_compute; reflexivity | ].
  destruct (saved_item_is_found quietEnv CourseKind newCourse storedService
              ltac:(vm_compute; reflexivity))
    as (row & Hfind & Hkey & _).
  exists row. split; assumption.
Defined.

(** X3.  Saving the same item a second time, with storage working, is an
    update: no row is added, and the row found under the key differs from
    the one the first save left only in [updated_at]. *)
Theorem saving_again_changes_only_updated_at env k item s :
  neverFaults env k ->
  keysOf (repoOf k
            (fst (saveEntity env k item (fst (saveEntity env k item s))))) =
    keysOf (repoOf k (fst (saveEntity env k item s))) /\
  issued (fst (saveEntity env k item (fst (saveEntity env k item s)))) =
    issued (fst (saveEntity env k item s)) ++
    [(k, FindOne (identifier item));
     (k, Update (identifier item)
           (withUpdatedAt
              (clock env (clockReads (fst (saveEntity env k item s))))
              item))] /\
  exists row1 row2,
    findRow (identifier item) (repoOf k (fst (saveEntity env k item s))) =
      Some row1 /\
    findRow (identifier item)
      (repoOf k
         (fst (saveEntity env k item (fst (saveEntity env k item s))))) =
      Some row2 /\
    columns row2 !! "updated_at" =
      Some (VDate (clock env (clockReads (fst (saveEntity env k item s))))) /\
    forall c, c <> "updated_at" -> columns row2 !! c = columns row1 !! c.
Proof.
  intros Hok.
  destruct (saveEntity_found env k item s (saveEntity_ok _ _ _ _ Hok))
    as (row1 & Hfind1 & _ & Hcols1 & _).
  set (s1 := fst (saveEntity env k item s)) in *.
  pose proof (saveEntity_completed env k item s1
                (saveEntity_ok _ _ _ _ Hok)) as Hdone.
  rewrite Hfind1 in Hdone. destruct Hdone as [Hrepo Hissued].
  split; [ rewrite Hrepo; apply keysOf_updateRows; reflexivity | ].
  split; [ exact Hissued | ].
  exists row1, (mergeInto (withUpdatedAt (clock env (clockReads s1)) item)
                  row1).
  split; [ exact Hfind1 | ]. split.
  - rewrite Hrepo, findRow_updateRows, Hfind1 by reflexivity. reflexivity.
  - destruct (mergeInto_stamped (clock env (clockReads s1)) item row1)
      as [Hstamp Hcols].
    split; [ exact Hstamp | ].
    intros c Hc. rewrite (Hcols c Hc).
    destruct (columns item !! c) as [v | ] eqn:Hv; [ | reflexivity ].
    symmetry. apply (Hcols1 c v Hc Hv).
Qed.

Lemma saving_again_changes_only_updated_at_witness :
  neverFaults quietEnv CourseKind /\
  keysOf (repoOf CourseKind
            (fst (saveEntity quietEnv CourseKind newCourse
                    (fst (saveEntity quietEnv CourseKind newCourse
                            (initialService [] [])))))) =
    keysOf (repoOf CourseKind
              (fst (saveEntity quietEnv CourseKind newCourse
                      (initialService [] [])))).
Proof.
  assert (Hok : neverFaults quietEnv CourseKind) by (intros op; reflexivity).
  split; [ exact Hok | ].
  apply (saving_again_changes_only_updated_at quietEnv CourseKind newCourse
           (initialService [] []) Hok).
Defined.

(** X4.  A save, whatever its outcome, leaves the other repository's table
    and every row under another key as they were, and adds at most one
    row; a whole sub-pull leaves the other repository's table as it
    was. *)
Theorem save_is_confined_to_its_key :
  (forall env k item s,
     repoOf (otherKind k) (fst (saveEntity env k item s)) =
       repoOf (otherKind k) s /\
     rowsWithout (identifier item) (repoOf k (fst (saveEntity env k item s)))
       = rowsWithout (identifier item) (repoOf k s) /\
     (length (repoOf k s) <= length (repoOf k (fst (saveEntity env k item s)))
      <= S (length (repoOf k s)))%nat) /\
  (forall env k s,
     repoOf (otherKind k) (fst (processData env k s)) =
       repoOf (otherKind k) s).
Proof.
  split.
  - intros env k item s.
    destruct (saveEntity_effect env k item s) as [Hother Hk].
    split; [ exact Hother | ].
    destruct Hk as [-> | [[_ ->] | [_ ->]]].
    + split; [ reflexivity | lia ].
    + split; [ apply rowsWithout_updateRows; reflexivity | ].
      unfold updateRows. rewrite length_map. lia.
    + split; [ apply rowsWithout_appended; reflexivity | ].
      rewrite length_app. cbn. lia.
  - apply processData_other_table.
Qed.

(** X5.  With storage working, a sub-pull whose fetch reports success with
    items none of which is [undefined] or [null] counts in
    [totalProcessed] exactly the items its transform accepts, and the
    calls it issues are, for each of them in order, a lookup of the key
    of the transformed item and then a write under that key, on its own
    repository: two calls for each accepted item, none for the others. *)
Theorem processed_counts_the_transformable_items env k s r :
  neverFaults env k ->
  fetchOf env k = Return r ->
  success r = true ->
  allPresent (itemsOf r) ->
  (exists d,
     snd (processData env k s) =
       Return
         (mkResult (Z.of_nat (length (transformable env k (itemsOf r)))) d)) /\
  List.map outline (newCalls s (fst (processData env k s))) =
    List.flat_map (lookupThenWrite k) (transformedOf env k (itemsOf r)) /\
  length (newCalls s (fst (processData env k s))) =
    (2 * length (transformable env k (itemsOf r)))%nat.
Proof.
  intros Hok Hf Hsucc Hitems.
  assert (Hrun : exists d made,
             snd (processData env k s) =
               Return
                 (mkResult
                    (Z.of_nat (length (transformable env k (itemsOf r)))) d) /\
             issued (fst (processData env k s)) = issued s ++ made /\
             List.map outline made =
               List.flat_map (lookupThenWrite k)
                 (transformedOf env k (itemsOf r))).
  { unfold processData.
    cbv beta iota delta [bind now tryCatch logger liftC ret throw].
    rewrite Hf. cbn -[forEachItem transformable transformedOf].
    destruct (nothingToDo r) eqn:Hn;
      cbn -[forEachItem transformable transformedOf].
    - assert (Hnone : itemsOf r = []).
      { unfold nothingToDo in Hn. rewrite Hsucc in Hn. cbn in Hn.
        unfold itemsOf. destruct (data r) as [[| x xs] | ];
          [ reflexivity | discriminate | reflexivity ]. }
      rewrite Hnone. exists (clock env (S (clockReads s)) -
                             clock env (clockReads s)), [].
      cbn. rewrite app_nil_r. repeat split.
    - match goal with
      | |- context [forEachItem env k (itemsOf r) 0 ?s0] =>
          destruct (forEachItem_counts env k (itemsOf r) Hok Hitems 0 s0)
            as (made & Hret & Hiss & Hout);
          destruct (forEachItem env k (itemsOf r) 0 s0) as [s1 [n1 | e]]
      end; cbn in Hret; [ | discriminate ].
      injection Hret as ->. cbn in Hiss.
      cbn -[transformable transformedOf].
      eexists. exists made. repeat split; assumption. }
  destruct Hrun as (d & made & Hret & Hiss & Hout).
  unfold newCalls. rewrite Hiss, drop_app_length.
  split; [ exists d; exact Hret | ]. split; [ exact Hout | ].
  rewrite <- (length_map outline), Hout, <- transformedOf_length.
  clear. induction (transformedOf env k (itemsOf r)) as [| t rest IH];
    [ reflexivity | ].
  cbn [List.flat_map lookupThenWrite app length]. rewrite IH. lia.
Qed.

Lemma processed_counts_the_transformable_items_witness :
  (neverFaults batchEnv CourseKind /\
   fetchOf batchEnv CourseKind =
     Return (mkResponse true (Some [algebra; broken; geometry])) /\
   success (mkResponse true (Some [algebra; broken; geometry])) = true /\
   allPresent (itemsOf (mkResponse true (Some [algebra; broken; geometry]))))
  /\
  List.map outline
    (newCalls (initialService [] [])
       (fst (processData batchEnv CourseKind (initialService [] [])))) =
    List.flat_map (lookupThenWrite CourseKind)
      (transformedOf batchEnv CourseKind
         (itemsOf (mkResponse true (Some [algebra; broken; geometry])))).
Proof.
  assert (Hok : neverFaults batchEnv CourseKind) by (intros op; reflexivity).
  assert (Hitems : allPresent
                     (itemsOf
                        (mkResponse true (Some [algebra; broken; geometry]))))
    by (repeat constructor).
  split; [ repeat split; first [ exact Hok | exact Hitems | reflexivity ] | ].
  apply (processed_counts_the_transformable_items batchEnv CourseKind
           (initialService [] [])
           (mkResponse true (Some [algebra; broken; geometry]))
           Hok eq_refl eq_refl Hitems).
Defined.

(** On the sample batch: the lookup and the save of the first course,
    then those of the third. *)
Example calls_of_the_sample_batch :
  newCalls (initialService [] [])
    (fst (processData batchEnv CourseKind (initialService [] []))) =
    [(CourseKind, FindOne "do_1");
     (CourseKind, Save (mkEntity "do_1" {[ "name" := VStr "Algebra" ]}));
     (CourseKind, FindOne "do_3");
     (CourseKind, Save (mkEntity "do_3" {[ "name" := VStr "Geometry" ]}))].
Proof. vm_compute. reflexivity. Qed.

(** X6.  A response that is flagged unsuccessful, or has no [data], or an
    empty list, is nothing to do and not an error: the sub-pull returns
    [totalProcessed = 0] without a repository call, even when an
    unsuccessful response carries items. *)
Theorem nothing_to_do_is_not_an_error env k s r :
  fetchOf env k = Return r ->
  success r = false \/ itemsOf r = [] ->
  snd (processData env k s) =
    Return (mkResult 0
              (clock env (S (clockReads s)) - clock env (clockReads s))) /\
  issued (fst (processData env k s)) = issued s /\
  courseRepo (fst (processData env k s)) = courseRepo s /\
  questionSetRepo (fst (processData env k s)) = questionSetRepo s /\
  List.filter isErrorLog
    (drop (length (logs s)) (logs (fst (processData env k s)))) = [].
Proof.
  intros Hf Hr.
  assert (Hn : nothingToDo r = true).
  { unfold nothingToDo, itemsOf in *. destruct Hr as [-> | Hr];
      [ reflexivity | ].
    destruct (data r) as [[| x xs] | ];
      [ apply orb_true_r | discriminate | apply orb_true_r ]. }
  unfold processData.
  cbv beta iota delta [bind now tryCatch logger liftC ret throw].
  rewrite Hf. cbn. rewrite Hn. cbn.
  rewrite <- !app_assoc, drop_app_length. repeat split.
Qed.

Lemma nothing_to_do_is_not_an_error_witness :
  (fetchOf quietEnv QuestionSetKind = Return (mkResponse false None) /\
   (success (mkResponse false None) = false \/
    itemsOf (mkResponse false None) = [])) /\
  issued (fst (processData quietEnv QuestionSetKind storedService)) =
    issued storedService.
Proof.
  split; [ split; [ reflexivity | left; reflexivity ] | ].
  apply (nothing_to_do_is_not_an_error quietEnv QuestionSetKind
           storedService (mkResponse false None) eq_refl
           (or_introl eq_refl)).
Defined.

(** X7.  When the course fetch rejects, the failure is counted and
    [lastSuccess] stays as it was; nothing is read from or written to
    either table, and the question-set sub-pull is not started.  If the
    [message] of the value it rejected with can be read, which is so for
    every [Error] object, it becomes [lastError], the failure of the run
    is logged and the call resolves.  If it cannot, the value being
    [undefined] or [null], the [catch] clause throws: [lastError] keeps
    its value, the failure of the run is not logged, and the call
    rejects. *)
Theorem course_fetch_failure_fails_the_run env t s (e : Thrown) :
  isRunning (jobStatus s) = false ->
  fetchCourseData env = Throw e ->
  jobStatus (fst (invoke env t s)) =
    statusAfter (clock env (clockReads s)) (Failed e) (jobStatus s) /\
  snd (invoke env t s) = completionAfter (Failed e) /\
  failedExecutions (jobStatus (fst (invoke env t s))) =
    failedExecutions (jobStatus s) + 1 /\
  lastSuccess (jobStatus (fst (invoke env t s))) = lastSuccess (jobStatus s) /\
  issued (fst (invoke env t s)) = issued s /\
  courseRepo (fst (invoke env t s)) = courseRepo s /\
  questionSetRepo (fst (invoke env t s)) = questionSetRepo s /\
  List.map text (drop (length (logs s)) (logs (fst (invoke env t s)))) =
    List.map text (announcement t) ++
    ["Starting daily cron job execution";
     "Fetching course data from Pratham Digital API";
     "Failed to process course data"] ++
    (if returns (messageOf e) then ["Daily cron job failed"] else []) /\
  (forall msg,
     messageOf e = Return msg ->
     lastError (jobStatus (fst (invoke env t s))) = msg /\
     snd (invoke env t s) = Return tt) /\
  (forall te,
     messageOf e = Throw te ->
     lastError (jobStatus (fst (invoke env t s))) = lastError (jobStatus s) /\
     snd (invoke env t s) = Throw te).
Proof.
  intros Hidle Hf. rewrite invoke_announced. unfold executeCronJob.
  cbv beta iota delta [bind assign now getStatus logger tryFinally tryCatch
                       liftC processCourseData processQuestionSetData].
  cbn [announced jobStatus]. rewrite Hidle. cbn.
  rewrite (processData_fetch_fails env CourseKind _ e Hf). cbn.
  unfold statusAfter, settledStatus, completionAfter.
  destruct (messageOf e) as [msg | te]; cbn.
  all: repeat (split; [ reflexivity | ]).
  all: split;
    [ rewrite <- !app_assoc, drop_app_length; destruct t; reflexivity | ].
  all: split; [ intros ? H | intros ? H ]; first
    [ discriminate H
    | injection H as <-; split; reflexivity ].
Qed.

Lemma course_fetch_failure_fails_the_run_witness :
  (isRunning (jobStatus storedService) = false /\
   fetchCourseData offlineEnv =
     Throw (mkError ForeignError "connect ECONNREFUSED")) /\
  jobStatus (fst (invoke offlineEnv Manual storedService)) =
    statusAfter (clock offlineEnv (clockReads storedService))
      (Failed (mkError ForeignError "connect ECONNREFUSED"))
      (jobStatus storedService).
Proof.
  split; [ split; reflexivity | ].
  apply (course_fetch_failure_fails_the_run offlineEnv Manual storedService
           (mkError ForeignError "connect ECONNREFUSED") eq_refl eq_refl).
Defined.

(** X8.  When the question-set fetch rejects after the course sub-pull has
    completed, the run is recorded as failed, yet the course table is the
    one the course sub-pull left: what was saved stays saved.  The
    question-set table is as it was. *)
Theorem question_set_failure_keeps_the_courses env t s (e : Thrown) :
  isRunning (jobStatus s) = false ->
  returns (snd (processData env CourseKind (begun env (announced t s)))) =
    true ->
  fetchQuestionSetData env = Throw e ->
  jobStatus (fst (invoke env t s)) =
    statusAfter (clock env (clockReads s)) (Failed e) (jobStatus s) /\
  courseRepo (fst (invoke env t s)) =
    courseRepo
      (fst (processData env CourseKind (begun env (announced t s)))) /\
  questionSetRepo (fst (invoke env t s)) = questionSetRepo s.
Proof.
  intros Hidle Hc Hq. rewrite invoke_announced.
  unfold executeCronJob. unfold begun in Hc |- *.
  cbv beta iota delta [bind assign now getStatus logger tryFinally tryCatch
                       liftC processCourseData processQuestionSetData]
    in Hc |- *.
  cbn [announced jobStatus]. rewrite Hidle. cbn in Hc |- *.
  match goal with
  | |- context [processData env CourseKind ?s0] =>
      destruct (keepsStatus_processData env CourseKind s0) as [F1 _];
      pose proof (processData_other_table env CourseKind s0) as F3;
      destruct (processData env CourseKind s0) as [s1 [r1 | e1]]
  end; cbn in Hc; [ | discriminate ].
  cbn in F1, F3.
  rewrite (processData_fetch_fails env QuestionSetKind s1 e Hq). cbn.
  unfold statusAfter, settledStatus.
  destruct (messageOf e) as [msg | te]; cbn; rewrite F1, F3; repeat split.
Qed.

Lemma question_set_failure_keeps_the_courses_witness :
  (isRunning (jobStatus (initialService [] [])) = false /\
   returns
     (snd (processData halfOfflineEnv CourseKind
             (begun halfOfflineEnv
                (announced Scheduled (initialService [] []))))) = true /\
   fetchQuestionSetData halfOfflineEnv =
     Throw (mkError ForeignError "connect ECONNREFUSED")) /\
  jobStatus (fst (invoke halfOfflineEnv Scheduled (initialService [] []))) =
    statusAfter (clock halfOfflineEnv (clockReads (initialService [] [])))
      (Failed (mkError ForeignError "connect ECONNREFUSED"))
      (jobStatus (initialService [] [])).
Proof.
  split; [ repeat split; vm_compute; reflexivity | ].
  apply (question_set_failure_keeps_the_courses halfOfflineEnv Scheduled
           (initialService [] [])
           (mkError ForeignError "connect ECONNREFUSED")
           eq_refl ltac:(vm_compute; reflexivity) eq_refl).
Defined.

(** On the sample deployment the two courses are in the table although
    the run failed. *)
Example courses_saved_by_a_failed_run :
  List.map identifier
    (courseRepo
       (fst (executeCronJob halfOfflineEnv (initialService [] [])))) =
    ["do_1"; "do_3"] /\
  failedExecutions
    (jobStatus (fst (executeCronJob halfOfflineEnv (initialService [] []))))
    = 1.
Proof. split; vm_compute; reflexivity. Qed.

(** *** Counting the runs *)

Lemma invoke_counts env t s :
  isRunning (jobStatus s) = false ->
  isRunning (jobStatus (fst (invoke env t s))) = false /\
  totalExecutions (jobStatus (fst (invoke env t s))) =
    totalExecutions (jobStatus s) + 1 /\
  successfulExecutions (jobStatus (fst (invoke env t s))) +
  failedExecutions (jobStatus (fst (invoke env t s))) =
    successfulExecutions (jobStatus s) + failedExecutions (jobStatus s) + 1.
Proof.
  intros Hidle. rewrite invoke_announced.
  destruct (executeCronJob_idle env (announced t s) Hidle)
    as (o & _ & Hjs & _).
  rewrite Hjs. split; [ apply statusAfter_idle | ].
  apply statusAfter_counts.
Qed.

Lemma invocations_counts runs :
  forall s,
    isRunning (jobStatus s) = false ->
    isRunning (jobStatus (invocations runs s)) = false /\
    totalExecutions (jobStatus (invocations runs s)) =
      totalExecutions (jobStatus s) + Z.of_nat (length runs) /\
    successfulExecutions (jobStatus (invocations runs s)) +
    failedExecutions (jobStatus (invocations runs s)) =
      successfulExecutions (jobStatus s) + failedExecutions (jobStatus s) +
      Z.of_nat (length runs).
Proof.
  induction runs as [| [env t] rest IH]; intros s Hs; cbn [invocations].
  - cbn. repeat split; [ exact Hs | lia | lia ].
  - destruct (invoke_counts env t s Hs) as (H1 & H2 & H3).
    destruct (IH _ H1) as (G1 & G2 & G3).
    cbn [length]. repeat split; [ exact G1 | lia | lia ].
Qed.

Lemma invocations_skipped runs :
  forall s,
    isRunning (jobStatus s) = true ->
    jobStatus (invocations runs s) = jobStatus s.
Proof.
  induction runs as [| [env t] rest IH]; intros s Hs; cbn [invocations].
  - reflexivity.
  - assert (Hjs : jobStatus (fst (invoke env t s)) = jobStatus s).
    { rewrite invoke_announced,
        (executeCronJob_busy env (announced t s) Hs).
      reflexivity. }
    rewrite IH; [ exact Hjs | rewrite Hjs; exact Hs ].
Qed.

(** X9.  Invocations made one after the other, each awaited, are counted
    one by one: from a status with [isRunning] false, [totalExecutions]
    grows by their number, and so does the sum of the two outcome
    counters, whether the runs resolve or reject; none is skipped, none
    is counted twice.  While [isRunning] is true, as it is for the whole
    of a run in flight, any number of invocations leaves [jobStatus] as
    it was: an invocation that overlaps a run completes without being
    counted. *)
Theorem totalExecutions_counts_the_runs
    (runs : list (Env * Trigger)) (s : Service) :
  (isRunning (jobStatus s) = false ->
   isRunning (jobStatus (invocations runs s)) = false /\
   totalExecutions (jobStatus (invocations runs s)) =
     totalExecutions (jobStatus s) + Z.of_nat (length runs) /\
   successfulExecutions (jobStatus (invocations runs s)) +
   failedExecutions (jobStatus (invocations runs s)) =
     successfulExecutions (jobStatus s) + failedExecutions (jobStatus s) +
     Z.of_nat (length runs)) /\
  (isRunning (jobStatus s) = true ->
   jobStatus (invocations runs s) = jobStatus s).
Proof.
  split; [ apply invocations_counts | apply invocations_skipped ].
Qed.

(** Two runs in a row, the first of which rejects, and two invocations
    that find a run in flight. *)
Example runs_counted_and_runs_skipped :
  totalExecutions
    (jobStatus
       (invocations [(bareRejectionEnv, Scheduled); (quietEnv, Manual)]
          (initialService [] []))) = 2 /\
  totalExecutions
    (jobStatus
       (invocations [(quietEnv, Scheduled); (quietEnv, Manual)] busyService))
    = 1.
Proof. split; vm_compute; reflexivity. Qed.

(** *** The order of repository calls *)

Lemma saveEntity_issued env k item s :
  issued (fst (saveEntity env k item s)) =
    issued s ++ [(k, FindOne (identifier item))] \/
  issued (fst (saveEntity env k item s)) =
    issued s ++
    [(k, FindOne (identifier item));
     (k, Update (identifier item)
           (withUpdatedAt (clock env (clockReads s)) item))] \/
  issued (fst (saveEntity env k item s)) =
    issued s ++ [(k, FindOne (identifier item)); (k, Save item)].
Proof.
  unfold saveEntity, tryCatch, bind, findOne, update, save, repoCall, now,
    logger, throw.
  destruct (faultOf env k (FindOne (identifier item))) eqn:F1.
  - destruct k; cbn; auto.
  - destruct (findRow (identifier item) (repoOf k s)) as [found | ] eqn:Hfind.
    + destruct (faultOf env k (Update _ _)) eqn:F2;
        destruct k; cbn -[updateRows]; rewrite <- app_assoc; auto.
    + destruct (faultOf env k (Save item)) eqn:F2;
        destruct k; cbn -[insertedRow]; rewrite <- app_assoc; auto.
Qed.

Lemma saveEntity_lookupFirst env k item :
  preserves (fun s => lookupFirst (issued s)) (saveEntity env k item).
Proof.
  intros s H.
  destruct (saveEntity_issued env k item s) as [-> | [-> | ->]].
  - apply lookupFirst_lookup, H.
  - apply (lookupFirst_update (issued s) k
             (withUpdatedAt (clock env (clockReads s)) item) H).
    cbn. rewrite lookup_insert_eq. eauto.
  - apply (lookupFirst_save (issued s) k item H).
Qed.

Lemma lookupFirst_write calls :
  lookupFirst calls ->
  forall i k op,
    calls !! i = Some (k, op) ->
    isWrite (k, op) = true ->
    exists j, i = S j /\ calls !! j = Some (k, FindOne (keyOfCall op)).
Proof.
  induction 1 as [| calls k0 key Hcalls IH
                  | calls k0 payload Hcalls IH Hstamp
                  | calls k0 payload Hcalls IH]; intros i k op Hi Hw.
  - rewrite lookup_nil in Hi. discriminate.
  - apply lookup_app_Some in Hi. destruct Hi as [Hi | [Hlen Hi]].
    + destruct (IH i k op Hi Hw) as (j & -> & Hj).
      exists j. split; [ reflexivity | ].
      apply lookup_app_l_Some, Hj.
    + destruct (i - length calls)%nat; cbn in Hi; [ | discriminate ].
      injection Hi as <- <-. discriminate.
  - apply lookup_app_Some in Hi. destruct Hi as [Hi | [Hlen Hi]].
    + destruct (IH i k op Hi Hw) as (j & -> & Hj).
      exists j. split; [ reflexivity | ].
      apply lookup_app_l_Some, Hj.
    + destruct (i - length calls)%nat as [| [| n]] eqn:Hoff; cbn in Hi;
        [ | | discriminate ].
      * injection Hi as <- <-. discriminate.
      * injection Hi as <- <-.
        exists (length calls). split; [ lia | ].
        rewrite lookup_app_r by lia. rewrite Nat.sub_diag. reflexivity.
  - apply lookup_app_Some in Hi. destruct Hi as [Hi | [Hlen Hi]].
    + destruct (IH i k op Hi Hw) as (j & -> & Hj).
      exists j. split; [ reflexivity | ].
      apply lookup_app_l_Some, Hj.
    + destruct (i - length calls)%nat as [| [| n]] eqn:Hoff; cbn in Hi;
        [ | | discriminate ].
      * injection Hi as <- <-. discriminate.
      * injection Hi as <- <-.
        exists (length calls). split; [ lia | ].
        rewrite lookup_app_r by lia. rewrite Nat.sub_diag. reflexivity.
Qed.

(** X10.  The job never writes blind.  In the calls issued over any sequence
    of runs from a fresh service, every write comes right after a lookup,
    on the same repository, of the key it writes. *)
Theorem every_write_follows_its_lookup
    (runs : list (Env * Trigger)) (courses questionSets : list Entity)
    (i : nat) (k : Kind) (op : RepoOp) :
  issued (invocations runs (initialService courses questionSets)) !! i =
    Some (k, op) ->
  isWrite (k, op) = true ->
  exists j,
    i = S j /\
    issued (invocations runs (initialService courses questionSets)) !! j =
      Some (k, FindOne (keyOfCall op)).
Proof.
  apply lookupFirst_write.
  apply (preserves_invocations (fun s => lookupFirst (issued s))).
  - intros s s' _ _ Hi H. rewrite Hi. exact H.
  - intros env k' item. apply saveEntity_lookupFirst.
  - constructor.
Qed.

Lemma every_write_follows_its_lookup_witness :
  (issued (invocations [(batchEnv, Scheduled)] (initialService [] [])) !! 1%nat
     = Some (CourseKind,
             Save newCourse) /\
   isWrite (CourseKind, Save newCourse) = true) /\
  exists j,
    1%nat = S j /\
    issued (invocations [(batchEnv, Scheduled)] (initialService [] [])) !! j =
      Some (CourseKind, FindOne "do_1").
Proof.
  split; [ split; vm_compute; reflexivity | ].
  apply (every_write_follows_its_lookup [(batchEnv, Scheduled)] [] [] 1%nat
           CourseKind (Save newCourse));
    vm_compute; reflexivity.
Defined.

(** *** Health probe and start-up *)

(** X11.  [healthCheck] changes nothing and reports healthy exactly when
    the connection test resolves to true.  A test that rejects with a
    value whose [message] can be read, which is so for every [Error]
    object, becomes an unhealthy report that carries the message; a test
    that rejects with [undefined] or [null] makes [healthCheck] itself
    reject, with the error of that read.  [onModuleInit] has no guard at
    all: a connection test that resolves to false is only a warning, but
    one that rejects makes start-up reject with the same value. *)
Theorem health_check_absorbs_what_start_up_propagates :
  (forall testConnection s,
     fst (healthCheck testConnection s) = s /\
     forall report,
       snd (healthCheck testConnection s) = Return report ->
       (status report = healthy <-> testConnection = Return true)) /\
  (forall connected s,
     exists details,
       snd (healthCheck (Return connected) s) =
         Return (mkReport (if connected then healthy else unhealthy)
                   details)) /\
  (forall (e : Thrown) s msg,
     messageOf e = Return msg ->
     snd (healthCheck (Throw e) s) =
       Return (mkReport unhealthy (ProbeFailed msg (jobStatus s)))) /\
  (forall (e : Thrown) s te,
     messageOf e = Throw te ->
     snd (healthCheck (Throw e) s) = Throw te) /\
  (forall config s (e : Thrown),
     nullish config = false ->
     snd (onModuleInit config (Throw e) s) = Throw e) /\
  (forall config s connected,
     nullish config = false ->
     snd (onModuleInit config (Return connected) s) = Return tt /\
     jobStatus (fst (onModuleInit config (Return connected) s)) =
       jobStatus s /\
     length
       (List.filter isWarning
          (drop (length (logs s))
             (logs (fst (onModuleInit config (Return connected) s))))) =
       (if connected then 0 else 1)%nat).
Proof.
  repeat apply conj.
  - intros testConnection s.
    unfold healthCheck, tryCatch, bind, liftC, getStatus, ret.
    destruct testConnection as [[] | e]; cbn;
      [ | | destruct (messageOf e) as [msg | te]; cbn ].
    all: split; [ reflexivity | ].
    all: intros report H; try discriminate H.
    all: injection H as <-; cbn; split; intros H; first
      [ reflexivity | discriminate H ].
  - intros connected s. eexists.
    unfold healthCheck, tryCatch, bind, liftC, getStatus, ret.
    reflexivity.
  - intros e s msg Hmsg.
    unfold healthCheck, tryCatch, bind, liftC, getStatus, ret.
    rewrite Hmsg. reflexivity.
  - intros e s te Hmsg.
    unfold healthCheck, tryCatch, bind, liftC, getStatus, ret.
    rewrite Hmsg. reflexivity.
  - intros config s e Hconfig.
    unfold onModuleInit, bind, liftC, member. rewrite Hconfig. reflexivity.
  - intros config s connected Hconfig.
    unfold onModuleInit, bind, liftC, member, logger. rewrite Hconfig.
    destruct connected; cbn; rewrite <- ?app_assoc, drop_app_length;
      repeat split.
Qed.

Lemma health_check_absorbs_what_start_up_propagates_witness :
  messageOf (ThrownValue VUndefined) =
    Throw (mkError TypeError "Cannot read properties of undefined") /\
  snd (healthCheck (Throw (ThrownValue VUndefined)) (initialService [] [])) =
    Throw (mkError TypeError "Cannot read properties of undefined").
Proof.
  split; [ reflexivity | ].
  apply (proj1 (proj2 (proj2 (proj2
           health_check_absorbs_what_start_up_propagates)))
           (ThrownValue VUndefined) (initialService [] [])
           (mkError TypeError "Cannot read properties of undefined")
           eq_refl).
Defined.

(** A connection test that rejects with an [Error] object, probed in
    both places. *)
Example refused_connection_probed :
  snd (healthCheck (Throw (mkError ForeignError "connect ECONNREFUSED"))
         (initialService [] [])) =
    Return (mkReport unhealthy
              (ProbeFailed (VStr "connect ECONNREFUSED") initialStatus)) /\
  snd (onModuleInit (VObj [("schedule", VStr "0 12 * * *")])
         (Throw (mkError ForeignError "connect ECONNREFUSED"))
         (initialService [] [])) =
    Throw (mkError ForeignError "connect ECONNREFUSED").
Proof. split; reflexivity. Qed.

End CronTableFacts.

(** ** Further properties of the router *)

Module ConsumerFacts.
Import Stdlib.Strings.Ascii.
Import Bus RouterSpec ConsumerLifecycle RouterTables.

(** *** Splitting the configured lists *)

Lemma split_nonempty separator text : split separator text <> [].
Proof.
  destruct text as [| c rest]; cbn; [ discriminate | ].
  destruct (Ascii.eqb c separator); [ discriminate | ].
  destruct (split separator rest); discriminate.
Qed.

Lemma join_cons_char separator c piece pieces :
  join separator (String c piece :: pieces) =
    String c (join separator (piece :: pieces)).
Proof. destruct pieces; reflexivity. Qed.

Lemma join_split separator text :
  join separator (split separator text) = text.
Proof.
  induction text as [| c rest IH]; cbn; [ reflexivity | ].
  destruct (Ascii.eqb_spec c separator) as [-> | Hc].
  - pose proof (split_nonempty separator rest) as Hne.
    destruct (split separator rest) as [| piece pieces] eqn:Hs;
      [ contradiction | ].
    rewrite <- IH. reflexivity.
  - pose proof (split_nonempty separator rest) as Hne.
    destruct (split separator rest) as [| piece pieces] eqn:Hs;
      [ contradiction | ].
    rewrite join_cons_char, IH. reflexivity.
Qed.

Lemma split_pieces separator text :
  Forall (fun piece => occurs separator piece = false)
    (split separator text) /\
  length (split separator text) = S (occurrences separator text).
Proof.
  induction text as [| c rest [IH1 IH2]]; cbn.
  - split; [ repeat constructor | reflexivity ].
  - destruct (Ascii.eqb c separator) eqn:Hc; cbn.
    + split; [ constructor; [ reflexivity | exact IH1 ] | ].
      rewrite IH2. reflexivity.
    + pose proof (split_nonempty separator rest) as Hne.
      destruct (split separator rest) as [| piece pieces] eqn:Hs;
        [ contradiction | ].
      split.
      * inversion IH1 as [| ? ? Hp Hps]; subst.
        constructor; [ cbn; rewrite Hc; exact Hp | exact Hps ].
      * exact IH2.
Qed.

Lemma split_join separator pieces :
  pieces <> [] ->
  Forall (fun piece => occurs separator piece = false) pieces ->
  split separator (join separator pieces) = pieces.
Proof.
  intros Hne Hfree. induction Hfree as [| piece rest Hp Hrest IH];
    [ contradiction | ].
  clear Hne. revert Hp. induction piece as [| c piece IHp]; intros Hp.
  - destruct rest as [| next rest']; [ reflexivity | ].
    change (join separator ("" :: next :: rest'))
      with (String separator (join separator (next :: rest'))).
    cbn [split]. rewrite Ascii.eqb_refl, IH by discriminate. reflexivity.
  - cbn in Hp. apply orb_false_iff in Hp. destruct Hp as [Hc Hp].
    rewrite join_cons_char. cbn [split]. rewrite Hc.
    rewrite (IHp Hp). reflexivity.
Qed.

(** X12.  [split] and [join] are inverse to each other: joining the pieces of
    a text gives the text back, and splitting a joined list of
    separator-free pieces gives the list back.  A text always splits into
    one piece more than it has separators, none of which contains the
    separator; a text without separator is its own single piece, and the
    empty text splits into one empty piece. *)
Theorem split_and_join_are_inverse (separator : ascii) :
  (forall text, join separator (split separator text) = text) /\
  (forall pieces,
     pieces <> [] ->
     Forall (fun piece => occurs separator piece = false) pieces ->
     split separator (join separator pieces) = pieces) /\
  (forall text,
     Forall (fun piece => occurs separator piece = false)
       (split separator text) /\
     length (split separator text) = S (occurrences separator text)) /\
  (forall text, occurs separator text = false ->
                split separator text = [text]).
Proof.
  repeat apply conj.
  - apply join_split.
  - apply split_join.
  - apply split_pieces.
  - intros text Hfree.
    apply (split_join separator [text]); [ discriminate | ].
    repeat constructor. exact Hfree.
Qed.

Lemma split_and_join_are_inverse_witness :
  (["user-topic"; ""; "course-topic"] <> [] /\
   Forall (fun piece => occurs ","%char piece = false)
     ["user-topic"; ""; "course-topic"]) /\
  split ","%char (join ","%char ["user-topic"; ""; "course-topic"]) =
    ["user-topic"; ""; "course-topic"].
Proof.
  assert (Hne : ["user-topic"; ""; "course-topic"] <> []) by discriminate.
  assert (Hfree : Forall (fun piece => occurs ","%char piece = false)
                    ["user-topic"; ""; "course-topic"])
    by (repeat constructor).
  split; [ split; assumption | ].
  apply (proj1 (proj2 (split_and_join_are_inverse ","%char))
           ["user-topic"; ""; "course-topic"] Hne Hfree).
Defined.

(** *** Subscribing and starting *)

Lemma forEachTopic_effect client topics :
  forall c,
    subscriptions (fst (forEachTopic client topics c)) =
      subscriptions c ++ accepted client topics /\
    started (fst (forEachTopic client topics c)) = started c /\
    returns (snd (forEachTopic client topics c)) = allAccepted client topics.
Proof.
  induction topics as [| topic rest IH]; intros c; cbn.
  - rewrite app_nil_r. repeat split.
  - unfold bind, subscribeTo, note.
    destruct (subscribe client topic) as [[] | e]; cbn.
    + match goal with
      | |- context [forEachTopic client rest ?c1] =>
          destruct (IH c1) as (H1 & H2 & H3)
      end.
      cbn in H1, H2. rewrite H1, H2, H3, <- app_assoc. repeat split.
    + rewrite app_nil_r. repeat split.
Qed.

(** X13.  [subscribeToTopics] subscribes, in order, to the comma-separated
    topics of [KAFKA_TOPICS] ([user-topic] when it is not set) and stops
    at the first one the client refuses: the topics before it stay
    subscribed, those after it are not tried, and the call resolves
    exactly when none was refused. *)
Theorem subscription_stops_at_the_first_refusal config client c :
  subscriptions (fst (subscribeToTopics config client c)) =
    subscriptions c ++
    accepted client
      (split ","%char (configGet config "KAFKA_TOPICS" "user-topic")) /\
  returns (snd (subscribeToTopics config client c)) =
    allAccepted client
      (split ","%char (configGet config "KAFKA_TOPICS" "user-topic")) /\
  (config !! "KAFKA_TOPICS" = None ->
   returns (subscribe client "user-topic") = true ->
   subscriptions (fst (subscribeToTopics config client c)) =
     subscriptions c ++ ["user-topic"]).
Proof.
  unfold subscribeToTopics.
  destruct (forEachTopic_effect client
              (split ","%char (configGet config "KAFKA_TOPICS" "user-topic"))
              c) as (H1 & _ & H3).
  split; [ exact H1 | ]. split; [ exact H3 | ].
  intros Hnone Hok. rewrite H1. unfold configGet. rewrite Hnone.
  cbn. rewrite Hok. reflexivity.
Qed.

Lemma subscription_stops_at_the_first_refusal_witness :
  (∅ : gmap string string) !! "KAFKA_TOPICS" = None /\
  returns (subscribe pickyClient "user-topic") = true /\
  subscriptions (fst (subscribeToTopics ∅ pickyClient freshConsumer)) =
    subscriptions freshConsumer ++ ["user-topic"].
Proof.
  split; [ reflexivity | ]. split; [ reflexivity | ].
  apply (proj2 (proj2 (subscription_stops_at_the_first_refusal ∅ pickyClient
                         freshConsumer)));
    reflexivity.
Defined.

(** The sample client refuses the second of three configured topics. *)
Example picky_client_subscribes_one_topic :
  subscriptions
    (fst (subscribeToTopics sampleConfig pickyClient freshConsumer)) =
    ["user-topic"] /\
  returns (snd (subscribeToTopics sampleConfig pickyClient freshConsumer)) =
    false.
Proof. split; vm_compute; reflexivity. Qed.









(** A client whose [run] and whose [disconnect] reject with [undefined]:
    both hooks reject, and the consumer is left subscribed but not
    started. *)
Example hooks_reject_on_bare_rejections :
  onModuleInit sampleConfig
    (mkClient (Return tt) (Return tt) (fun _ => Return tt)
       (Throw (ThrownValue VUndefined)))
    freshConsumer =
    (mkConsumer ["user-topic"; "course-topic"; "event-topic"] false
       [mkLog LLog "Kafka consumer connected" None [];
        mkLog LLog "Subscribed to Kafka topic" None [VStr "user-topic"];
        mkLog LLog "Subscribed to Kafka topic" None [VStr "course-topic"];
        mkLog LLog "Subscribed to Kafka topic" None [VStr "event-topic"]],
     Throw (mkError TypeError "Cannot read properties of undefined")) /\
  onModuleDestroy
    (mkClient (Return tt) (Throw (ThrownValue VUndefined))
       (fun _ => Return tt) (Return tt))
    freshConsumer =
    (freshConsumer,
     Throw (mkError TypeError "Cannot read properties of undefined")).
Proof. split; vm_compute; reflexivity. Qed.

End ConsumerFacts.

Module RouterTableFacts.
Import Bus RouterSpec RouterTables.
Module Current := KafkaConsumerService.
Module Legacy := LegacyKafkaConsumerService.

Ltac by_cases_on text :=
  repeat match goal with
         | |- context [String.eqb text ?literal] =>
             destruct (String.eqb_spec text literal) as [-> | ?]; cbn
         end.

Ltac settle env :=
  cbn;
  try match goal with
      | |- context [handler env ?h ?d ?db] =>
          destruct (handler env h d db) as [? [? | ?]]; cbn
      end;
  rewrite <- ?app_assoc, ?drop_app_length, ?app_nil_r, ?drop_all;
  repeat split.

Section Facts.

Context {DB : Type}.
Implicit Types (env : Env DB) (w : World DB).

Lemma current_invalid env topic eventType data event w :
  destructure event = Return (eventType, data) ->
  truthy eventType = false \/ truthy data = false ->
  Current.processEvent env topic event w =
    (noting (banner topic eventType data ++
             [invalidEnvelopeWarning topic event]) w,
     Return tt).
Proof.
  intros Hev H. unfold Current.processEvent, bind, liftC, say, noting.
  rewrite Hev. cbn.
  assert (Hcond : negb (truthy eventType) || negb (truthy data) = true).
  { destruct H as [-> | ->]; cbn; [ reflexivity | apply orb_true_r ]. }
  rewrite Hcond. cbn. rewrite <- !app_assoc. reflexivity.
Qed.

Lemma legacy_invalid env topic eventType data event w :
  destructure event = Return (eventType, data) ->
  truthy eventType = false \/ truthy data = false ->
  Legacy.processEvent env topic event w =
    (noting [invalidEnvelopeWarning topic event] w, Return tt).
Proof.
  intros Hev H. unfold Legacy.processEvent, bind, liftC, say, noting.
  rewrite Hev. cbn.
  assert (Hcond : negb (truthy eventType) || negb (truthy data) = true).
  { destruct H as [-> | ->]; cbn; [ reflexivity | apply orb_true_r ]. }
  rewrite Hcond. reflexivity.
Qed.

Lemma destructure_throws event (e : Thrown) :
  destructure event = Throw e ->
  nullish event = true /\
  exists err : JsError, e = err /\ errClass err = TypeError.
Proof.
  destruct event; cbn; intros H; try discriminate;
    injection H as <-; (split; [ reflexivity | ]); eexists;
    split; reflexivity.
Qed.

Lemma template_one v : template [v] = toText v.
Proof. cbn. destruct (toText v) as [[] | e]; reflexivity. Qed.

Lemma legacy_router_table env topic eventType data event w :
  truthy eventType = true ->
  truthy data = true ->
  destructure event = Return (eventType, data) ->
  calls (fst (Legacy.processEvent env topic event w)) =
    calls w ++ routedCalls (legacyRoute topic eventType) data /\
  store (fst (Legacy.processEvent env topic event w)) =
    routedStore env (legacyRoute topic eventType) data (store w) /\
  snd (Legacy.processEvent env topic event w) =
    routedCompletion env (legacyRoute topic eventType) data (store w)
      (unrouted legacyTopics topic eventType) /\
  length
    (warnings (newLogs w (fst (Legacy.processEvent env topic event w)))) =
    (if String.eqb topic "event-events" ||
        String.eqb topic "attendance-events"
     then 0%nat
     else match legacyRoute topic eventType with
          | Some _ => 0%nat
          | None =>
              if returns (unrouted legacyTopics topic eventType) then 1%nat
              else 0%nat
          end).
Proof.
  intros Ht Hd Hev.
  unfold Legacy.processEvent, bind, liftC. rewrite Hev. cbn [fst snd].
  rewrite Ht, Hd. cbn [negb orb].
  unfold Legacy.handleUserEvent, Legacy.handleEventEvent,
    Legacy.handleAttendanceEvent,
    legacyRoute, lookupRoute, routedCalls, routedStore,
    routedCompletion, unrouted, hasBranch, newLogs, warnings, sayf, bind,
    liftC, say, call, ret.
  rewrite <- (template_one eventType).
  destruct (template [eventType]) as [[] | te] eqn:Htext;
    destruct eventType as [| | b | n | name | t | xs | fs];
    try discriminate; cbn;
    by_cases_on topic; by_cases_on name; settle env.
Qed.

Lemma current_router_table env topic eventType data event w :
  truthy eventType = true ->
  truthy data = true ->
  destructure event = Return (eventType, data) ->
  calls (fst (Current.processEvent env topic event w)) =
    calls w ++ routedCalls (route topic eventType) data /\
  store (fst (Current.processEvent env topic event w)) =
    routedStore env (route topic eventType) data (store w) /\
  snd (Current.processEvent env topic event w) =
    routedCompletion env (route topic eventType) data (store w)
      (unrouted topics topic eventType) /\
  length
    (warnings (newLogs w (fst (Current.processEvent env topic event w)))) =
    match route topic eventType with
    | Some _ => 0%nat
    | None =>
        if returns (unrouted topics topic eventType) then 1%nat else 0%nat
    end.
Proof.
  intros Ht Hd Hev.
  unfold Current.processEvent, bind, liftC. rewrite Hev. cbn [fst snd].
  unfold say at 1 2 3 4 5. cbn [fst snd].
  rewrite Ht, Hd. cbn [negb orb].
  unfold Current.handleCourseEvent, Current.handleContentEvent,
    Current.handleUserEvent, Current.handleEventEvent,
    Current.handleAttendanceEvent, Current.handleAssessmentEvent,
    route, lookupOverride, lookupRoute, routedCalls, routedStore,
    routedCompletion, unrouted, hasBranch, newLogs, warnings, sayf, bind,
    liftC, say, call, ret.
  rewrite <- (template_one eventType).
  destruct (template [eventType]) as [[] | te] eqn:Htext;
    destruct eventType as [| | b | n | name | t | xs | fs];
    try discriminate; cbn;
    [ by_cases_on topic; settle env
    | by_cases_on topic; settle env
    | destruct (String.eqb_spec name "COURSE_ENROLLMENT_CREATED")
        as [-> | ?]; cbn; [ settle env | ];
      destruct (String.eqb_spec name "CONTENT_TRACKING_CREATED")
        as [-> | ?]; cbn; [ settle env | ];
      by_cases_on topic; by_cases_on name; settle env
    | by_cases_on topic; settle env
    | by_cases_on topic; settle env
    | by_cases_on topic; settle env
    | by_cases_on topic; settle env
    | by_cases_on topic; settle env ].
Qed.

(** X15.  A valid envelope is routed as the table [routes] says, after the two
    overrides: the handler method the table gives for the topic and the
    event type is the one method invoked, with the envelope's [data]; the
    store and the completion are that method's.  When the table has no
    entry (an unknown topic, an event type unknown on that topic, an
    event type that is not a string) nothing is invoked.  The call then
    returns with exactly one warning logged, provided the event type has
    a text or the topic is unknown; on a topic the router has a branch
    for, an event type without a text makes the log line of that branch
    throw, and the call rejects with no warning logged. *)
Theorem current_router_follows_its_table env topic eventType data event w :
  truthy eventType = true ->
  truthy data = true ->
  destructure event = Return (eventType, data) ->
  calls (fst (Current.processEvent env topic event w)) =
    calls w ++ routedCalls (route topic eventType) data /\
  store (fst (Current.processEvent env topic event w)) =
    routedStore env (route topic eventType) data (store w) /\
  snd (Current.processEvent env topic event w) =
    routedCompletion env (route topic eventType) data (store w)
      (unrouted topics topic eventType) /\
  length
    (warnings (newLogs w (fst (Current.processEvent env topic event w)))) =
    match route topic eventType with
    | Some _ => 0%nat
    | None =>
        if returns (unrouted topics topic eventType) then 1%nat else 0%nat
    end /\
  (convertible eventType = true ->
   unrouted topics topic eventType = Return tt) /\
  (convertible eventType = false ->
   route topic eventType = None /\
   unrouted topics topic eventType =
     if hasBranch topics topic then
       Throw (mkError TypeError "Cannot convert object to primitive value")
     else Return tt).
Proof.
  intros Ht Hd Hev.
  destruct (current_router_table env topic eventType data event w Ht Hd Hev)
    as (H1 & H2 & H3 & H4).
  repeat (split; [ assumption | ]).
  unfold unrouted, toText. split; intros Hc; rewrite Hc.
  - destruct (hasBranch topics topic); reflexivity.
  - split; [ | reflexivity ].
    destruct eventType; try reflexivity. discriminate Hc.
Qed.

(** X16.  The router of [src/kafka/kafka-consumer.ts] follows the table
    [legacyRoutes]: only the six user and cohort event types on
    [user-topic] reach a handler, and that handler is always the user
    handler.  On [event-events] and [attendance-events] a valid envelope
    is logged and nothing else; elsewhere a missing entry is one
    warning.  On the three topics it has a branch for, the log line of
    the branch needs the text of the event type: an event type without
    one makes the call reject, with nothing logged. *)
Theorem legacy_router_follows_its_table env topic eventType data event w :
  truthy eventType = true ->
  truthy data = true ->
  destructure event = Return (eventType, data) ->
  calls (fst (Legacy.processEvent env topic event w)) =
    calls w ++ routedCalls (legacyRoute topic eventType) data /\
  store (fst (Legacy.processEvent env topic event w)) =
    routedStore env (legacyRoute topic eventType) data (store w) /\
  snd (Legacy.processEvent env topic event w) =
    routedCompletion env (legacyRoute topic eventType) data (store w)
      (unrouted legacyTopics topic eventType) /\
  length
    (warnings (newLogs w (fst (Legacy.processEvent env topic event w)))) =
    (if String.eqb topic "event-events" ||
        String.eqb topic "attendance-events"
     then 0%nat
     else match legacyRoute topic eventType with
          | Some _ => 0%nat
          | None =>
              if returns (unrouted legacyTopics topic eventType) then 1%nat
              else 0%nat
          end) /\
  (forall h, legacyRoute topic eventType = Some h -> isUserHandler h = true) /\
  (convertible eventType = true ->
   unrouted legacyTopics topic eventType = Return tt) /\
  (convertible eventType = false ->
   legacyRoute topic eventType = None /\
   unrouted legacyTopics topic eventType =
     if hasBranch legacyTopics topic then
       Throw (mkError TypeError "Cannot convert object to primitive value")
     else Return tt).
Proof.
  intros Ht Hd Hev.
  destruct (legacy_router_table env topic eventType data event w Ht Hd Hev)
    as (H1 & H2 & H3 & H4).
  repeat (split; [ assumption | ]).
  split; [ | unfold unrouted, toText; split; intros Hc; rewrite Hc ].
  - intros h. unfold legacyRoute, lookupRoute.
    destruct eventType as [| | b | n | name | t | xs | fs]; try discriminate.
    cbn. by_cases_on topic; by_cases_on name; intros H;
      first [ discriminate | injection H as <-; reflexivity ].
  - destruct (hasBranch legacyTopics topic); reflexivity.
  - split; [ | reflexivity ].
    destruct eventType; try reflexivity. discriminate Hc.
Qed.

(** X17.  An event whose [eventType] or [data] is falsy is dropped with one
    warning and no handler call, in both versions.  This covers, beyond
    missing properties, properties that are present but [null], [false],
    [0] or the empty string, and events that are not objects at all: a
    number, a string, a boolean or an array. *)
Theorem falsy_type_or_data_is_dropped env topic eventType data event w :
  destructure event = Return (eventType, data) ->
  truthy eventType = false \/ truthy data = false ->
  (snd (Current.processEvent env topic event w) = Return tt /\
   store (fst (Current.processEvent env topic event w)) = store w /\
   calls (fst (Current.processEvent env topic event w)) = calls w /\
   warnings (newLogs w (fst (Current.processEvent env topic event w))) =
     [invalidEnvelopeWarning topic event]) /\
  (snd (Legacy.processEvent env topic event w) = Return tt /\
   store (fst (Legacy.processEvent env topic event w)) = store w /\
   calls (fst (Legacy.processEvent env topic event w)) = calls w /\
   newLogs w (fst (Legacy.processEvent env topic event w)) =
     [invalidEnvelopeWarning topic event]) /\
  (forall primitive,
     (exists b, primitive = VBool b) \/ (exists n, primitive = VNum n) \/
     (exists s, primitive = VStr s) \/ (exists xs, primitive = VArr xs) ->
     destructure primitive = Return (VUndefined, VUndefined)).
Proof.
  intros Hev H.
  rewrite (current_invalid env topic eventType data event w Hev H).
  rewrite (legacy_invalid env topic eventType data event w Hev H).
  cbn [fst snd]. rewrite !RouterFacts.newLogs_noting.
  repeat split.
  intros primitive [[b ->] | [[n ->] | [[s ->] | [xs ->]]]]; reflexivity.
Qed.

(** X18.  A message without a payload, or with an empty one, is one warning:
    the parser's answer does not matter and no handler is reached.  A
    message whose text parses to [null] is one error line carrying a
    [TypeError], raised before anything else is logged; no handler is
    reached either.  Both versions. *)
Theorem unusable_messages_reach_no_handler env topic w :
  (forall message,
     value message = None \/ value message = Some "" ->
     Current.eachMessage env topic message w =
       (noting [mkLog LWarn "Received empty Kafka message" None []] w,
        Return tt) /\
     Legacy.eachMessage env topic message w =
       (noting [mkLog LWarn "Received empty Kafka message" None []] w,
        Return tt)) /\
  (forall text event,
     text <> "" ->
     JSON_parse env text = Return event ->
     nullish event = true ->
     exists e,
       errClass e = TypeError /\
       Current.eachMessage env topic (mkMessage (Some text)) w =
         (noting [messageErrorLog e] w, Return tt) /\
       Legacy.eachMessage env topic (mkMessage (Some text)) w =
         (noting [receivedDebugLog topic text; messageErrorLog e] w,
          Return tt)).
Proof.
  split.
  - intros [v] [H | H]; cbn in H; subst v; split; reflexivity.
  - intros text event Hne Hparse Hnull. apply String.eqb_neq in Hne.
    exists (mkError TypeError
              "Cannot destructure property 'eventType' of 'event'").
    split; [ reflexivity | ].
    unfold Current.eachMessage, Legacy.eachMessage, Current.processEvent,
      Legacy.processEvent, tryCatch, bind, liftC, say, noting,
      messageErrorLog, receivedDebugLog.
    cbn. rewrite Hne, Hparse.
    destruct event; try discriminate; cbn; rewrite <- ?app_assoc;
      split; reflexivity.
Qed.

Lemma routed_oneCallAtMost env target data (before after : World DB) :
  calls after = calls before ++ routedCalls target data ->
  store after = routedStore env target data (store before) ->
  oneCallAtMost env before after.
Proof.
  intros Hc Hs. exists (routedCalls target data).
  split; [ exact Hc | ].
  destruct target; cbn; split; first [ lia | exact Hs ].
Qed.

Lemma untouched_oneCallAtMost env (before after : World DB) :
  calls after = calls before ->
  store after = store before ->
  oneCallAtMost env before after.
Proof.
  intros Hc Hs. exists []. rewrite app_nil_r. cbn.
  split; [ exact Hc | split; [ lia | exact Hs ] ].
Qed.

Lemma current_processEvent_oneCallAtMost env topic event w :
  oneCallAtMost env w (fst (Current.processEvent env topic event w)).
Proof.
  destruct (destructure event) as [[eventType data] | e] eqn:Hev.
  - destruct (truthy eventType) eqn:Ht; [ destruct (truthy data) eqn:Hd | ].
    + destruct (current_router_table env topic eventType data event w
                  Ht Hd Hev) as (Hc & Hs & _).
      exact (routed_oneCallAtMost env _ _ _ _ Hc Hs).
    + rewrite (current_invalid env topic eventType data event w Hev
                 (or_intror Hd)).
      apply untouched_oneCallAtMost; reflexivity.
    + rewrite (current_invalid env topic eventType data event w Hev
                 (or_introl Ht)).
      apply untouched_oneCallAtMost; reflexivity.
  - unfold Current.processEvent, bind, liftC. rewrite Hev.
    apply untouched_oneCallAtMost; reflexivity.
Qed.

Lemma legacy_processEvent_oneCallAtMost env topic event w :
  oneCallAtMost env w (fst (Legacy.processEvent env topic event w)).
Proof.
  destruct (destructure event) as [[eventType data] | e] eqn:Hev.
  - destruct (truthy eventType) eqn:Ht; [ destruct (truthy data) eqn:Hd | ].
    + destruct (legacy_router_table env topic eventType data event w
                  Ht Hd Hev) as (Hc & Hs & _).
      exact (routed_oneCallAtMost env _ _ _ _ Hc Hs).
    + rewrite (legacy_invalid env topic eventType data event w Hev
                 (or_intror Hd)).
      apply untouched_oneCallAtMost; reflexivity.
    + rewrite (legacy_invalid env topic eventType data event w Hev
                 (or_introl Ht)).
      apply untouched_oneCallAtMost; reflexivity.
  - unfold Legacy.processEvent, bind, liftC. rewrite Hev.
    apply untouched_oneCallAtMost; reflexivity.
Qed.

Lemma caught_oneCallAtMost env (before after : World DB) e :
  oneCallAtMost env before after ->
  oneCallAtMost env before
    (fst ((liftC (describe e) >>
           say LError "Error processing Kafka message" (Some e) []) after)).
Proof.
  intros H. rewrite RouterFacts.boundary_catch.
  destruct (describe e); exact H.
Qed.

(** X19.  Whatever the message, the callback invokes at most one handler
    method for it, and the store afterwards is the one that method left,
    or the store as it was when none was invoked: the router itself never
    writes.  Both versions. *)
Theorem one_message_one_handler_call_at_most env topic message w :
  oneCallAtMost env w (fst (Current.eachMessage env topic message w)) /\
  oneCallAtMost env w (fst (Legacy.eachMessage env topic message w)).
Proof.
  split.
  - unfold Current.eachMessage, tryCatch.
    destruct (value message) as [text | ];
      [ | apply untouched_oneCallAtMost; reflexivity ].
    destruct (String.eqb text "");
      [ apply untouched_oneCallAtMost; reflexivity | ].
    unfold bind at 1, liftC at 1.
    destruct (JSON_parse env text) as [event | e].
    + pose proof (current_processEvent_oneCallAtMost env topic event w) as H.
      destruct (Current.processEvent env topic event w) as [w1 [[] | e]];
        [ exact H | apply caught_oneCallAtMost, H ].
    + apply caught_oneCallAtMost, untouched_oneCallAtMost; reflexivity.
  - unfold Legacy.eachMessage, tryCatch.
    destruct (value message) as [text | ];
      [ | apply untouched_oneCallAtMost; reflexivity ].
    destruct (String.eqb text "");
      [ apply untouched_oneCallAtMost; reflexivity | ].
    unfold bind at 1, liftC at 1.
    destruct (JSON_parse env text) as [event | e].
    + unfold bind at 1, say at 1.
      match goal with
      | |- context [Legacy.processEvent env topic event ?w0] =>
          pose proof (legacy_processEvent_oneCallAtMost env topic event w0)
            as H;
          destruct (Legacy.processEvent env topic event w0) as [w1 [[] | e]]
      end; [ exact H | apply caught_oneCallAtMost, H ].
    + apply caught_oneCallAtMost, untouched_oneCallAtMost; reflexivity.
Qed.

End Facts.

Lemma current_router_follows_its_table_witness :
  (truthy (VStr "USER_DELETED") = true /\
   truthy learner = true /\
   destructure (VObj userDeleted) = Return (VStr "USER_DELETED", learner)) /\
  calls (fst (Current.processEvent sampleEnv "user-topic" (VObj userDeleted)
                emptyWorld)) =
    calls emptyWorld ++
    routedCalls (route "user-topic" (VStr "USER_DELETED")) learner.
Proof.
  split; [ repeat split; reflexivity | ].
  apply (current_router_follows_its_table sampleEnv "user-topic"
           (VStr "USER_DELETED") learner (VObj userDeleted) emptyWorld
           eq_refl eq_refl eq_refl).
Defined.

Lemma legacy_router_follows_its_table_witness :
  (truthy (VStr "USER_DELETED") = true /\
   truthy learner = true /\
   destructure (VObj userDeleted) = Return (VStr "USER_DELETED", learner)) /\
  calls (fst (Legacy.processEvent sampleEnv "user-topic" (VObj userDeleted)
                emptyWorld)) =
    calls emptyWorld ++
    routedCalls (legacyRoute "user-topic" (VStr "USER_DELETED")) learner.
Proof.
  split; [ repeat split; reflexivity | ].
  apply (legacy_router_follows_its_table sampleEnv "user-topic"
           (VStr "USER_DELETED") learner (VObj userDeleted) emptyWorld
           eq_refl eq_refl eq_refl).
Defined.

Lemma falsy_type_or_data_is_dropped_witness :
  (destructure (VObj [("eventType", VStr ""); ("data", learner)]) =
     Return (VStr "", learner) /\
   (truthy (VStr "") = false \/ truthy learner = false)) /\
  calls (fst (Current.processEvent sampleEnv "user-topic"
                (VObj [("eventType", VStr ""); ("data", learner)])
                emptyWorld)) =
    calls emptyWorld.
Proof.
  split; [ split; [ reflexivity | left; reflexivity ] | ].
  apply (falsy_type_or_data_is_dropped sampleEnv "user-topic" (VStr "")
           learner (VObj [("eventType", VStr ""); ("data", learner)])
           emptyWorld eq_refl (or_introl eq_refl)).
Defined.

Lemma unusable_messages_reach_no_handler_witness :
  (value (mkMessage None) = None \/ value (mkMessage None) = Some "") /\
  Current.eachMessage sampleEnv "user-topic" (mkMessage None) emptyWorld =
    (noting [mkLog LWarn "Received empty Kafka message" None []] emptyWorld,
     Return tt).
Proof.
  split; [ left; reflexivity | ].
  apply (proj1 (unusable_messages_reach_no_handler sampleEnv "user-topic"
                  emptyWorld) (mkMessage None) (or_introl eq_refl)).
Defined.

(** A status update for a course reaches the course handler on
    [course-topic] only; an enrollment reaches it from anywhere. *)
Example course_status_update_needs_its_topic :
  route "course-topic" (VStr "COURSE_STATUS_UPDATED") =
    Some (courseHandler handleUserCourseUpdate) /\
  route "user-topic" (VStr "COURSE_STATUS_UPDATED") = None /\
  route "user-topic" (VStr "COURSE_ENROLLMENT_CREATED") =
    Some (courseHandler handleCourseEnrollmentCreated).
Proof. repeat split. Qed.

End RouterTableFacts.

(** ** Further properties of the project handler *)

Module ProjectCallFacts.
Import ProjectHandler ProjectSpec ProjectCalls.

Ltac crunch :=
  repeat (cbn;
          match goal with
          | |- context [Nat.eqb (length ?l) 0] =>
              is_var l; destruct l as [| ? ?]
          | |- context [if ?b then _ else _] => destruct b eqn:?
          | |- context [match ?c with Return _ => _ | Throw _ => _ end] =>
              destruct c as [? | ?] eqn:?
          | |- context [match ?e with
                        | ErrorObject _ => _
                        | ThrownValue _ => _
                        end] =>
              destruct e as [? | ?] eqn:?
          end).

Ltac tidy :=
  cbn [fst snd dbCalls store]; rewrite <- ?app_assoc;
  cbn [fst snd dbCalls store]; rewrite ?drop_app_length, ?drop_all; cbn.

Section Facts.

Context {DB : Type}.
Implicit Types (env : Env DB) (w : World DB).

Lemma created_calls env data w :
  createdCallsShape
    (madeCalls w (fst (handleProjectCreated env data w))) /\
  (forall v, snd (handleProjectCreated env data w) = Return v ->
             property v "success" = VBool true).
Proof.
  unfold handleProjectCreated, tryProjectCreated, tryCatch, consolef, bind,
    liftC, console, storage, rethrow, throw, ret, createdCallsShape,
    madeCalls.
  crunch.
  all: tidy; tidy.
  all: split;
    [ first [ left; reflexivity
            | right; left; eexists; reflexivity
            | right; right; do 2 eexists; reflexivity ]
    | let H := fresh "Hreturned" in
      intros ? H; try discriminate H; injection H as <-; reflexivity ].
Qed.

Lemma sync_calls env data w :
  syncCallsShape (madeCalls w (fst (handleProjectSyncUpdate env data w))) /\
  (forall v, snd (handleProjectSyncUpdate env data w) = Return v ->
             property v "success" = VBool true).
Proof.
  unfold handleProjectSyncUpdate, tryProjectSyncUpdate, tryCatch, consolef,
    bind, liftC, console, storage, rethrow, throw, ret, syncCallsShape,
    madeCalls.
  crunch.
  all: tidy; tidy.
  all: split;
    [ first [ left; reflexivity
            | right; do 2 eexists; reflexivity ]
    | let H := fresh "Hreturned" in
      intros ? H; try discriminate H; injection H as <-; reflexivity ].
Qed.

(** X20.  Whatever the payload and whatever the collaborators do, the storage
    calls of [handleProjectCreated] are none, or the project alone, or
    the project followed by its tasks: the tasks are never written
    without the project, nor before it.  Those of
    [handleProjectSyncUpdate] are none, or a single call with a list of
    tracking records that is not empty. *)
Theorem storage_calls_keep_their_order env data w :
  createdCallsShape (madeCalls w (fst (handleProjectCreated env data w))) /\
  syncCallsShape (madeCalls w (fst (handleProjectSyncUpdate env data w))).
Proof.
  split; [ apply created_calls | apply sync_calls ].
Qed.

(** X21.  Neither handler ever returns a failure object: whatever it returns
    has [success] true, and every failure leaves as an exception. *)
Theorem handlers_return_only_success env data w v :
  (snd (handleProjectCreated env data w) = Return v ->
   property v "success" = VBool true) /\
  (snd (handleProjectSyncUpdate env data w) = Return v ->
   property v "success" = VBool true).
Proof.
  split; [ apply created_calls | apply sync_calls ].
Qed.

(** The [try] block of [handleProjectCreated] once the project has been
    written. *)
Lemma created_epilogue env data w project db1 :
  validateProjectCreated env data = Return tt ->
  template (creationLogged data) = Return tt ->
  transformProjectData env data = Return project ->
  upsertProject env project (store w) = (db1, Return tt) ->
  exists lines,
    tryProjectCreated env data w =
      (consolef "[ProjectHandler] Project created/updated successfully"
         (projectLogged project) >>
       let* transformedTasksData :=
         liftC (transformProjectTasksData env data) in
       let* tasksResult :=
         storage (UpsertProjectTasks transformedTasksData)
           (upsertProjectTasks env transformedTasksData) in
       consolef "[ProjectHandler] Project tasks processed"
         [VNum (count tasksResult); ProjectId project] >>
       ret (VObj [("success", VBool true);
                  ("projectId", ProjectId project);
                  ("tasksCount", VNum (count tasksResult))]))
        (mkWorld db1 (dbCalls w ++ [UpsertProject project])
           (logs w ++ lines)).
Proof.
  intros Hval Hlog Hp Hup.
  rewrite (ProjectFacts.created_prologue env data w Hval Hlog).
  unfold bind at 1, liftC at 1. rewrite Hp.
  unfold bind at 1, storage at 1. cbn [store dbCalls logs].
  rewrite Hup. cbn [fst snd]. eexists. reflexivity.
Qed.

(** X22.  A creation event that passes validation, with transforms and
    storage working and with a text for each value that is logged,
    upserts the project, then its tasks on the store the first write
    left, and returns the project's id with the number of tasks the
    storage reported. *)
Theorem project_is_written_before_its_tasks
    env data w project tasks db1 db2 result :
  validateProjectCreated env data = Return tt ->
  template (creationLogged data) = Return tt ->
  transformProjectData env data = Return project ->
  upsertProject env project (store w) = (db1, Return tt) ->
  template (projectLogged project) = Return tt ->
  transformProjectTasksData env data = Return tasks ->
  upsertProjectTasks env tasks db1 = (db2, Return result) ->
  snd (handleProjectCreated env data w) =
    Return (VObj [("success", VBool true);
                  ("projectId", ProjectId project);
                  ("tasksCount", VNum (count result))]) /\
  store (fst (handleProjectCreated env data w)) = db2 /\
  dbCalls (fst (handleProjectCreated env data w)) =
    dbCalls w ++ [UpsertProject project; UpsertProjectTasks tasks].
Proof.
  intros Hval Hlog Hp Hup Hlog2 Ht Hut.
  destruct (created_epilogue env data w project db1 Hval Hlog Hp Hup)
    as [lines Hrun].
  assert (Hid : template [VNum (count result); ProjectId project] =
                Return tt).
  { apply ProjectFacts.template_cons in Hlog2. destruct Hlog2 as [Hid _].
    apply ProjectFacts.template_cons. split; [ reflexivity | ].
    apply ProjectFacts.template_cons. split; [ exact Hid | reflexivity ]. }
  assert (Hall : exists lines',
             handleProjectCreated env data w =
               (mkWorld db2
                  (dbCalls w ++
                   [UpsertProject project; UpsertProjectTasks tasks])
                  lines',
                Return (VObj [("success", VBool true);
                              ("projectId", ProjectId project);
                              ("tasksCount", VNum (count result))]))).
  { unfold handleProjectCreated, tryCatch. rewrite Hrun.
    unfold bind at 1. rewrite (ProjectFacts.consolef_ok _ _ _ Hlog2).
    unfold bind at 1, liftC at 1. rewrite Ht.
    unfold bind at 1, storage at 1. cbn [store dbCalls logs].
    rewrite Hut. cbn [fst snd].
    unfold bind at 1. rewrite (ProjectFacts.consolef_ok _ _ _ Hid).
    cbn. rewrite <- app_assoc. eexists. reflexivity. }
  destruct Hall as [lines' ->]. repeat split.
Qed.

(** X23.  There is no rollback.  When the project has been upserted and
    the log line that follows, the task transform or the task write then
    fails, the handler throws while the store keeps the project write.
    If the failure is a [ValidationError] of the transform it is reported
    with the [Validation failed:] prefix all the same: that prefix does
    not mean nothing was written. *)
Theorem failure_after_the_project_write_keeps_it
    env data w project db1 (e : Thrown) :
  validateProjectCreated env data = Return tt ->
  template (creationLogged data) = Return tt ->
  transformProjectData env data = Return project ->
  upsertProject env project (store w) = (db1, Return tt) ->
  (template (projectLogged project) = Throw e ->
   store (fst (handleProjectCreated env data w)) = db1 /\
   dbCalls (fst (handleProjectCreated env data w)) =
     dbCalls w ++ [UpsertProject project] /\
   snd (handleProjectCreated env data w) = Throw e) /\
  (template (projectLogged project) = Return tt ->
   transformProjectTasksData env data = Throw e ->
   store (fst (handleProjectCreated env data w)) = db1 /\
   dbCalls (fst (handleProjectCreated env data w)) =
     dbCalls w ++ [UpsertProject project] /\
   snd (handleProjectCreated env data w) = Throw (rethrown e)) /\
  (template (projectLogged project) = Return tt ->
   forall tasks db2,
     transformProjectTasksData env data = Return tasks ->
     upsertProjectTasks env tasks db1 = (db2, Throw e) ->
     store (fst (handleProjectCreated env data w)) = db2 /\
     dbCalls (fst (handleProjectCreated env data w)) =
       dbCalls w ++ [UpsertProject project; UpsertProjectTasks tasks] /\
     snd (handleProjectCreated env data w) = Throw (rethrown e)).
Proof.
  intros Hval Hlog Hp Hup.
  destruct (created_epilogue env data w project db1 Hval Hlog Hp Hup)
    as [lines Hrun].
  repeat apply conj.
  - intros Hlog2.
    assert (Hall : exists w1,
               tryProjectCreated env data w = (w1, Throw e) /\
               store w1 = db1 /\
               dbCalls w1 = dbCalls w ++ [UpsertProject project]).
    { rewrite Hrun. unfold bind at 1.
      rewrite (ProjectFacts.consolef_throws _ _ _ _ Hlog2).
      eexists. repeat split. }
    destruct Hall as (w1 & Htry & Hs & Hc).
    unfold handleProjectCreated, tryCatch. rewrite Htry.
    destruct (ProjectFacts.rethrow_rethrown (DB := DB) (A := JsVal)
                "Validation failed in handleProjectCreated:"
                "Error handling project creation:" e w1) as (R1 & R2 & R3).
    rewrite R1, R2, R3, Hs, Hc.
    rewrite (ProjectFacts.template_throws _ _ Hlog2). repeat split.
  - intros Hlog2 Ht.
    assert (Hall : exists w1,
               tryProjectCreated env data w = (w1, Throw e) /\
               store w1 = db1 /\
               dbCalls w1 = dbCalls w ++ [UpsertProject project]).
    { rewrite Hrun. unfold bind at 1.
      rewrite (ProjectFacts.consolef_ok _ _ _ Hlog2).
      unfold bind at 1, liftC at 1. rewrite Ht.
      eexists. repeat split. }
    destruct Hall as (w1 & Htry & Hs & Hc).
    unfold handleProjectCreated, tryCatch. rewrite Htry.
    destruct (ProjectFacts.rethrow_rethrown (DB := DB) (A := JsVal)
                "Validation failed in handleProjectCreated:"
                "Error handling project creation:" e w1) as (R1 & R2 & R3).
    rewrite R1, R2, R3, Hs, Hc. repeat split.
  - intros Hlog2 tasks db2 Ht Hut.
    assert (Hall : exists w1,
               tryProjectCreated env data w = (w1, Throw e) /\
               store w1 = db2 /\
               dbCalls w1 =
                 dbCalls w ++
                 [UpsertProject project; UpsertProjectTasks tasks]).
    { rewrite Hrun. unfold bind at 1.
      rewrite (ProjectFacts.consolef_ok _ _ _ Hlog2).
      unfold bind at 1, liftC at 1. rewrite Ht.
      unfold bind at 1, storage at 1. cbn [store dbCalls logs].
      rewrite Hut. cbn [fst snd]. rewrite <- app_assoc.
      eexists. repeat split. }
    destruct Hall as (w1 & Htry & Hs & Hc).
    unfold handleProjectCreated, tryCatch. rewrite Htry.
    destruct (ProjectFacts.rethrow_rethrown (DB := DB) (A := JsVal)
                "Validation failed in handleProjectCreated:"
                "Error handling project creation:" e w1) as (R1 & R2 & R3).
    rewrite R1, R2, R3, Hs, Hc. repeat split.
Qed.

(** X24.  A payload that is [null] or [undefined] makes both handlers throw a
    [TypeError] as it is, not a validation failure: no validator is
    consulted, nothing is transformed and no storage call is made. *)
Theorem null_payload_is_a_type_error env data w :
  nullish data = true ->
  (exists e : JsError,
     errClass e = TypeError /\
     snd (handleProjectCreated env data w) = Throw e /\
     snd (handleProjectSyncUpdate env data w) = Throw e) /\
  dbCalls (fst (handleProjectCreated env data w)) = dbCalls w /\
  store (fst (handleProjectCreated env data w)) = store w /\
  dbCalls (fst (handleProjectSyncUpdate env data w)) = dbCalls w /\
  store (fst (handleProjectSyncUpdate env data w)) = store w.
Proof.
  intros Hnull.
  unfold handleProjectCreated, tryProjectCreated, handleProjectSyncUpdate,
    tryProjectSyncUpdate, validateProjectCreated, validateProjectSyncUpdate,
    tryCatch, bind, liftC, console, member, bindC, rethrow, throw.
  rewrite Hnull. cbn.
  split; [ | repeat split ].
  exists (mkError TypeError "Cannot read properties of undefined").
  repeat split.
Qed.

(** X25.  A sync payload that passes validation, whose logged values have
    a text, and that has completed tasks makes a single storage call
    with all the tracking records, and the result reports their number
    as [completedTasks] and the storage's own [inserted] and [skipped]
    counts unchanged. *)
Theorem completions_are_handed_over_in_one_call
    env data w record records db result :
  validateProjectSyncUpdate env data = Return tt ->
  template (syncLogged data) = Return tt ->
  transformProjectTaskTrackingData env data = Return (record :: records) ->
  upsertProjectTaskTrackings env (record :: records) (store w) =
    (db, Return result) ->
  exists v,
    snd (handleProjectSyncUpdate env data w) = Return v /\
    property v "completedTasks" =
      VNum (Z.of_nat (length (record :: records))) /\
    property v "inserted" = VNum (inserted result) /\
    property v "skipped" = VNum (skipped result) /\
    property v "projectId" = property data "solutionId" /\
    store (fst (handleProjectSyncUpdate env data w)) = db /\
    dbCalls (fst (handleProjectSyncUpdate env data w)) =
      dbCalls w ++ [UpsertProjectTaskTrackings (record :: records)].
Proof.
  intros Hval Hlog Ht Hup.
  assert (Hid : template [property data "solutionId"; VNum (inserted result);
                          VNum (skipped result)] = Return tt).
  { apply ProjectFacts.template_cons. split; [ | reflexivity ].
    assert (H : template [property data "solutionId"] = Return tt).
    { apply (ProjectFacts.template_member _ _ Hlog).
      unfold syncLogged. cbn. auto. }
    apply ProjectFacts.template_cons in H. apply H. }
  assert (Hall : exists lines v,
             handleProjectSyncUpdate env data w =
               (mkWorld db
                  (dbCalls w ++
                   [UpsertProjectTaskTrackings (record :: records)])
                  lines,
                Return v) /\
             property v "completedTasks" =
               VNum (Z.of_nat (length (record :: records))) /\
             property v "inserted" = VNum (inserted result) /\
             property v "skipped" = VNum (skipped result) /\
             property v "projectId" = property data "solutionId").
  { unfold handleProjectSyncUpdate, tryCatch.
    rewrite (ProjectFacts.sync_prologue env data w Hval Hlog).
    unfold bind at 1, liftC at 1. rewrite Ht.
    unfold bind at 1. rewrite ProjectFacts.consolef_ok by reflexivity.
    cbn [length Nat.eqb]. unfold bind at 1, storage at 1.
    cbn [store dbCalls logs]. rewrite Hup. cbn [fst snd].
    unfold bind at 1. rewrite (ProjectFacts.consolef_ok _ _ _ Hid).
    cbn -[Z.of_nat]. do 2 eexists. repeat split. }
  destruct Hall as (lines & v & -> & H1 & H2 & H3 & H4).
  exists v. repeat split; assumption.
Qed.

End Facts.

Lemma handlers_return_only_success_witness :
  snd (handleProjectSyncUpdate sampleEnv projectWithCompletion emptyWorld) =
    Return (VObj [("success", VBool true);
                  ("projectId", VStr "s1");
                  ("status", VStr "inProgress");
                  ("totalTasks", VNum 1);
                  ("completedTasks", VNum 1);
                  ("inserted", VNum 1);
                  ("skipped", VNum 0)]) /\
  property
    (VObj [("success", VBool true);
           ("projectId", VStr "s1");
           ("status", VStr "inProgress");
           ("totalTasks", VNum 1);
           ("completedTasks", VNum 1);
           ("inserted", VNum 1);
           ("skipped", VNum 0)]) "success" = VBool true.
Proof.
  split; [ vm_compute; reflexivity | ].
  apply (proj2 (handlers_return_only_success sampleEnv projectWithCompletion
                  emptyWorld _)).
  vm_compute. reflexivity.
Defined.

Lemma project_is_written_before_its_tasks_witness :
  (validateProjectCreated sampleEnv creation = Return tt /\
   template (creationLogged creation) = Return tt /\
   transformProjectData sampleEnv creation =
     Return (mkProject (VStr "pt1") (VStr "Garden")) /\
   upsertProject sampleEnv (mkProject (VStr "pt1") (VStr "Garden")) [] =
     ([], Return tt) /\
   template (projectLogged (mkProject (VStr "pt1") (VStr "Garden"))) =
     Return tt /\
   transformProjectTasksData sampleEnv creation =
     Return (VArr [VObj [("taskId", VStr "t1")]]) /\
   upsertProjectTasks sampleEnv (VArr [VObj [("taskId", VStr "t1")]]) [] =
     ([], Return (mkTasksResult 0))) /\
  dbCalls (fst (handleProjectCreated sampleEnv creation emptyWorld)) =
    dbCalls emptyWorld ++
    [UpsertProject (mkProject (VStr "pt1") (VStr "Garden"));
     UpsertProjectTasks (VArr [VObj [("taskId", VStr "t1")]])].
Proof.
  split; [ repeat split; reflexivity | ].
  apply (project_is_written_before_its_tasks sampleEnv creation emptyWorld
           (mkProject (VStr "pt1") (VStr "Garden"))
           (VArr [VObj [("taskId", VStr "t1")]]) [] [] (mkTasksResult 0)
           eq_refl eq_refl eq_refl eq_refl eq_refl eq_refl eq_refl).
Defined.

Lemma failure_after_the_project_write_keeps_it_witness :
  (validateProjectCreated strictTasksEnv creation = Return tt /\
   template (creationLogged creation) = Return tt /\
   transformProjectData strictTasksEnv creation =
     Return (mkProject (VStr "pt1") (VStr "Garden")) /\
   upsertProject strictTasksEnv (mkProject (VStr "pt1") (VStr "Garden")) [] =
     ([VStr "pt1"], Return tt) /\
   template (projectLogged (mkProject (VStr "pt1") (VStr "Garden"))) =
     Return tt /\
   transformProjectTasksData strictTasksEnv creation =
     Throw (mkError ValidationError "task without externalId")) /\
  store (fst (handleProjectCreated strictTasksEnv creation emptyWorld)) =
    [VStr "pt1"] /\
  snd (handleProjectCreated strictTasksEnv creation emptyWorld) =
    Throw (mkError PlainError "Validation failed: task without externalId").
Proof.
  split; [ repeat split; reflexivity | ].
  destruct (proj1 (proj2 (failure_after_the_project_write_keeps_it
                            strictTasksEnv creation emptyWorld
                            (mkProject (VStr "pt1") (VStr "Garden"))
                            [VStr "pt1"]
                            (mkError ValidationError
                               "task without externalId")
                            eq_refl eq_refl eq_refl eq_refl))
              eq_refl eq_refl)
    as (Hstore & _ & Hthrow).
  split; [ exact Hstore | exact Hthrow ].
Defined.

Lemma null_payload_is_a_type_error_witness :
  nullish VNull = true /\
  dbCalls (fst (handleProjectCreated sampleEnv VNull emptyWorld)) =
    dbCalls emptyWorld.
Proof.
  split; [ reflexivity | ].
  apply (null_payload_is_a_type_error sampleEnv VNull emptyWorld eq_refl).
Defined.

Lemma completions_are_handed_over_in_one_call_witness :
  (validateProjectSyncUpdate sampleEnv projectWithCompletion = Return tt /\
   template (syncLogged projectWithCompletion) = Return tt /\
   transformProjectTaskTrackingData sampleEnv projectWithCompletion =
     Return [VObj [("taskId", VStr "t1"); ("status", VStr "completed")]] /\
   upsertProjectTaskTrackings sampleEnv
     [VObj [("taskId", VStr "t1"); ("status", VStr "completed")]] [] =
     ([VObj [("taskId", VStr "t1"); ("status", VStr "completed")]],
      Return (mkTrackingsResult 1 0))) /\
  exists v,
    snd (handleProjectSyncUpdate sampleEnv projectWithCompletion emptyWorld) =
      Return v /\
    property v "inserted" = VNum 1.
Proof.
  split; [ repeat split; reflexivity | ].
  destruct (completions_are_handed_over_in_one_call sampleEnv
              projectWithCompletion emptyWorld
              (VObj [("taskId", VStr "t1"); ("status", VStr "completed")])
              [] [VObj [("taskId", VStr "t1"); ("status", VStr "completed")]]
              (mkTrackingsResult 1 0) eq_refl eq_refl eq_refl eq_refl)
    as (v & Hret & _ & Hins & _).
  exists v. split; assumption.
Defined.

(** A creation event whose [totalTasks] has no text: nothing is
    transformed or written, and the handler throws the [TypeError] of its
    first log line.  A project whose name has no text: the project is
    written, the log line after the write throws, and the tasks are
    not. *)
Example values_without_text_in_a_creation :
  handleProjectCreated sampleEnv
    (VObj [("projectTemplate", VObj [("projectTemplateId", VStr "pt1")]);
           ("projectTemplateTasks", VArr []);
           ("totalTasks", VObj [("toString", VNull)])])
    emptyWorld =
    (mkWorld [] []
       [mkLog LError "Error handling project creation:"
          (Some
             (ErrorObject
                (mkError TypeError
                   "Cannot convert object to primitive value")))
          []],
     Throw (mkError TypeError "Cannot convert object to primitive value")) /\
  dbCalls
    (fst (handleProjectCreated strictTasksEnv
            (VObj [("projectTemplate",
                    VObj [("projectTemplateId", VStr "pt1");
                          ("title", VObj [("toString", VNull)])]);
                   ("projectTemplateTasks", VArr []);
                   ("totalTasks", VNum 0)])
            emptyWorld)) =
    [UpsertProject
       (mkProject (VStr "pt1") (VObj [("toString", VNull)]))].
Proof. split; vm_compute; reflexivity. Qed.

End ProjectCallFacts.
